(** * Dialogflow language-model conversion (jovo-model-dialogflow)

    A shallow embedding of [JovoModelDialogflow.toJovoModel] (native file
    set to canonical model) and [JovoModelDialogflow.fromJovoModel]
    (canonical model to native file set), with the JavaScript and lodash
    operations they apply to untyped file contents.

    Modelling conventions.
    - A JavaScript string is its sequence of UTF-16 code units.
    - File contents and vendor sub-trees are JSON trees extended with
      [undefined]; a number is an integer that a double holds exactly.
    - An array is the list of its elements, with [VHole] where an index
      below the length has no element.  It has no other own property: no
      vendor sub-tree names a property of an array that is not an index
      ([length] included) where it is merged into one.
    - An object is the list of its own properties in enumeration order.
      Members inherited from a prototype are not represented, so no
      property is named [__proto__], [constructor] or like a method of
      [Object.prototype], [Array.prototype] or [String.prototype].
    - Two arrays or objects met at different places of a tree are
      different references, as they are in a tree read from JSON files.
    - A lodash path is given by its keys; no object has a property whose
      own name is the text of a whole path such as [responses[0].speech].
    - An operation that throws in JavaScript returns [Raise]. *)

From Stdlib Require Import List String Ascii ZArith NArith Lia Bool DecimalString.
From Equations Require Import Equations.
From Equations.Prop Require Import Logic.
Import ListNotations.
Local Open Scope list_scope.

Set Implicit Arguments.
Set Warnings "-register-all".

(** ** Strings as UTF-16 code units *)

Definition jsstring := list N.

Definition str (s : string) : jsstring :=
  List.map N_of_ascii (list_ascii_of_string s).
Arguments str s%_string.

Fixpoint str_eqb (a b : jsstring) : bool :=
  match a, b with
  | [], [] => true
  | x :: a', y :: b' => N.eqb x y && str_eqb a' b'
  | _, _ => false
  end.

(** [s.startsWith(p)] *)
Fixpoint startsWith (s p : jsstring) : bool :=
  match p, s with
  | [], _ => true
  | x :: p', y :: s' => N.eqb x y && startsWith s' p'
  | _ :: _, [] => false
  end.

(** [s.indexOf(p) > -1] *)
Fixpoint includes (s p : jsstring) : bool :=
  startsWith s p ||
  match s with
  | [] => false
  | _ :: s' => includes s' p
  end.

(** [s.substr(1)] *)
Definition substr1 (s : jsstring) : jsstring := List.tl s.

(** *** Numbers as text *)

(** The decimal digits of an integer. *)
Definition decimal (z : Z) : jsstring :=
  str (NilZero.string_of_int (Z.to_int z)).

(** The real [v] rounds to the double [x], for an integer [x] from [2^53]
    on: [x] is [m * 2^q] with [2^52 <= m < 2^53], the next double above
    is [2^q] away, the next one below as far or, below a power of two,
    half as far, and a tie goes to the even [m].  The bounds are taken
    four times. *)
Definition rounds_to (x v : Z) : bool :=
  let q := (Z.log2 x - 52)%Z in
  let up := (2 ^ (q + 1))%Z in
  let down := if (x =? 2 ^ (q + 52))%Z then (2 ^ q)%Z else up in
  if Z.even (x / 2 ^ q)
  then ((4 * x - down <=? 4 * v) && (4 * v <=? 4 * x + up))%Z
  else ((4 * x - down <? 4 * v) && (4 * v <? 4 * x + up))%Z.

(** The decimal with the fewest significant digits that rounds to [x],
    the closest to [x] among those; [p] counts the low digits given up. *)
Fixpoint shortest (x : Z) (p : nat) : Z :=
  match p with
  | O => x
  | S p' =>
      let unit := (10 ^ Z.of_nat p)%Z in
      let lo := (x / unit * unit)%Z in
      let hi := (lo + unit)%Z in
      match rounds_to x lo, rounds_to x hi with
      | true, true =>
          if (x - lo <? hi - x)%Z then lo
          else if (hi - x <? x - lo)%Z then hi
          else if Z.even (x / unit) then lo else hi
      | true, false => lo
      | false, true => hi
      | false, false => shortest x p'
      end
  end.

Fixpoint strip_zeros (reversed : jsstring) : jsstring :=
  match reversed with
  | 48%N :: rest => strip_zeros rest
  | _ => reversed
  end.

(** [String(x)] for an integer [x >= 0]: the digits of the shortest
    decimal that reads back as [x], written out up to 21 digits and in
    exponent form beyond. *)
Definition unsigned_to_string (x : Z) : jsstring :=
  let v := if (x <? 2 ^ 53)%Z then x else shortest x (List.length (decimal x) - 1) in
  let digits := decimal v in
  let n := List.length digits in
  if (n <=? 21)%nat then digits
  else
    match rev (strip_zeros (rev digits)) with
    | [] => digits
    | first :: rest =>
        first :: (match rest with [] => [] | _ => str "." ++ rest end)
          ++ str "e+" ++ decimal (Z.of_nat n - 1)
    end.

(** Number to string. *)
Definition num_to_string (z : Z) : jsstring :=
  if (z <? 0)%Z then str "-" ++ unsigned_to_string (- z) else unsigned_to_string z.

Definition is_digit (c : N) : bool := (48 <=? c)%N && (c <=? 57)%N.

(** A canonical numeric key: [0] or a digit sequence without leading
    zero. *)
Definition is_uint (k : jsstring) : option N :=
  match k with
  | [] => None
  | c :: rest =>
      if forallb is_digit k && (negb (N.eqb c 48) || match rest with [] => true | _ => false end)
      then Some (fold_left (fun acc d => (acc * 10 + (d - 48))%N) k 0%N)
      else None
  end.

(** A property key that is an array index: a canonical numeric key below
    [2^32 - 1].  Such keys come first when the properties of an object
    are enumerated. *)
Definition is_index (k : jsstring) : option N :=
  match is_uint k with
  | Some i => if (i <? 4294967295)%N then Some i else None
  | None => None
  end.

(** lodash [isIndex(key)]: a canonical numeric key below
    [Number.MAX_SAFE_INTEGER]. *)
Definition lodash_isIndex (k : jsstring) : bool :=
  match is_uint k with
  | Some i => (i <? 9007199254740991)%N
  | None => false
  end.

(** *** Text as a number *)

(** White space and line terminators, which [Number(s)] strips. *)
Definition is_space (c : N) : bool :=
  ((c =? 9) || (c =? 10) || (c =? 11) || (c =? 12) || (c =? 13) || (c =? 32) || (c =? 160)
   || (c =? 5760) || ((8192 <=? c) && (c <=? 8202)) || (c =? 8232) || (c =? 8233)
   || (c =? 8239) || (c =? 8287) || (c =? 12288) || (c =? 65279))%N.

Fixpoint trim_start (s : jsstring) : jsstring :=
  match s with
  | c :: rest => if is_space c then trim_start rest else s
  | [] => []
  end.

Definition trim (s : jsstring) : jsstring := rev (trim_start (rev (trim_start s))).

Fixpoint span_digits (s : jsstring) : jsstring * jsstring :=
  match s with
  | c :: rest =>
      if is_digit c then let (ds, r) := span_digits rest in (c :: ds, r) else ([], s)
  | [] => ([], [])
  end.

Definition digits_value (ds : jsstring) : Z :=
  fold_left (fun acc d => (acc * 10 + (Z.of_N d - 48))%Z) ds 0%Z.

Definition is_nil {A} (l : list A) : bool :=
  match l with
  | [] => true
  | _ => false
  end.

(** An unsigned decimal literal ([12], [1.5], [.5], [5.], [1e-3]) as the
    pair [(m, e)] of its value [m * 10^e]. *)
Definition unsigned_decimal (s : jsstring) : option (Z * Z) :=
  let (whole, r1) := span_digits s in
  let (fraction, r2) :=
    match r1 with
    | 46%N :: r => span_digits r
    | _ => ([], r1)
    end in
  if is_nil whole && is_nil fraction then None
  else
    let m := digits_value (whole ++ fraction) in
    let shift := Z.of_nat (List.length fraction) in
    match r2 with
    | [] => Some (m, (- shift)%Z)
    | e :: r3 =>
        if ((e =? 101) || (e =? 69))%N then
          let (negative, r4) :=
            match r3 with
            | 43%N :: r => (false, r)
            | 45%N :: r => (true, r)
            | _ => (false, r3)
            end in
          let (ds, r5) := span_digits r4 in
          if is_nil ds || negb (is_nil r5) then None
          else Some (m, ((if negative then - digits_value ds else digits_value ds) - shift)%Z)
        else None
    end.

Definition digit_of (radix : N) (c : N) : option N :=
  let d :=
    if is_digit c then Some (c - 48)%N
    else if ((97 <=? c) && (c <=? 102))%N then Some (c - 87)%N
    else if ((65 <=? c) && (c <=? 70))%N then Some (c - 55)%N
    else None in
  match d with
  | Some n => if (n <? radix)%N then Some n else None
  | None => None
  end.

(** A literal [0x..], [0o..] or [0b..] with a digit that is not zero. *)
Definition positive_radix (s : jsstring) : bool :=
  match s with
  | 48%N :: p :: d :: ds =>
      let radix :=
        if ((p =? 120) || (p =? 88))%N then Some 16%N
        else if ((p =? 111) || (p =? 79))%N then Some 8%N
        else if ((p =? 98) || (p =? 66))%N then Some 2%N
        else None in
      match radix with
      | Some r =>
          forallb (fun c => match digit_of r c with Some _ => true | None => false end)
            (d :: ds)
          && existsb (fun c => negb (c =? 48)%N) (d :: ds)
      | None => false
      end
  | _ => false
  end.

(** [Number(s) > 0]: the text, white space apart, is a numeric literal
    without minus sign whose value does not round to zero, that is, lies
    above [2^-1075]. *)
Definition positive_text (s : jsstring) : bool :=
  let t := trim s in
  match t with
  | 45%N :: _ => false
  | _ =>
      let signed := match t with 43%N :: _ => true | _ => false end in
      let u := match t with 43%N :: r => r | _ => t end in
      if str_eqb u (str "Infinity") then true
      else
        match unsigned_decimal u with
        | Some (m, e) =>
            ((0 <? m) && ((0 <=? e) || (10 ^ (- e) <? m * 2 ^ 1075)))%Z
        | None => negb signed && positive_radix t
        end
  end.

(** Iterating a string yields its code points: a high surrogate followed
    by a low surrogate forms one element. *)
Definition is_high_surrogate (c : N) : bool := (55296 <=? c)%N && (c <=? 56319)%N.
Definition is_low_surrogate (c : N) : bool := (56320 <=? c)%N && (c <=? 57343)%N.

Fixpoint code_points (s : jsstring) : list jsstring :=
  match s with
  | [] => []
  | c :: rest =>
      match rest with
      | d :: rest' =>
          if is_high_surrogate c && is_low_surrogate d
          then [c; d] :: code_points rest'
          else [c] :: code_points rest
      | [] => [[c]]
      end
  end.

(** ** Values *)

(** [VHole] is the place of a missing element in an array: the indices
    before the one that [a[2] = x] sets in an empty array.  It counts in
    the length, reads as [undefined], is not [in] the array, and
    [forEach] passes over it.  It is met as an item of an array only. *)
Inductive value : Type :=
| VUndef
| VNull
| VBool (b : bool)
| VNum (z : Z)
| VStr (s : jsstring)
| VArr (items : list value)
| VObj (props : list (jsstring * value))
| VHole.

(** The value read at an index of an array. *)
Definition settle (v : value) : value :=
  match v with
  | VHole => VUndef
  | _ => v
  end.

Definition is_hole (v : value) : bool :=
  match v with
  | VHole => true
  | _ => false
  end.

Inductive error : Type :=
| TypeError
| Error (message : jsstring).

Inductive result (A : Type) : Type :=
| Ok (a : A)
| Raise (e : error).
Arguments Ok {A} a.
Arguments Raise {A} e.

Definition bind {A B} (r : result A) (k : A -> result B) : result B :=
  match r with
  | Ok a => k a
  | Raise e => Raise e
  end.

Declare Scope result_scope.
Delimit Scope result_scope with result.
Notation "x <- r ;; k" := (bind r (fun x => k))
  (at level 61, r at next level, right associativity) : result_scope.
Notation "' p <- r ;; k" := (bind r (fun x => let p := x in k))
  (at level 61, p pattern, r at next level, right associativity) : result_scope.

(** Sequential loop over a list, threading a state and stopping at the
    first exception. *)
Fixpoint foldM {A S} (body : S -> A -> result S) (l : list A) (s : S) : result S :=
  match l with
  | [] => Ok s
  | a :: rest => bind (body s a) (foldM body rest)
  end.

(** *** Objects as property lists *)

Fixpoint lookup {A} (k : jsstring) (o : list (jsstring * A)) : option A :=
  match o with
  | [] => None
  | (k', v) :: rest => if str_eqb k k' then Some v else lookup k rest
  end.

(** Position of a new own property: array-index keys come first in
    ascending order, other keys follow in creation order. *)
Fixpoint insert_index {A} (i : N) (k : jsstring) (v : A) (o : list (jsstring * A))
  : list (jsstring * A) :=
  match o with
  | [] => [(k, v)]
  | (k', v') :: rest =>
      match is_index k' with
      | Some j => if (j <? i)%N then (k', v') :: insert_index i k v rest
                  else (k, v) :: o
      | None => (k, v) :: o
      end
  end.

Fixpoint replace {A} (k : jsstring) (v : A) (o : list (jsstring * A))
  : list (jsstring * A) :=
  match o with
  | [] => []
  | (k', v') :: rest =>
      if str_eqb k k' then (k', v) :: rest else (k', v') :: replace k v rest
  end.

(** [o[k] = v] on a plain object. *)
Definition obj_set {A} (k : jsstring) (v : A) (o : list (jsstring * A))
  : list (jsstring * A) :=
  match lookup k o with
  | Some _ => replace k v o
  | None =>
      match is_index k with
      | Some i => insert_index i k v o
      | None => o ++ [(k, v)]
      end
  end.

(** [delete o[k]] *)
Fixpoint obj_delete {A} (k : jsstring) (o : list (jsstring * A))
  : list (jsstring * A) :=
  match o with
  | [] => []
  | (k', v') :: rest =>
      if str_eqb k k' then rest else (k', v') :: obj_delete k rest
  end.

(** *** Primitive operations *)

Definition truthy (v : value) : bool :=
  match v with
  | VUndef | VNull | VHole => false
  | VBool b => b
  | VNum z => negb (Z.eqb z 0)
  | VStr s => match s with [] => false | _ => true end
  | VArr _ | VObj _ => true
  end.

(** [a === b].  Two arrays or objects met at different places of a tree
    are different references. *)
Definition strict_eq (a b : value) : bool :=
  match a, b with
  | VUndef, VUndef => true
  | VNull, VNull => true
  | VBool x, VBool y => Bool.eqb x y
  | VNum x, VNum y => Z.eqb x y
  | VStr x, VStr y => str_eqb x y
  | _, _ => false
  end.

(** lodash [isObject] *)
Definition isObject (v : value) : bool :=
  match v with
  | VArr _ | VObj _ => true
  | _ => false
  end.

Fixpoint join (sep : jsstring) (l : list jsstring) : jsstring :=
  match l with
  | [] => []
  | [s] => s
  | s :: rest => s ++ sep ++ join sep rest
  end.

(** String conversion, as done by [+] with a string operand and by a
    computed property key. *)
Fixpoint to_string (v : value) : jsstring :=
  match v with
  | VUndef | VHole => str "undefined"
  | VNull => str "null"
  | VBool true => str "true"
  | VBool false => str "false"
  | VNum z => num_to_string z
  | VStr s => s
  | VArr l =>
      join (str ",")
        ((fix each (l : list value) : list jsstring :=
            match l with
            | [] => []
            | VUndef :: rest => [] :: each rest
            | VNull :: rest => [] :: each rest
            | VHole :: rest => [] :: each rest
            | x :: rest => to_string x :: each rest
            end) l)
  | VObj _ => str "[object Object]"
  end.

Definition idx_key (i : nat) : jsstring := num_to_string (Z.of_nat i).

Definition nth_value (l : list value) (i : N) : value :=
  if (i <? N.of_nat (List.length l))%N then settle (nth (N.to_nat i) l VUndef) else VUndef.

(** [v[k]] for [v] other than [null] and [undefined].  Properties
    inherited from prototypes are functions and are not represented. *)
Definition own (v : value) (k : jsstring) : value :=
  match v with
  | VObj o => match lookup k o with Some x => x | None => VUndef end
  | VArr l =>
      if str_eqb k (str "length") then VNum (Z.of_nat (List.length l))
      else match is_index k with
           | Some i => nth_value l i
           | None => VUndef
           end
  | VStr s =>
      if str_eqb k (str "length") then VNum (Z.of_nat (List.length s))
      else match is_index k with
           | Some i =>
               if (i <? N.of_nat (List.length s))%N
               then VStr [nth (N.to_nat i) s 0%N] else VUndef
           | None => VUndef
           end
  | _ => VUndef
  end.

(** [v.k]: reading a property of [null] or [undefined] throws. *)
Definition member (v : value) (k : jsstring) : result value :=
  match v with
  | VUndef | VNull | VHole => Raise TypeError
  | _ => Ok (own v k)
  end.

(** [for (const x of v)]: arrays and strings are iterable. *)
Definition iterate (v : value) : result (list value) :=
  match v with
  | VArr l => Ok (List.map settle l)
  | VStr s => Ok (List.map VStr (code_points s))
  | _ => Raise TypeError
  end.

(** [v > 0]: the operand is converted to a number, an array through its
    text; [undefined], an object and text that is no numeric literal
    give [NaN], [null] gives zero. *)
Definition gt_zero (v : value) : bool :=
  match v with
  | VNum z => (0 <? z)%Z
  | VBool b => b
  | VStr s => positive_text s
  | VArr _ => positive_text (to_string v)
  | _ => false
  end.

(** ** lodash *)

(** lodash [isArrayLikeObject]: an array, or an object whose [length] is
    a non-negative safe integer; the result lists its elements. *)
Definition array_like (v : value) : option (list value) :=
  match v with
  | VArr l => Some (List.map settle l)
  | VObj o =>
      match lookup (str "length") o with
      | Some (VNum n) =>
          if (0 <=? n)%Z && (n <=? 9007199254740991)%Z
          then Some (List.map (fun i => own v (idx_key i)) (seq 0 (Z.to_nat n)))
          else None
      | _ => None
      end
  | _ => None
  end.

(** [_get(object, path)], the path given by its keys. *)
Fixpoint lodash_get (object : value) (path : list jsstring) : value :=
  match path with
  | [] => object
  | k :: rest =>
      match object with
      | VUndef | VNull | VHole => VUndef
      | _ => lodash_get (own object k) rest
      end
  end.

(** [_get(object, path, defaultValue)] *)
Definition lodash_get_default (object : value) (path : list jsstring) (d : value) : value :=
  match lodash_get object path with
  | VUndef => d
  | v => v
  end.

(** [a[i] = v] on an array: the indices between the end of the array and
    [i] stay without element. *)
Definition arr_set (i : N) (v : value) (l : list value) : list value :=
  let n := N.to_nat i in
  firstn n l ++ repeat VHole (n - List.length l) ++ v :: skipn (S n) l.

(** [nested[key] = v] as lodash does it on an object or array it holds.
    An array has no named properties in this model: a key that is not an
    index is not assigned. *)
Definition assign (nested : value) (key : jsstring) (v : value) : value :=
  match nested with
  | VObj o => VObj (obj_set key v o)
  | VArr l =>
      match is_index key with
      | Some i => VArr (arr_set i v l)
      | None => nested
      end
  | _ => nested
  end.

Fixpoint set_in (nested : value) (path : list jsstring) (v : value) : value :=
  match path with
  | [] => nested
  | key :: rest =>
      match rest with
      | [] => assign nested key v
      | next :: _ =>
          let objValue := own nested key in
          let newValue :=
            if isObject objValue then objValue
            else if lodash_isIndex next then VArr [] else VObj [] in
          assign nested key (set_in newValue rest v)
      end
  end.

(** [_set(object, path, v)] *)
Definition lodash_set (object : value) (path : list jsstring) (v : value) : value :=
  if isObject object then set_in object path v else object.

(** [_isEqual(a, b)]: deep comparison; objects compare as maps, arrays
    index by index, a missing element as [undefined]. *)
Fixpoint isEqual (a b : value) {struct a} : bool :=
  match a, b with
  | VUndef, VUndef | VUndef, VHole | VHole, VUndef | VHole, VHole => true
  | VNull, VNull => true
  | VBool x, VBool y => Bool.eqb x y
  | VNum x, VNum y => Z.eqb x y
  | VStr x, VStr y => str_eqb x y
  | VArr l1, VArr l2 =>
      (fix each (l1 l2 : list value) : bool :=
         match l1, l2 with
         | [], [] => true
         | x :: r1, y :: r2 => isEqual x y && each r1 r2
         | _, _ => false
         end) l1 l2
  | VObj o1, VObj o2 =>
      Nat.eqb (List.length o1) (List.length o2) &&
      (fix each (o1 : list (jsstring * value)) : bool :=
         match o1 with
         | [] => true
         | (k, x) :: r1 =>
             match lookup k o2 with
             | Some y => isEqual x y && each r1
             | None => false
             end
         end) o1
  | _, _ => false
  end.

(** [_difference(array, values)] with SameValueZero as [strict_eq]; a
    [values] argument that is not array-like excludes nothing. *)
Definition lodash_difference (array values : value) : list value :=
  match array_like array with
  | Some l =>
      let excluded := match array_like values with Some e => e | None => [] end in
      filter (fun x => negb (existsb (strict_eq x) excluded)) l
  | None => []
  end.

(** [key in object] *)
Definition has_key (object : value) (key : jsstring) : bool :=
  match object with
  | VObj o => match lookup key o with Some _ => true | None => false end
  | VArr l =>
      str_eqb key (str "length") ||
      match is_index key with
      | Some i =>
          (i <? N.of_nat (List.length l))%N && negb (is_hole (nth (N.to_nat i) l VUndef))
      | None => false
      end
  | _ => false
  end.

Definition assignMergeValue (object : value) (key : jsstring) (v : value) : value :=
  match v with
  | VUndef => if has_key object key then object else assign object key VUndef
  | _ => assign object key v
  end.

Definition merge_target (objValue srcValue : value) : value :=
  match srcValue with
  | VArr _ =>
      match objValue with
      | VArr _ => objValue
      | _ => match array_like objValue with Some l => VArr l | None => VArr [] end
      end
  | _ => if isObject objValue then objValue else VObj []
  end.

(** [_merge(object, source)]: objects and arrays of the source are merged
    recursively, key by key and index by index; other values are assigned,
    and [undefined] never overwrites an existing key. *)
Fixpoint merge (object source : value) {struct source} : value :=
  match source with
  | VObj props =>
      (fix each (ps : list (jsstring * value)) (object : value) : value :=
         match ps with
         | [] => object
         | (key, srcValue) :: rest =>
             each rest
               (match srcValue with
                | VArr _ | VObj _ =>
                    assignMergeValue object key
                      (merge (merge_target (own object key) srcValue) srcValue)
                | _ => assignMergeValue object key srcValue
                end)
         end) props object
  | VArr items =>
      (fix each (xs : list value) (i : nat) (object : value) : value :=
         match xs with
         | [] => object
         | srcValue :: rest =>
             each rest (S i)
               (match srcValue with
                | VArr _ | VObj _ =>
                    assignMergeValue object (idx_key i)
                      (merge (merge_target (own object (idx_key i)) srcValue) srcValue)
                | _ => assignMergeValue object (idx_key i) (settle srcValue)
                end)
         end) items 0%nat object
  | VStr s =>
      fold_left (fun object ic => assignMergeValue object (idx_key (fst ic)) (VStr [snd ic]))
        (combine (seq 0 (List.length s)) s) object
  | _ => object
  end.

(** ** Canonical model *)

(** Modelled from the spec: the declarations of the canonical model
    ([@jovotech/model]: JovoModelData, Intent, IntentEntity, EntityType,
    EntityTypeValue, NativeFileInformation) are not under src/; the records
    follow the data model of the specification and the fields the
    conversion code reads and writes.  A vendor sub-tree ([dialogflow]) is
    an untyped tree, [VUndef] when absent. *)
Inductive EntityTypeRef : Type :=
| TypeName (name : jsstring)
| TypeVendors (vendors : list (jsstring * jsstring)).

(** Modelled from the spec: an entity of an intent, with its type, its
    exemplar text and its vendor sub-tree. *)
Record IntentEntity : Type := {
  entity_type : option EntityTypeRef;
  entity_text : value;
  entity_dialogflow : value
}.

(** Modelled from the spec: an intent, with its sample phrases, its
    entities by name and its vendor sub-tree. *)
Record Intent : Type := {
  phrases : option (list jsstring);
  entities : option (list (jsstring * IntentEntity));
  intent_dialogflow : value
}.

(** Modelled from the spec: a value of an entity type in object form. *)
Record EntityTypeValue : Type := {
  value_of : value;
  synonyms : option (list value)
}.

(** Modelled from the spec: a value as an entity type lists it, the two
    forms the exporter tells apart with [typeof value === 'string']. *)
Inductive EntityValue : Type :=
| ValueString (s : jsstring)
| ValueObject (v : EntityTypeValue).

(** Modelled from the spec: an entity type, with its values and its
    vendor sub-tree. *)
Record EntityType : Type := {
  values : option (list EntityValue);
  entityType_dialogflow : value
}.

(** Modelled from the spec: the current and the legacy shape of a model,
    which the accessor layer tells apart. *)
Inductive Schema : Type := Current | Legacy.

(** Modelled from the spec: the canonical model, as the accessor layer
    presents it for either shape. *)
Record JovoModelData : Type := {
  schema : Schema;
  version : value;
  invocation : value;
  intents : option (list (jsstring * Intent));
  entityTypes : option (list (jsstring * EntityType));
  dialogflow : value
}.

(** Modelled from the spec: a native file, by its path segments and its
    parsed content. *)
Record NativeFileInformation : Type := {
  path : list jsstring;
  content : value
}.

Definition with_intent_dialogflow (d : value) (i : Intent) : Intent :=
  {| phrases := phrases i; entities := entities i; intent_dialogflow := d |}.

Definition with_entities (e : option (list (jsstring * IntentEntity))) (i : Intent) : Intent :=
  {| phrases := phrases i; entities := e; intent_dialogflow := intent_dialogflow i |}.

Definition with_phrases (p : option (list jsstring)) (i : Intent) : Intent :=
  {| phrases := p; entities := entities i; intent_dialogflow := intent_dialogflow i |}.

Definition with_text (t : value) (e : IntentEntity) : IntentEntity :=
  {| entity_type := entity_type e; entity_text := t; entity_dialogflow := entity_dialogflow e |}.

Definition with_entityType_dialogflow (d : value) (t : EntityType) : EntityType :=
  {| values := values t; entityType_dialogflow := d |}.

Definition with_values (v : option (list EntityValue)) (t : EntityType) : EntityType :=
  {| values := v; entityType_dialogflow := entityType_dialogflow t |}.

Definition with_dialogflow (d : value) (m : JovoModelData) : JovoModelData :=
  {| schema := schema m; version := version m; invocation := invocation m;
     intents := intents m; entityTypes := entityTypes m; dialogflow := d |}.

Definition with_intents (i : option (list (jsstring * Intent))) (m : JovoModelData)
  : JovoModelData :=
  {| schema := schema m; version := version m; invocation := invocation m;
     intents := i; entityTypes := entityTypes m; dialogflow := dialogflow m |}.

Definition with_entityTypes (t : option (list (jsstring * EntityType))) (m : JovoModelData)
  : JovoModelData :=
  {| schema := schema m; version := version m; invocation := invocation m;
     intents := intents m; entityTypes := t; dialogflow := dialogflow m |}.

(** [_set(record, 'dialogflow.' + path, v)] on a record whose vendor
    sub-tree is [d]: lodash keeps the sub-tree when it is an object and
    starts from [{}] otherwise. *)
Definition set_under (d : value) (path : list jsstring) (v : value) : value :=
  set_in (if isObject d then d else VObj []) path v.

(** ** Default tables *)

Definition BUILTIN_PREFIX : jsstring := str "@sys.".

Definition DEFAULT_INTENT : value :=
  VObj [ (str "auto", VBool true);
         (str "contexts", VArr []);
         (str "responses",
           VArr [ VObj [ (str "resetContexts", VBool false);
                         (str "affectedContexts", VArr []);
                         (str "parameters", VArr []);
                         (str "defaultResponsePlatforms", VObj []);
                         (str "speech", VArr []) ] ]);
         (str "priority", VNum 500000);
         (str "webhookUsed", VBool false);
         (str "webhookForSlotFilling", VBool false);
         (str "fallbackIntent", VBool false);
         (str "events", VArr []) ].

Definition DEFAULT_ENTITY : value :=
  VObj [ (str "isOverridable", VBool true);
         (str "isEnum", VBool false);
         (str "automatedExpansion", VBool false);
         (str "isRegexp", VBool false);
         (str "allowFuzzyExtraction", VBool false) ].

(** Modelled from the spec: the entity template [DIALOGFLOW_LM_ENTITY]
    ([./utils]) is not under src/.  The specification describes it as the
    entity-type table of out-of-the-box values that the export seeds a
    native entity record with, the same values the import compares
    against. *)
Definition DIALOGFLOW_LM_ENTITY : list (jsstring * value) :=
  [ (str "isOverridable", VBool true);
    (str "isEnum", VBool false);
    (str "automatedExpansion", VBool false);
    (str "isRegexp", VBool false);
    (str "allowFuzzyExtraction", VBool false) ].

(** A lodash path such as ['responses[0].speech'], by its keys. *)
Definition first_response (field : string) : list jsstring :=
  [str "responses"; str "0"; str field].
Arguments first_response field%_string.

(** ** Importer *)

Local Open Scope result_scope.

(** [array.push(x)] *)
Definition push (array x : value) : result value :=
  match array with
  | VArr l => Ok (VArr (l ++ [x]))
  | _ => Raise TypeError
  end.

(** [target.key = v] where [target] is a vendor sub-tree: [undefined]
    throws, an object made by [_set] takes the property. *)
Definition set_member (target : value) (key : jsstring) (v : value) : result value :=
  match target with
  | VObj o => Ok (VObj (obj_set key v o))
  | _ => Raise TypeError
  end.

Definition set_intent (path : list jsstring) (v : value) (jovoIntent : Intent) : Intent :=
  with_intent_dialogflow (set_under (intent_dialogflow jovoIntent) path v) jovoIntent.

(** One field of the intent compared with strict inequality against the
    default table, [undefined] being skipped. *)
Definition skip_defined (field : string) (dialogFlowIntent : value) (jovoIntent : Intent)
  : Intent :=
  let v := lodash_get dialogFlowIntent [str field] in
  if negb (strict_eq v VUndef) && negb (strict_eq v (lodash_get DEFAULT_INTENT [str field]))
  then set_intent [str field] v jovoIntent
  else jovoIntent.
Arguments skip_defined field%_string.

(** One sub-field of the first response compared with [_isEqual]. *)
Definition skip_response (field : string) (dialogFlowIntent : value) (jovoIntent : Intent)
  : Intent :=
  let v := lodash_get dialogFlowIntent (first_response field) in
  if negb (strict_eq v VUndef)
     && negb (isEqual v (lodash_get DEFAULT_INTENT (first_response field)))
  then set_intent (first_response field) v jovoIntent
  else jovoIntent.
Arguments skip_response field%_string.

Definition skip_message (locale : jsstring) (jovoIntent : Intent) (message : value)
  : result Intent :=
  if strict_eq (lodash_get message [str "lang"]) (VStr locale) then
    let jovoIntentDialogflowMessages :=
      lodash_get_default (intent_dialogflow jovoIntent) (first_response "messages") (VArr []) in
    len <- member (lodash_get_default message [str "speech"] (VStr [])) (str "length") ;;
    if gt_zero len then
      pushed <- push jovoIntentDialogflowMessages message ;;
      Ok (set_intent (first_response "messages") pushed jovoIntent)
    else Ok jovoIntent
  else Ok jovoIntent.

Definition skipDefaultIntentProps (jovoIntent : Intent) (dialogFlowIntent : value)
  (locale : jsstring) : result Intent :=
  let get := lodash_get dialogFlowIntent in
  let default := lodash_get DEFAULT_INTENT in
  let jovoIntent :=
    if negb (strict_eq (get [str "auto"]) (default [str "auto"]))
    then set_intent [str "auto"] (get [str "auto"]) jovoIntent else jovoIntent in
  let jovoIntent :=
    if (0 <? List.length (lodash_difference (get [str "contexts"]) (default [str "contexts"])))%nat
    then set_intent [str "contexts"] (get [str "contexts"]) jovoIntent else jovoIntent in
  let jovoIntent := skip_defined "priority" dialogFlowIntent jovoIntent in
  let jovoIntent := skip_defined "webhookUsed" dialogFlowIntent jovoIntent in
  let jovoIntent := skip_defined "webhookForSlotFilling" dialogFlowIntent jovoIntent in
  let jovoIntent := skip_defined "fallbackIntent" dialogFlowIntent jovoIntent in
  let jovoIntent :=
    if (0 <? List.length (lodash_difference (get [str "events"]) (default [str "events"])))%nat
    then set_intent [str "events"] (get [str "events"]) jovoIntent else jovoIntent in
  let responses := get [str "responses"] in
  if strict_eq responses VUndef then Ok jovoIntent else
  len <- member responses (str "length") ;;
  if negb (strict_eq len (VNum 0)) && negb (isEqual responses (default [str "responses"]))
  then
    let jovoIntent := skip_response "resetContexts" dialogFlowIntent jovoIntent in
    let jovoIntent := skip_response "affectedContexts" dialogFlowIntent jovoIntent in
    let jovoIntent := skip_response "defaultResponsePlatforms" dialogFlowIntent jovoIntent in
    jovoIntent <-
      (if negb (isEqual (get (first_response "messages")) (default (first_response "messages")))
       then
         messages <- iterate (get (first_response "messages")) ;;
         foldM (skip_message locale) messages jovoIntent
       else Ok jovoIntent) ;;
    Ok (skip_response "speech" dialogFlowIntent jovoIntent)
  else Ok jovoIntent.

(** One boolean flag of the entity compared against the default table;
    a deviation, an absent flag included, is recorded. *)
Definition skip_flag (field : string) (dialogflowEntity : value) (jovoInput : EntityType)
  : EntityType :=
  let v := lodash_get dialogflowEntity [str field] in
  if negb (strict_eq v (lodash_get DEFAULT_ENTITY [str field]))
  then with_entityType_dialogflow
         (set_under (entityType_dialogflow jovoInput) [str field] v) jovoInput
  else jovoInput.
Arguments skip_flag field%_string.

Definition skipDefaultEntityProps (jovoInput : EntityType) (dialogflowEntity : value)
  : EntityType :=
  let jovoInput := skip_flag "isOverridable" dialogflowEntity jovoInput in
  let jovoInput := skip_flag "isEnum" dialogflowEntity jovoInput in
  let jovoInput := skip_flag "automatedExpansion" dialogflowEntity jovoInput in
  let jovoInput := skip_flag "isRegexp" dialogflowEntity jovoInput in
  skip_flag "allowFuzzyExtraction" dialogflowEntity jovoInput.

(** The filter on the first path segment. *)
Definition under (dir : string) (file : NativeFileInformation) : bool :=
  match path file with
  | [] => false
  | segment :: _ => str_eqb segment (str dir)
  end.
Arguments under dir%_string.

(** [files.find((file) => file.path[1] === name)] *)
Definition find_file (files : list NativeFileInformation) (name : jsstring)
  : option NativeFileInformation :=
  find (fun file =>
          match nth_error (path file) 1 with
          | Some segment => str_eqb segment name
          | None => false
          end) files.

Definition import_parameter (entities : list (jsstring * IntentEntity)) (parameter : value)
  : result (list (jsstring * IntentEntity)) :=
  dataType <- member parameter (str "dataType") ;;
  if truthy dataType then
    match dataType with
    | VStr s =>
        let entity :=
          {| entity_type :=
               Some (if startsWith s (str "@sys.")
                     then TypeVendors [(str "dialogflow", s)]
                     else TypeName (substr1 s));
             entity_text := VUndef;
             entity_dialogflow := VUndef |} in
        name <- member parameter (str "name") ;;
        Ok (obj_set (to_string name) entity entities)
    | _ => Raise TypeError
    end
  else Ok entities.

Definition import_response (entities : list (jsstring * IntentEntity)) (response : value)
  : result (list (jsstring * IntentEntity)) :=
  parameters <- iterate (lodash_get_default response [str "parameters"] (VArr [])) ;;
  foldM import_parameter parameters entities.

(** The entity declarations of an intent file. *)
Definition import_entities (dialogFlowIntent : value)
  : result (list (jsstring * IntentEntity)) :=
  responses <- member dialogFlowIntent (str "responses") ;;
  if truthy responses then
    responses <- iterate responses ;;
    foldM import_response responses []
  else Ok [].

(** One segment of a sample record: the phrase grows, and the exemplar
    text of the entity named by the alias is recorded. *)
Definition import_segment (state : jsstring * Intent) (data : value)
  : result (jsstring * Intent) :=
  let '(phrase, jovoIntent) := state in
  alias <- member data (str "alias") ;;
  text <- member data (str "text") ;;
  let phrase :=
    phrase ++ (if truthy alias then str "{" ++ to_string alias ++ str "}"
               else to_string text) in
  let jovoIntent :=
    if negb (strict_eq text alias) then
      match entities jovoIntent with
      | Some declared =>
          with_entities
            (Some (List.map
                     (fun entry : jsstring * IntentEntity =>
                        let (entityKey, entityData) := entry in
                        if strict_eq (VStr entityKey) alias
                        then (entityKey, with_text text entityData)
                        else entry)
                     declared))
            jovoIntent
      | None => jovoIntent
      end
    else jovoIntent in
  Ok (phrase, jovoIntent).

Definition import_sample (jovoIntent : Intent) (us : value) : result Intent :=
  data <- member us (str "data") ;;
  segments <- iterate data ;;
  '(phrase, jovoIntent) <- foldM import_segment segments ([], jovoIntent) ;;
  match phrases jovoIntent with
  | Some l => Ok (with_phrases (Some (l ++ [phrase])) jovoIntent)
  | None => Raise TypeError
  end.

(** The body of the loop over intent files. *)
Definition import_intent (intentFiles : list NativeFileInformation) (locale : jsstring)
  (jovoModel : JovoModelData) (fileInformation : NativeFileInformation)
  : result JovoModelData :=
  match nth_error (path fileInformation) 1 with
  | None => Raise TypeError
  | Some file =>
      if includes file (str "usersays") then Ok jovoModel else
      let dialogFlowIntent := content fileInformation in
      jovoIntent <-
        skipDefaultIntentProps
          {| phrases := Some []; entities := None; intent_dialogflow := VUndef |}
          dialogFlowIntent locale ;;
      fallback <- member dialogFlowIntent (str "fallbackIntent") ;;
      name <- member dialogFlowIntent (str "name") ;;
      if strict_eq fallback (VBool true) then
        fallbackIntent <- set_member (intent_dialogflow jovoIntent) (str "name") name ;;
        Ok (with_dialogflow
              (set_under (dialogflow jovoModel) [str "intents"] (VArr [fallbackIntent]))
              jovoModel)
      else if strict_eq (lodash_get dialogFlowIntent [str "events"; str "0"; str "name"])
                (VStr (str "WELCOME")) then
        welcomeIntent <- set_member (intent_dialogflow jovoIntent) (str "name") name ;;
        if negb (truthy (lodash_get (dialogflow jovoModel) [str "intents"])) then
          Ok (with_dialogflow
                (set_under (dialogflow jovoModel) [str "intents"] (VArr [welcomeIntent]))
                jovoModel)
        else
          pushed <- push (own (dialogflow jovoModel) (str "intents")) welcomeIntent ;;
          Ok (with_dialogflow (assign (dialogflow jovoModel) (str "intents") pushed) jovoModel)
      else
        entities <- import_entities dialogFlowIntent ;;
        let jovoIntent :=
          if (0 <? List.length entities)%nat
          then with_entities (Some entities) jovoIntent else jovoIntent in
        jovoIntent <-
          match find_file intentFiles
                  (to_string name ++ str "_usersays_" ++ locale ++ str ".json") with
          | Some userSaysFile =>
              userSays <- iterate (content userSaysFile) ;;
              foldM import_sample userSays jovoIntent
          | None => Ok jovoIntent
          end ;;
        match intents jovoModel with
        | Some l => Ok (with_intents (Some (obj_set (to_string name) jovoIntent l)) jovoModel)
        | None => Raise TypeError
        end
  end.

Definition import_entry (dialogFlowEntity : value) (imported : list EntityValue)
  (entry : value) : result (list EntityValue) :=
  v <- member entry (str "value") ;;
  isEnum <- member dialogFlowEntity (str "isEnum") ;;
  isRegexp <- member dialogFlowEntity (str "isRegexp") ;;
  declared <-
    (if negb (truthy isEnum) && negb (truthy isRegexp) then
       listed <- member entry (str "synonyms") ;;
       listed <- iterate listed ;;
       let tempSynonyms := filter (fun synonym => negb (strict_eq synonym v)) listed in
       Ok (match tempSynonyms with
           | [] => None
           | _ => Some tempSynonyms
           end)
     else Ok None) ;;
  Ok (imported ++ [ValueObject {| value_of := v; synonyms := declared |}]).

(** The body of the loop over entity files. *)
Definition import_entity (entityFiles : list NativeFileInformation) (locale : jsstring)
  (jovoModel : JovoModelData) (fileInformation : NativeFileInformation)
  : result JovoModelData :=
  match nth_error (path fileInformation) 1 with
  | None => Raise TypeError
  | Some file =>
      if includes file (str "entries") then Ok jovoModel else
      let dialogFlowEntity := content fileInformation in
      let jovoEntity :=
        skipDefaultEntityProps
          {| values := Some []; entityType_dialogflow := VUndef |} dialogFlowEntity in
      name <- member dialogFlowEntity (str "name") ;;
      imported <-
        match find_file entityFiles
                (to_string name ++ str "_entries_" ++ locale ++ str ".json") with
        | Some userSaysFile =>
            entries <- iterate (content userSaysFile) ;;
            foldM (import_entry dialogFlowEntity) entries []
        | None => Ok []
        end ;;
      match entityTypes jovoModel with
      | Some l =>
          Ok (with_entityTypes
                (Some (obj_set (to_string name) (with_values (Some imported) jovoEntity) l))
                jovoModel)
      | None => Raise TypeError
      end
  end.

Definition toJovoModel (inputData : list NativeFileInformation) (locale : jsstring)
  : result JovoModelData :=
  let jovoModel :=
    {| schema := Current;
       version := VStr (str "4.0");
       invocation := VStr [];
       intents := Some [];
       entityTypes := Some [];
       dialogflow := VUndef |} in
  let intentFiles := filter (under "intents") inputData in
  jovoModel <- foldM (import_intent intentFiles locale) intentFiles jovoModel ;;
  let entityFiles := filter (under "entities") inputData in
  foldM (import_entity entityFiles locale) entityFiles jovoModel.

(** ** Accessor layer *)

Module JovoModelHelper.

(** Modelled from the spec: the accessor layer ([JovoModelHelper] of
    [@jovotech/model]) is not under src/.  The specification gives it as
    reading intents, entities and entity types irrespective of the schema
    version, with existence checks and version discrimination; the model
    record is that view, and [schema] tells the legacy shape from the
    current one. *)
Definition getIntents (model : JovoModelData) : list (jsstring * Intent) :=
  match intents model with
  | Some l => l
  | None => []
  end.

(** Modelled from the spec: the entities of an intent, none when the
    intent or its entity mapping is absent. *)
Definition getEntities (model : JovoModelData) (intentKey : jsstring)
  : list (jsstring * IntentEntity) :=
  match lookup intentKey (getIntents model) with
  | Some intentData =>
      match entities intentData with
      | Some l => l
      | None => []
      end
  | None => []
  end.

(** Modelled from the spec: the intent declares entities. *)
Definition hasEntities (model : JovoModelData) (intentKey : jsstring) : bool :=
  match lookup intentKey (getIntents model) with
  | Some intentData =>
      match entities intentData with
      | Some _ => true
      | None => false
      end
  | None => false
  end.

(** Modelled from the spec: the model declares an entity-type mapping. *)
Definition hasEntityTypes (model : JovoModelData) : bool :=
  match entityTypes model with
  | Some _ => true
  | None => false
  end.

(** Modelled from the spec: the entity type of a name, if declared. *)
Definition getEntityTypeByName (model : JovoModelData) (name : jsstring)
  : option EntityType :=
  match entityTypes model with
  | Some l => lookup name l
  | None => None
  end.

(** Modelled from the spec: version discrimination. *)
Definition isJovoModelV3 (model : JovoModelData) : bool :=
  match schema model with
  | Legacy => true
  | Current => false
  end.

End JovoModelHelper.

(** ** Exporter *)

(** *** Synonym sanitization *)

(** The characters that [/[^0-9A-Za-zÀ-ÿ-_' ]/gi] does not
    match.  With the [i] flag the class also holds U+0178, the upper case
    of U+00FF. *)
Definition kept (c : N) : bool :=
  (is_digit c
   || ((65 <=? c) && (c <=? 90))
   || ((97 <=? c) && (c <=? 122))
   || ((192 <=? c) && (c <=? 255))
   || (c =? 45) || (c =? 95) || (c =? 39) || (c =? 32)
   || (c =? 376))%N.

(** [s.replace(/[^0-9A-Za-zÀ-ÿ-_' ]/gi, '')] *)
Definition sanitize (s : jsstring) : jsstring := filter kept s.

(** *** Phrase tokenization *)

Inductive segment : Type :=
| Literal (text : jsstring)
| Placeholder (entity : jsstring).

Definition is_line_terminator (c : N) : bool :=
  ((c =? 10) || (c =? 13) || (c =? 8232) || (c =? 8233))%N.

(** After an opening brace: the lazy group [(.*?)] up to the first closing
    brace, and what follows it.  The dot matches no line terminator. *)
Fixpoint close_marker (s : jsstring) : option (jsstring * jsstring) :=
  match s with
  | [] => None
  | c :: rest =>
      if (c =? 125)%N then Some ([], rest)
      else if is_line_terminator c then None
      else match close_marker rest with
           | Some (group, after) => Some (c :: group, after)
           | None => None
           end
  end.

(** [re.exec(phrase)] for [/{(.*?)}/g] on the part of the phrase from
    [lastIndex] on: the text before the first match, its group, and the
    part after the match. *)
Fixpoint exec_marker (s : jsstring) : option (jsstring * jsstring * jsstring) :=
  match s with
  | [] => None
  | c :: rest =>
      let later :=
        match exec_marker rest with
        | Some (text, group, after) => Some (c :: text, group, after)
        | None => None
        end in
      if (c =? 123)%N then
        match close_marker rest with
        | Some (group, after) => Some ([], group, after)
        | None => later
        end
      else later
  end.

(** The loop [while (true) { m = re.exec(phrase); if (!m) break; ... }]
    followed by the text after the last match. *)
Equations? scan (rest : jsstring) : list segment by wf (List.length rest) lt :=
  scan rest with inspect (exec_marker rest) := {
    | exist _ (Some (text, entity, after)) found =>
        (if (0 <? List.length text)%nat then [Literal text] else [])
          ++ Placeholder entity :: scan after
    | exist _ None _ =>
        if (0 <? List.length rest)%nat then [Literal rest] else [] }.
Proof.
  clear scan.
  assert (closing : forall s group rest',
             close_marker s = Some (group, rest') ->
             List.length rest' < S (List.length s)).
  { induction s as [|c s IH]; intros group rest'; cbn; [discriminate|].
    destruct (c =? 125)%N; [intros [= <- <-]; lia|].
    destruct (is_line_terminator c); [discriminate|].
    destruct (close_marker s) as [[g a]|]; [|discriminate].
    intros [= <- <-]. specialize (IH _ _ eq_refl). lia. }
  revert text entity after found.
  induction rest as [|c rest IH]; intros text entity after; cbn; [discriminate|].
  assert (later : match exec_marker rest with
                  | Some (t, g, a) => Some (c :: t, g, a)
                  | None => None
                  end = Some (text, entity, after) ->
                  List.length after < S (List.length rest)).
  { destruct (exec_marker rest) as [[[t g] a]|]; [|discriminate].
    intros [= <- <- <-]. specialize (IH _ _ _ eq_refl). lia. }
  destruct (c =? 123)%N; [|exact later].
  destruct (close_marker rest) as [[g a]|] eqn:E; [|exact later].
  intros [= <- <- <-]. exact (closing _ _ _ E).
Qed.

(** The data of one sample phrase; a phrase without any entity is used
    whole. *)
Definition tokenize (phrase : jsstring) : list segment :=
  match scan phrase with
  | [] => [Literal phrase]
  | data => data
  end.

(** *** Export state *)

(** The exporter mutates the model it is handed and draws identifiers;
    both are threaded.  An exception keeps the mutations made so far. *)
Record ExportState : Type := {
  held : JovoModelData;
  drawn : nat
}.

Definition Export (A : Type) : Type := ExportState -> result A * ExportState.

Definition ret {A} (a : A) : Export A := fun s => (Ok a, s).

Definition throw {A} (e : error) : Export A := fun s => (Raise e, s).

Definition and_then {A B} (m : Export A) (k : A -> Export B) : Export B :=
  fun s =>
    match m s with
    | (Ok a, s') => k a s'
    | (Raise e, s') => (Raise e, s')
    end.

Definition get_model : Export JovoModelData := fun s => (Ok (held s), s).

Definition put_model (m : JovoModelData) : Export unit :=
  fun s => (Ok tt, {| held := m; drawn := drawn s |}).

Definition lift {A} (r : result A) : Export A := fun s => (r, s).

Declare Scope export_scope.
Delimit Scope export_scope with export.
Notation "x <- m ;; k" := (and_then m (fun x => k))
  (at level 61, m at next level, right associativity) : export_scope.
Notation "m ;; k" := (and_then m (fun _ => k))
  (at level 61, right associativity) : export_scope.

Fixpoint for_each {A S} (body : S -> A -> Export S) (l : list A) (s : S) : Export S :=
  match l with
  | [] => ret s
  | a :: rest => and_then (body s a) (for_each body rest)
  end.

Definition quoted (s : jsstring) : jsstring := [34%N] ++ s ++ [34%N].

(** [value.synonyms[i] = value.synonyms[i].replace(...)] for each index:
    the array after the loop, and whether an element without [replace]
    stopped it. *)
Fixpoint sanitize_synonyms (declared : list value) : list value * result unit :=
  match declared with
  | [] => ([], Ok tt)
  | VStr s :: rest =>
      let (mutated, outcome) := sanitize_synonyms rest in
      (VStr (sanitize s) :: mutated, outcome)
  | _ :: _ => (declared, Raise TypeError)
  end.

(** One value of the matched entity type: the value as the loop leaves
    it in the model, and the entry made from it. *)
Definition export_value (dfEntityObj : value) (v : EntityValue)
  : EntityValue * result value :=
  match v with
  | ValueString s => (v, Ok (VObj [(str "value", VStr s)]))
  | ValueObject r =>
      if negb (truthy (own dfEntityObj (str "isEnum")))
         && negb (truthy (own dfEntityObj (str "isRegexp")))
      then
        match value_of r with
        | VStr s =>
            match synonyms r with
            | Some declared =>
                let (mutated, outcome) := sanitize_synonyms declared in
                (ValueObject {| value_of := value_of r; synonyms := Some mutated |},
                 bind outcome (fun _ =>
                   Ok (VObj [(str "value", VStr s);
                             (str "synonyms", VArr (VStr (sanitize s) :: mutated))])))
            | None =>
                (v, Ok (VObj [(str "value", VStr s);
                              (str "synonyms", VArr [VStr (sanitize s)])]))
            end
        | _ => (v, Raise TypeError)
        end
      else (v, Ok (VObj [(str "value", value_of r)]))
  end.

Fixpoint export_values (dfEntityObj : value) (vs : list EntityValue)
  : list EntityValue * result (list value) :=
  match vs with
  | [] => ([], Ok [])
  | v :: rest =>
      match export_value dfEntityObj v with
      | (v', Ok entry) =>
          let (rest', outcome) := export_values dfEntityObj rest in
          (v' :: rest', bind outcome (fun entries => Ok (entry :: entries)))
      | (v', Raise e) => (v' :: rest, Raise e)
      end
  end.

(** The records of a vendor list ([dialogflow.intents] with [userSays],
    [dialogflow.entities] with [entries]): the records as the loop leaves
    them and the files made from them.  Records are objects; the
    prototype members of an array record are not represented. *)
Fixpoint export_records (dir : jsstring) (field : jsstring) (suffix : jsstring)
  (locale : jsstring) (records : list value)
  : list value * result (list NativeFileInformation) :=
  match records with
  | [] => ([], Ok [])
  | record :: rest =>
      match member record field with
      | Raise e => (records, Raise e)
      | Ok extracted =>
          let name := to_string (own record (str "name")) in
          let stripped :=
            match record with
            | VObj o => if truthy extracted then VObj (obj_delete field o) else record
            | _ => record
            end in
          let companion :=
            if truthy extracted
            then [ {| path := [dir; name ++ suffix ++ locale ++ str ".json"];
                      content := extracted |} ]
            else [] in
          let (rest', outcome) := export_records dir field suffix locale rest in
          (stripped :: rest',
           bind outcome (fun files =>
             Ok (companion
                   ++ {| path := [dir; name ++ str ".json"]; content := stripped |}
                   :: files)))
      end
  end.

(** The loop over a vendor list of the model, when the list is set. *)
Definition export_vendor_list (key : jsstring) (dir : jsstring) (field : jsstring)
  (suffix : jsstring) (locale : jsstring) : Export (list NativeFileInformation) :=
  (m <- get_model ;;
   let listed := lodash_get (dialogflow m) [key] in
   if truthy listed then
     match listed with
     | VArr records =>
         let (records', outcome) := export_records dir field suffix locale records in
         put_model (with_dialogflow (assign (dialogflow m) key (VArr records')) m) ;;
         lift outcome
     | _ =>
         records <- lift (iterate listed) ;;
         lift (snd (export_records dir field suffix locale records))
     end
   else ret [])%export.

(** *** The conversion *)

Section Exporter.

(** [uuidv4()]: the identifier returned by the n-th call. *)
Variable uuidv4 : nat -> jsstring.

Definition uuid : Export jsstring :=
  fun s => (Ok (uuidv4 (drawn s)), {| held := held s; drawn := S (drawn s) |}).

Local Open Scope export_scope.

(** The native entity record of a matched custom entity type. *)
Definition entity_record (id : jsstring) (matchedEntityTypeName : jsstring)
  (matchedEntityType : EntityType) : value :=
  let dfEntityObj :=
    VObj (obj_set (str "name") (VStr matchedEntityTypeName)
            (obj_set (str "id") (VStr id) DIALOGFLOW_LM_ENTITY)) in
  if truthy (entityType_dialogflow matchedEntityType) then
    match entityType_dialogflow matchedEntityType with
    | VStr renamed => assign dfEntityObj (str "name") (VStr renamed)
    | vendor => merge dfEntityObj vendor
    end
  else dfEntityObj.

(** The companion files of a matched custom entity type. *)
Definition export_entity_type (locale : jsstring) (matchedEntityTypeName : jsstring)
  (matchedEntityType : EntityType) : Export (list NativeFileInformation) :=
  id <- uuid ;;
  let dfEntityObj := entity_record id matchedEntityTypeName matchedEntityType in
  let definition :=
    {| path := [str "entities"; matchedEntityTypeName ++ str ".json"];
       content := dfEntityObj |} in
  match values matchedEntityType with
  | Some ((_ :: _) as declared) =>
      let (mutated, outcome) := export_values dfEntityObj declared in
      m <- get_model ;;
      put_model
        (with_entityTypes
           (option_map
              (replace matchedEntityTypeName (with_values (Some mutated) matchedEntityType))
              (entityTypes m))
           m) ;;
      entityValues <- lift outcome ;;
      ret [ definition;
            {| path := [str "entities";
                        matchedEntityTypeName ++ str "_entries_" ++ locale ++ str ".json"];
               content := VArr entityValues |} ]
  | _ => ret [definition]
  end.

(** The body of the loop over the entities of an intent: the parameter
    list and the returned files grow. *)
Definition export_entity (locale : jsstring) (intentKey : jsstring)
  (state : list value * list NativeFileInformation) (entry : jsstring * IntentEntity)
  : Export (list value * list NativeFileInformation) :=
  let (parameters, returnFiles) := state in
  let (entityKey, entityData) := entry in
  dataType <-
    match entity_type entityData with
    | None | Some (TypeName []) =>
        throw (Error (str "Invalid entity type in intent " ++ quoted intentKey))
    | Some (TypeName name) => ret name
    | Some (TypeVendors vendors) =>
        match lookup (str "dialogflow") vendors with
        | Some (c :: native) => ret (c :: native)
        | _ =>
            throw (Error (str "Please add a dialogflow property for entity "
                            ++ quoted entityKey))
        end
    end ;;
  typed <-
    (if negb (startsWith dataType BUILTIN_PREFIX) then
       m <- get_model ;;
       if negb (JovoModelHelper.hasEntityTypes m) then
         throw (Error (str "Input type " ++ quoted dataType
                         ++ str " must be defined in entityTypes"))
       else
         let matchedEntityTypeName := dataType in
         match JovoModelHelper.getEntityTypeByName m matchedEntityTypeName with
         | None =>
             if JovoModelHelper.isJovoModelV3 m then
               throw (Error (str "Input type " ++ quoted matchedEntityTypeName
                               ++ str " must be defined in inputTypes"))
             else
               throw (Error (str "Entity type " ++ quoted matchedEntityTypeName
                               ++ str " must be defined in entityTypes"))
         | Some matchedEntityType =>
             files <- export_entity_type locale matchedEntityTypeName matchedEntityType ;;
             ret (str "@" ++ dataType, files)
         end
     else ret (dataType, [])) ;;
  let parameterObj :=
    VObj [ (str "isList", VBool false);
           (str "name", VStr entityKey);
           (str "value", VStr (str "$" ++ entityKey));
           (str "dataType", VStr (fst typed)) ] in
  let parameterObj :=
    if truthy (entity_dialogflow entityData)
    then merge parameterObj (entity_dialogflow entityData)
    else parameterObj in
  ret (parameters ++ [parameterObj], returnFiles ++ snd typed).

(** The body of [parameters.forEach]: a parameter of the name of the
    entity gives the segment its alias and its type. *)
Definition fill_parameter (entity : jsstring) (dataEntityObj : list (jsstring * value))
  (item : value) : result (list (jsstring * value)) :=
  (name <- member item (str "name") ;;
   if strict_eq name (VStr entity) then
     dataType <- member item (str "dataType") ;;
     Ok (obj_set (str "meta") dataType (obj_set (str "alias") name dataEntityObj))
   else Ok dataEntityObj)%result.

(** The sample text recorded for the entity, if any. *)
Definition sample_text (entity : jsstring) (declared : list (jsstring * IntentEntity))
  : value :=
  fold_left
    (fun text (entry : jsstring * IntentEntity) =>
       let (entityKey, entityData) := entry in
       if str_eqb entityKey entity && truthy (entity_text entityData)
       then entity_text entityData else text)
    declared (VStr entity).

(** The entity segment of a sample phrase. *)
Definition export_placeholder (m : JovoModelData) (intentKey : jsstring)
  (dfIntentObj : value) (entity : jsstring) : result value :=
  let text :=
    if JovoModelHelper.hasEntities m intentKey
    then sample_text entity (JovoModelHelper.getEntities m intentKey)
    else VStr entity in
  let dataEntityObj := [(str "text", text); (str "userDefined", VBool true)] in
  let parameters := lodash_get dfIntentObj (first_response "parameters") in
  if truthy parameters then
    match parameters with
    | VArr items =>
        (filled <- foldM (fill_parameter entity)
                     (filter (fun item => negb (is_hole item)) items) dataEntityObj ;;
         Ok (VObj filled))%result
    | _ => Raise TypeError
    end
  else Ok (VObj dataEntityObj).

Definition export_segment (m : JovoModelData) (intentKey : jsstring)
  (dfIntentObj : value) (data : list value) (s : segment) : result (list value) :=
  match s with
  | Literal text =>
      Ok (data ++ [VObj [(str "text", VStr text); (str "userDefined", VBool false)]])
  | Placeholder entity =>
      (dataEntityObj <- export_placeholder m intentKey dfIntentObj entity ;;
       Ok (data ++ [dataEntityObj]))%result
  end.

(** The body of the loop over the sample phrases of an intent. *)
Definition export_phrase (locale : jsstring) (intentKey : jsstring) (dfIntentObj : value)
  (dialogFlowIntentUserSays : list value) (phrase : jsstring) : Export (list value) :=
  m <- get_model ;;
  data <- lift (foldM (export_segment m intentKey dfIntentObj) (tokenize phrase) []) ;;
  id <- uuid ;;
  ret (dialogFlowIntentUserSays
         ++ [VObj [ (str "id", VStr id);
                    (str "data", VArr data);
                    (str "isTemplate", VBool false);
                    (str "count", VNum 0);
                    (str "lang", VStr locale) ]]).

(** The body of the loop over the intents of the model. *)
Definition export_intent (locale : jsstring) (returnFiles : list NativeFileInformation)
  (entry : jsstring * Intent) : Export (list NativeFileInformation) :=
  let (intentKey, intentData) := entry in
  id <- uuid ;;
  let base :=
    [ (str "id", VStr id);
      (str "name", VStr intentKey);
      (str "auto", VBool true);
      (str "webhookUsed", VBool true) ] in
  m <- get_model ;;
  built <-
    (if JovoModelHelper.hasEntities m intentKey then
       filled <- for_each (export_entity locale intentKey)
                   (JovoModelHelper.getEntities m intentKey) ([], returnFiles) ;;
       ret (VObj (base ++ [(str "responses",
                             VArr [VObj [(str "parameters", VArr (fst filled))]])]),
            snd filled)
     else ret (VObj base, returnFiles)) ;;
  let dfIntentObj :=
    if truthy (intent_dialogflow intentData)
    then merge (fst built) (intent_dialogflow intentData)
    else fst built in
  let returnFiles :=
    snd built ++ [ {| path := [str "intents"; intentKey ++ str ".json"];
                      content := dfIntentObj |} ] in
  let phrases := match phrases intentData with Some l => l | None => [] end in
  dialogFlowIntentUserSays <-
    for_each (export_phrase locale intentKey dfIntentObj) phrases [] ;;
  ret (if (0 <? List.length dialogFlowIntentUserSays)%nat
       then returnFiles
              ++ [ {| path := [str "intents";
                               intentKey ++ str "_usersays_" ++ locale ++ str ".json"];
                      content := VArr dialogFlowIntentUserSays |} ]
       else returnFiles).

Definition export_all (locale : jsstring) : Export (list NativeFileInformation) :=
  m <- get_model ;;
  returnFiles <- for_each (export_intent locale) (JovoModelHelper.getIntents m) [] ;;
  intentFiles <-
    export_vendor_list (str "intents") (str "intents") (str "userSays")
      (str "_usersays_") locale ;;
  entityFiles <-
    export_vendor_list (str "entities") (str "entities") (str "entries")
      (str "_entries_") locale ;;
  ret (returnFiles ++ intentFiles ++ entityFiles).

(** [fromJovoModel(model, locale)]: the returned files or the exception,
    and the model as the call leaves it. *)
Definition fromJovoModel (model : JovoModelData) (locale : jsstring)
  : result (list NativeFileInformation) * JovoModelData :=
  let (outcome, final) := export_all locale {| held := model; drawn := 0 |} in
  (outcome, held final).

End Exporter.

(** ** Statements of the specification *)

(** Export followed by import. *)
Definition roundtrip (uuidv4 : nat -> jsstring) (model : JovoModelData) (locale : jsstring)
  : result JovoModelData :=
  match fst (fromJovoModel uuidv4 model locale) with
  | Ok files => toJovoModel files locale
  | Raise e => Raise e
  end.

(** The characters the specification says sanitization keeps:
    alphanumeric, apostrophe, accented Latin (U+00C0 to U+00FF). *)
Definition claimed_kept (c : N) : bool :=
  (is_digit c
   || ((65 <=? c) && (c <=? 90))
   || ((97 <=? c) && (c <=? 122))
   || (c =? 39)
   || ((192 <=? c) && (c <=? 255)))%N.

(** The entity declarations the specification describes: those of the
    first response only. *)
Definition claimed_import_entities (dialogFlowIntent : value)
  : result (list (jsstring * IntentEntity)) :=
  (responses <- member dialogFlowIntent (str "responses") ;;
   if truthy responses then
     responses <- iterate responses ;;
     match responses with
     | first :: _ => import_response [] first
     | [] => Ok []
     end
   else Ok [])%result.

(** The declaration a parameter with a string [dataType] gives. *)
Definition declared_type (dataType : jsstring) : EntityTypeRef :=
  if startsWith dataType BUILTIN_PREFIX
  then TypeVendors [(str "dialogflow", dataType)]
  else TypeName (substr1 dataType).

Definition declare (entities : list (jsstring * IntentEntity)) (parameter : jsstring * jsstring)
  : list (jsstring * IntentEntity) :=
  let (name, dataType) := parameter in
  match dataType with
  | [] => entities
  | _ => obj_set name
           {| entity_type := Some (declared_type dataType);
              entity_text := VUndef;
              entity_dialogflow := VUndef |}
           entities
  end.

(** A native parameter record and a native response record. *)
Definition parameter_record (parameter : jsstring * jsstring) : value :=
  VObj [(str "name", VStr (fst parameter)); (str "dataType", VStr (snd parameter))].

Definition response_record (parameters : list (jsstring * jsstring)) : value :=
  VObj [(str "parameters", VArr (List.map parameter_record parameters))].

(** A segment as it reads in a phrase. *)
Definition render (s : segment) : jsstring :=
  match s with
  | Literal text => text
  | Placeholder entity => str "{" ++ entity ++ str "}"
  end.

(** ** Sample inputs *)

Definition file (dir name : string) (content : value) : NativeFileInformation :=
  {| path := [str dir; str name]; content := content |}.
Arguments file (dir name)%_string content.

Definition sample_ids (n : nat) : jsstring := str "id-" ++ idx_key n.
Definition other_ids (n : nat) : jsstring := str "uuid-" ++ idx_key n.

Definition plain_entity (t : EntityTypeRef) : IntentEntity :=
  {| entity_type := Some t; entity_text := VUndef; entity_dialogflow := VUndef |}.

Definition plain_intent (samples : list jsstring) (declared : option (list (jsstring * IntentEntity)))
  : Intent :=
  {| phrases := Some samples; entities := declared; intent_dialogflow := VUndef |}.

Definition plain_model (s : Schema) (declared : list (jsstring * Intent))
  (types : option (list (jsstring * EntityType))) : JovoModelData :=
  {| schema := s; version := VStr (str "4.0"); invocation := VStr [];
     intents := Some declared; entityTypes := types; dialogflow := VUndef |}.

(** An entity file and its entries file, one entry without synonyms. *)
Definition city_file : NativeFileInformation :=
  file "entities" "city.json" (VObj [(str "name", VStr (str "city"))]).

Definition city_entries_file : NativeFileInformation :=
  file "entities" "city_entries_en.json" (VArr [VObj [(str "value", VStr (str "Berlin"))]]).

Definition city_synonyms_file : NativeFileInformation :=
  file "entities" "city_entries_en.json"
    (VArr [VObj [(str "value", VStr (str "Berlin"));
                 (str "synonyms", VArr [VStr (str "Berlin"); VStr (str "Spree Athen")])]]).

(** The greeting intent and the fallback intent of an agent. *)
Definition welcome_file : NativeFileInformation :=
  file "intents" "Default Welcome Intent.json"
    (VObj [(str "name", VStr (str "Default Welcome Intent"));
           (str "auto", VBool true);
           (str "events", VArr [VObj [(str "name", VStr (str "WELCOME"))]])]).

Definition fallback_file : NativeFileInformation :=
  file "intents" "Default Fallback Intent.json"
    (VObj [(str "name", VStr (str "Default Fallback Intent"));
           (str "auto", VBool true);
           (str "fallbackIntent", VBool true)]).

(** An intent whose second response declares a parameter. *)
Definition two_responses_file : NativeFileInformation :=
  file "intents" "Order.json"
    (VObj [(str "name", VStr (str "Order"));
           (str "auto", VBool true);
           (str "responses",
             VArr [response_record [(str "dish", str "@food")];
                   response_record [(str "count", str "@sys.number")]])]).

(** An intent with a parameter that has no [dataType]. *)
Definition untyped_parameter_file : NativeFileInformation :=
  file "intents" "Order.json"
    (VObj [(str "name", VStr (str "Order"));
           (str "auto", VBool true);
           (str "responses",
             VArr [VObj [(str "parameters",
                           VArr [parameter_record (str "dish", str "@food");
                                 VObj [(str "name", VStr (str "note"))]])];
                   response_record [(str "count", str "@sys.number")]])]).

(** Models whose only intent has an entity of the custom type [city]. *)
Definition travel_intents : list (jsstring * Intent) :=
  [(str "Travel",
    plain_intent [str "go to {where}"]
      (Some [(str "where", plain_entity (TypeName (str "city")))]))].

Definition untyped_model (s : Schema) : JovoModelData := plain_model s travel_intents None.

Definition mistyped_model (s : Schema) : JovoModelData :=
  plain_model s travel_intents (Some []).

Definition travel_model : JovoModelData :=
  plain_model Current travel_intents
    (Some [(str "city",
            {| values :=
                 Some [ValueObject {| value_of := VStr (str "Berlin");
                                      synonyms := Some [VStr (str "Spree-Athen!")] |}];
               entityType_dialogflow := VUndef |})]).

(** The same model with the value of the type listed as a plain string. *)
Definition listed_model : JovoModelData :=
  plain_model Current travel_intents
    (Some [(str "city",
            {| values := Some [ValueString (str "Berlin")];
               entityType_dialogflow := VUndef |})]).

(** A model whose value and synonym both hold a character that
    sanitization removes. *)
Definition marked_model : JovoModelData :=
  plain_model Current travel_intents
    (Some [(str "city",
            {| values :=
                 Some [ValueObject {| value_of := VStr (str "Berlin!");
                                      synonyms := Some [VStr (str "Spree-Athen!")] |}];
               entityType_dialogflow := VUndef |})]).

(** The model [travel_model] with a second intent, whose entity has a
    type that the model does not declare. *)
Definition interrupted_model : JovoModelData :=
  plain_model Current
    (travel_intents
       ++ [(str "Book",
            plain_intent [str "book {what}"]
              (Some [(str "what", plain_entity (TypeName (str "ticket")))]))])
    (entityTypes travel_model).

(** A model with one intent, one phrase and nothing else. *)
Definition greeting_model : JovoModelData :=
  plain_model Current [(str "Hello", plain_intent [str "hi"] None)] (Some []).

(** The fixed part of an imported model. *)
Definition current_shape (m : JovoModelData) : Prop :=
  schema m = Current
  /\ version m = VStr (str "4.0")
  /\ invocation m = VStr []
  /\ intents m <> None
  /\ entityTypes m <> None.

(** The literal segment of a text, none for the empty text. *)
Definition literal (text : jsstring) : list segment :=
  match text with
  | [] => []
  | _ => [Literal text]
  end.

(** The entities the placeholders of a segment list name, in order. *)
Definition markers_of (tokens : list segment) : list jsstring :=
  flat_map (fun s => match s with Placeholder entity => [entity] | Literal _ => [] end)
    tokens.

(** A value whose synonym list, when present, is not empty and holds
    nothing strictly equal to the value. *)
Definition distinct_synonyms (v : EntityValue) : Prop :=
  match v with
  | ValueString _ => True
  | ValueObject r =>
      match synonyms r with
      | Some listed =>
          listed <> [] /\ Forall (fun s => strict_eq s (value_of r) = false) listed
      | None => True
      end
  end.

Definition distinct_types (m : JovoModelData) : Prop :=
  forall types name t declared,
    entityTypes m = Some types -> In (name, t) types ->
    values t = Some declared -> Forall distinct_synonyms declared.

(** The code units the sanitization keeps, by range. *)
Definition in_kept_ranges (c : N) : Prop :=
  (48 <= c <= 57 \/ 65 <= c <= 90 \/ 97 <= c <= 122 \/ 192 <= c <= 255
   \/ c = 45 \/ c = 95 \/ c = 39 \/ c = 32 \/ c = 376)%N.

(** A parameter record read as a name and a [dataType]: a record with
    both as strings, or a record whose [dataType] is absent or falsy in
    another way, read with the empty string as [dataType].  A response
    record is read as its parameter list. *)
Definition describes_parameter (p : jsstring * jsstring) (parameter : value) : Prop :=
  (own parameter (str "name") = VStr (fst p)
   /\ own parameter (str "dataType") = VStr (snd p))
  \/ (snd p = []
      /\ exists dataType,
           member parameter (str "dataType") = Ok dataType /\ truthy dataType = false).

Definition describes_response (ps : list (jsstring * jsstring)) (response : value) : Prop :=
  exists parameters,
    lodash_get_default response [str "parameters"] (VArr []) = VArr parameters
    /\ Forall2 describes_parameter ps parameters.

(** *** What an export may change in the model it is handed *)

(** A declared synonym is left as it was or replaced by its sanitized
    form. *)
Definition synonym_frame (x x' : value) : Prop :=
  x' = x \/ exists s, x = VStr s /\ x' = VStr (sanitize s).

Definition value_frame (v v' : EntityValue) : Prop :=
  match v, v' with
  | ValueString s, ValueString s' => s' = s
  | ValueObject r, ValueObject r' =>
      value_of r' = value_of r
      /\ match synonyms r, synonyms r' with
         | Some l, Some l' => Forall2 synonym_frame l l'
         | None, None => True
         | _, _ => False
         end
  | _, _ => False
  end.

Definition type_frame (t t' : jsstring * EntityType) : Prop :=
  fst t' = fst t
  /\ entityType_dialogflow (snd t') = entityType_dialogflow (snd t)
  /\ match values (snd t), values (snd t') with
     | Some l, Some l' => Forall2 value_frame l l'
     | None, None => True
     | _, _ => False
     end.

Definition types_frame (o o' : option (list (jsstring * EntityType))) : Prop :=
  match o, o' with
  | Some l, Some l' => Forall2 type_frame l l'
  | None, None => True
  | _, _ => False
  end.

(** A vendor record is left as it was or loses the extracted field. *)
Definition record_frame (field : jsstring) (r r' : value) : Prop :=
  r' = r \/ exists o, r = VObj o /\ r' = VObj (obj_delete field o).

(** A vendor sub-tree is left as it was, or the records of its list
    [key] are. *)
Definition vendor_frame (key field : jsstring) (d d' : value) : Prop :=
  d' = d
  \/ exists l l',
       lodash_get d [key] = VArr l
       /\ Forall2 (record_frame field) l l'
       /\ d' = assign d key (VArr l').

(** The model after the intent loop: only declared synonyms may differ. *)
Definition synonyms_frame (m m' : JovoModelData) : Prop :=
  schema m' = schema m
  /\ version m' = version m
  /\ invocation m' = invocation m
  /\ intents m' = intents m
  /\ dialogflow m' = dialogflow m
  /\ types_frame (entityTypes m) (entityTypes m').

(** The model after an export. *)
Definition export_frame (m m' : JovoModelData) : Prop :=
  schema m' = schema m
  /\ version m' = version m
  /\ invocation m' = invocation m
  /\ intents m' = intents m
  /\ types_frame (entityTypes m) (entityTypes m')
  /\ exists d,
       vendor_frame (str "intents") (str "userSays") (dialogflow m) d
       /\ vendor_frame (str "entities") (str "entries") d (dialogflow m').

(** A computation that keeps a property of the held model. *)
Definition preserves {A} (I : JovoModelData -> Prop) (c : Export A) : Prop :=
  forall s, I (held s) -> I (held (snd (c s))).

(** *** Two exports that draw different identifiers *)

(** Properties that agree, but for the string stored under [id]. *)
Definition prop_agree (p1 p2 : jsstring * value) : Prop :=
  fst p1 = fst p2
  /\ (snd p1 = snd p2
      \/ (fst p1 = str "id" /\ exists a b, snd p1 = VStr a /\ snd p2 = VStr b)).

Definition record_agree (v1 v2 : value) : Prop :=
  v1 = v2
  \/ exists o1 o2, v1 = VObj o1 /\ v2 = VObj o2 /\ Forall2 prop_agree o1 o2.

(** File contents that agree: a record, or a list of records. *)
Definition content_agree (v1 v2 : value) : Prop :=
  record_agree v1 v2
  \/ exists l1 l2, v1 = VArr l1 /\ v2 = VArr l2 /\ Forall2 record_agree l1 l2.

Definition file_agree (f1 f2 : NativeFileInformation) : Prop :=
  path f1 = path f2 /\ content_agree (content f1) (content f2).

Definition outcome_agree {A} (R : A -> A -> Prop) (r1 r2 : result A) : Prop :=
  match r1, r2 with
  | Ok a, Ok b => R a b
  | Raise e1, Raise e2 => e1 = e2
  | _, _ => False
  end.

(** Two computations that end alike from any state, with results related
    by [R], and leave the same state. *)
Definition agree {A} (R : A -> A -> Prop) (c1 c2 : Export A) : Prop :=
  forall s, outcome_agree R (fst (c1 s)) (fst (c2 s)) /\ snd (c1 s) = snd (c2 s).

(** Two native records that are objects and agree. *)
Definition object_agree (v1 v2 : value) : Prop :=
  exists o1 o2, v1 = VObj o1 /\ v2 = VObj o2 /\ Forall2 prop_agree o1 o2.

Definition files_agree (f1 f2 : list NativeFileInformation) : Prop :=
  Forall2 file_agree f1 f2.

(** *** Models that survive export and import *)

Definition phrases_of (i : Intent) : list jsstring :=
  match phrases i with Some l => l | None => [] end.

Definition entities_of (i : Intent) : list (jsstring * IntentEntity) :=
  match entities i with Some l => l | None => [] end.

Definition values_of (t : EntityType) : list EntityValue :=
  match values t with Some l => l | None => [] end.

Definition types_of (m : JovoModelData) : list (jsstring * EntityType) :=
  match entityTypes m with Some l => l | None => [] end.

(** A value in object form whose value and synonyms are strings that
    sanitization leaves alone, no synonym being the value; a synonym list
    is absent rather than empty. *)
Definition portable_value (v : EntityValue) : Prop :=
  match v with
  | ValueString _ => False
  | ValueObject r =>
      exists s,
        value_of r = VStr s /\ sanitize s = s
        /\ match synonyms r with
           | None => True
           | Some l =>
               l <> []
               /\ Forall (fun x => exists y, x = VStr y /\ sanitize y = y /\ y <> s) l
           end
  end.

Definition portable_type (t : EntityType) : Prop :=
  entityType_dialogflow t = VUndef /\ Forall portable_value (values_of t).

(** A bare type name resolves, is not taken for a built-in type in either
    direction and does not read as an entries file; a vendor-qualified
    type names a built-in type of this vendor only. *)
Definition portable_ref (types : list (jsstring * EntityType)) (r : EntityTypeRef) : Prop :=
  match r with
  | TypeName t =>
      t <> []
      /\ startsWith t (str "@sys.") = false
      /\ startsWith t (str "sys.") = false
      /\ includes t (str "entries") = false
      /\ exists et, lookup t types = Some et /\ portable_type et
  | TypeVendors vendors =>
      exists native,
        vendors = [(str "dialogflow", native)] /\ startsWith native (str "@sys.") = true
  end.

(** An entity has a name, no vendor sub-tree and a portable type; an
    exemplar text, when recorded, is truthy and is not the name of the
    entity. *)
Definition portable_entity (types : list (jsstring * EntityType))
  (entry : jsstring * IntentEntity) : Prop :=
  fst entry <> []
  /\ (entity_text (snd entry) = VUndef
      \/ (truthy (entity_text (snd entry)) = true
          /\ strict_eq (entity_text (snd entry)) (VStr (fst entry)) = false))
  /\ entity_dialogflow (snd entry) = VUndef
  /\ exists r, entity_type (snd entry) = Some r /\ portable_ref types r.

(** Some phrase has a placeholder for the entity. *)
Definition used (entity : jsstring) (samples : list jsstring) : Prop :=
  exists phrase, In phrase samples /\ In (Placeholder entity) (tokenize phrase).

(** A placeholder names an entity of the intent. *)
Definition declared_in (declared : list (jsstring * IntentEntity)) (s : segment) : Prop :=
  match s with
  | Literal _ => True
  | Placeholder entity => exists e, lookup entity declared = Some e
  end.

Definition portable_intent (types : list (jsstring * EntityType))
  (entry : jsstring * Intent) : Prop :=
  includes (fst entry) (str "usersays") = false
  /\ intent_dialogflow (snd entry) = VUndef
  /\ (entities (snd entry) = None \/ entities_of (snd entry) <> [])
  /\ NoDup (List.map fst (entities_of (snd entry)))
  /\ Forall (portable_entity types) (entities_of (snd entry))
  /\ Forall (fun e : jsstring * IntentEntity =>
               entity_text (snd e) = VUndef \/ used (fst e) (phrases_of (snd entry)))
       (entities_of (snd entry))
  /\ Forall (fun phrase => Forall (declared_in (entities_of (snd entry))) (tokenize phrase))
       (phrases_of (snd entry)).

(** A model without vendor fields whose names, types, phrases and values
    the two conversions carry unchanged. *)
Definition portable (m : JovoModelData) : Prop :=
  dialogflow m = VUndef
  /\ NoDup (List.map fst (JovoModelHelper.getIntents m))
  /\ Forall (portable_intent (types_of m)) (JovoModelHelper.getIntents m).

(** An intent as it comes back: the same phrases and entities, and the
    webhook flag of the export in its vendor sub-tree. *)
Definition reimported_intent (i i' : Intent) : Prop :=
  phrases i' = Some (phrases_of i)
  /\ intent_dialogflow i' = VObj [(str "webhookUsed", VBool true)]
  /\ match entities i, entities i' with
     | Some declared, Some declared' =>
         List.length declared' = List.length declared
         /\ forall key, lookup key declared' = lookup key declared
     | None, None => True
     | _, _ => False
     end.

(** An entity type that some entity of some intent names. *)
Definition referenced (m : JovoModelData) (t : jsstring) : Prop :=
  exists intentKey intentData entityKey entityData,
    In (intentKey, intentData) (JovoModelHelper.getIntents m)
    /\ In (entityKey, entityData) (entities_of intentData)
    /\ entity_type entityData = Some (TypeName t).

(** An entity type as it comes back. *)
Definition reimport_type (t : EntityType) : EntityType :=
  {| values := Some (values_of t); entityType_dialogflow := VUndef |}.

(** *** The files of a portable model *)

(** The type string of a parameter. *)
Definition native_type (r : EntityTypeRef) : jsstring :=
  match r with
  | TypeName t => str "@" ++ t
  | TypeVendors vendors =>
      match lookup (str "dialogflow") vendors with
      | Some native => native
      | None => []
      end
  end.

Definition parameter_of (entry : jsstring * IntentEntity) : value :=
  VObj [ (str "isList", VBool false);
         (str "name", VStr (fst entry));
         (str "value", VStr (str "$" ++ fst entry));
         (str "dataType",
           VStr (match entity_type (snd entry) with
                 | Some r => native_type r
                 | None => []
                 end)) ].

Definition intent_record (id : jsstring) (intentKey : jsstring) (intentData : Intent)
  : value :=
  VObj ([ (str "id", VStr id);
          (str "name", VStr intentKey);
          (str "auto", VBool true);
          (str "webhookUsed", VBool true) ]
        ++ match entities intentData with
           | Some declared =>
               [(str "responses",
                  VArr [VObj [(str "parameters", VArr (List.map parameter_of declared))]])]
           | None => []
           end).

Definition intent_file (id : jsstring) (intentKey : jsstring) (intentData : Intent)
  : NativeFileInformation :=
  {| path := [str "intents"; intentKey ++ str ".json"];
     content := intent_record id intentKey intentData |}.

Definition usersays_file (locale : jsstring) (intentKey : jsstring) (samples : list value)
  : NativeFileInformation :=
  {| path := [str "intents"; intentKey ++ str "_usersays_" ++ locale ++ str ".json"];
     content := VArr samples |}.

Definition entry_of (v : EntityValue) : value :=
  match v with
  | ValueString s => VObj [(str "value", VStr s)]
  | ValueObject r =>
      VObj [ (str "value", value_of r);
             (str "synonyms",
               VArr (value_of r :: match synonyms r with Some l => l | None => [] end)) ]
  end.

Definition definition_file (id : jsstring) (t : jsstring) (et : EntityType)
  : NativeFileInformation :=
  {| path := [str "entities"; t ++ str ".json"]; content := entity_record id t et |}.

Definition entries_file (locale : jsstring) (t : jsstring) (et : EntityType)
  : NativeFileInformation :=
  {| path := [str "entities"; t ++ str "_entries_" ++ locale ++ str ".json"];
     content := VArr (List.map entry_of (values_of et)) |}.

Definition type_files (locale : jsstring) (id : jsstring) (t : jsstring) (et : EntityType)
  : list NativeFileInformation :=
  definition_file id t et
    :: match values_of et with
       | [] => []
       | _ => [entries_file locale t et]
       end.

(** The companion files of the entities of an intent. *)
Inductive entity_files (locale : jsstring) (types : list (jsstring * EntityType))
  : list (jsstring * IntentEntity) -> list NativeFileInformation -> Prop :=
| entity_files_nil : entity_files locale types [] []
| entity_files_custom entityKey entityData t et id rest files :
    entity_type entityData = Some (TypeName t) ->
    lookup t types = Some et ->
    entity_files locale types rest files ->
    entity_files locale types ((entityKey, entityData) :: rest)
      (type_files locale id t et ++ files)
| entity_files_builtin entityKey entityData vendors rest files :
    entity_type entityData = Some (TypeVendors vendors) ->
    entity_files locale types rest files ->
    entity_files locale types ((entityKey, entityData) :: rest) files.

(** The record of a segment of a phrase of an intent with the entities
    [declared], as far as the import reads it. *)
Definition segment_record (declared : list (jsstring * IntentEntity)) (s : segment)
  (data : value) : Prop :=
  match s with
  | Literal text => data = VObj [(str "text", VStr text); (str "userDefined", VBool false)]
  | Placeholder entity =>
      own data (str "alias") = VStr entity
      /\ own data (str "text") = sample_text entity declared
  end.

Definition sample_record (declared : list (jsstring * IntentEntity)) (phrase : jsstring)
  (sample : value) : Prop :=
  exists data,
    own sample (str "data") = VArr data
    /\ Forall2 (segment_record declared) (tokenize phrase) data.

(** The files of one intent: companion entity files, the intent file and,
    when the intent has phrases, its sample file. *)
Definition intent_files (locale : jsstring) (types : list (jsstring * EntityType))
  (entry : jsstring * Intent) (files : list NativeFileInformation) : Prop :=
  exists companions id samples,
    entity_files locale types (entities_of (snd entry)) companions
    /\ Forall2 (sample_record (entities_of (snd entry))) (phrases_of (snd entry)) samples
    /\ files = companions
               ++ intent_file id (fst entry) (snd entry)
               :: match samples with
                  | [] => []
                  | _ => [usersays_file locale (fst entry) samples]
                  end.

(** *** The import of the files of a portable model *)

(** The name and type string of the parameter of an entity. *)
Definition typed (entry : jsstring * IntentEntity) : jsstring * jsstring :=
  (fst entry,
   match entity_type (snd entry) with
   | Some r => native_type r
   | None => []
   end).

(** An imported entity after the segments that name the entities [seen]
    were read: the segment text is recorded when it is not the name. *)
Definition backfill (declared : list (jsstring * IntentEntity)) (seen : list jsstring)
  (entry : jsstring * IntentEntity) : jsstring * IntentEntity :=
  if existsb (str_eqb (fst entry)) seen
     && negb (strict_eq (sample_text (fst entry) declared) (VStr (fst entry)))
  then (fst entry, with_text (sample_text (fst entry) declared) (snd entry))
  else entry.

(** The entities named by placeholders, latest first. *)
Definition placeholders (seen : list jsstring) (tokens : list segment) : list jsstring :=
  fold_left
    (fun seen s => match s with Placeholder entity => entity :: seen | Literal _ => seen end)
    tokens seen.

Definition mentioned (seen : list jsstring) (samples : list jsstring) : list jsstring :=
  fold_left (fun seen phrase => placeholders seen (tokenize phrase)) samples seen.

(** The intent the importer makes of the files of an intent. *)
Definition reimport (i : Intent) : Intent :=
  {| phrases := Some (phrases_of i);
     entities :=
       option_map
         (fun declared =>
            List.map (backfill declared (mentioned [] (phrases_of i)))
              (fold_left declare (List.map typed declared) []))
         (entities i);
     intent_dialogflow := VObj [(str "webhookUsed", VBool true)] |}.

(** The intent files of a model, by intent: the intent, the identifier
    of its record and its sample records. *)
Definition intent_layout : Type := jsstring * (Intent * jsstring * list value).

Definition intent_part (locale : jsstring) (q : intent_layout)
  : list NativeFileInformation :=
  let '(intentKey, (intentData, id, samples)) := q in
  intent_file id intentKey intentData
    :: match samples with
       | [] => []
       | _ => [usersays_file locale intentKey samples]
       end.

Definition laid_out (q : intent_layout) : Prop :=
  let '(intentKey, (intentData, id, samples)) := q in
  Forall2 (sample_record (entities_of intentData)) (phrases_of intentData) samples.

(** The entity files of a model, by exported entity type: the type and
    the identifier of its record. *)
Definition type_layout : Type := jsstring * (EntityType * jsstring).

Definition type_part (locale : jsstring) (q : type_layout) : list NativeFileInformation :=
  let '(t, (et, id)) := q in type_files locale id t et.

Definition usersays_name (locale intentKey : jsstring) : jsstring :=
  intentKey ++ str "_usersays_" ++ locale ++ str ".json".

Definition entries_name (locale t : jsstring) : jsstring :=
  t ++ str "_entries_" ++ locale ++ str ".json".

(** A placeholder with a name. *)
Definition named (s : segment) : Prop :=
  match s with
  | Literal _ => True
  | Placeholder entity => entity <> []
  end.

(** A model whose entity has an exemplar text and no phrase, and a model
    whose type has a value with a full stop. *)
Definition silent_model : JovoModelData :=
  plain_model Current
    [(str "Travel",
      plain_intent []
        (Some [(str "where",
                {| entity_type := Some (TypeName (str "city"));
                   entity_text := VStr (str "Berlin");
                   entity_dialogflow := VUndef |})]))]
    (Some [(str "city", {| values := Some []; entityType_dialogflow := VUndef |})]).

Definition punctuated_model : JovoModelData :=
  plain_model Current travel_intents
    (Some [(str "city",
            {| values :=
                 Some [ValueObject {| value_of := VStr (str "St. Louis");
                                      synonyms := None |}];
               entityType_dialogflow := VUndef |})]).

(** A model that the two conversions carry unchanged but for the webhook
    flag. *)
Definition booking_model : JovoModelData :=
  plain_model Current
    [(str "Book",
      plain_intent [str "book a {city} flight"; str "{n} seats to {city}{city}"; str "help"]
        (Some [(str "city",
               {| entity_type := Some (TypeName (str "location"));
                  entity_text := VStr (str "Berlin");
                  entity_dialogflow := VUndef |});
               (str "n", plain_entity (TypeVendors [(str "dialogflow", str "@sys.number")]))]));
     (str "Stop", plain_intent [] None)]
    (Some [(str "location",
            {| values :=
                 Some [ValueObject {| value_of := VStr (str "Berlin");
                                      synonyms := Some [VStr (str "Spree-Athen")] |};
                       ValueObject {| value_of := VStr (str "Rome"); synonyms := None |}];
               entityType_dialogflow := VUndef |});
           (str "unused", {| values := Some []; entityType_dialogflow := VUndef |})]).

(** ** Shapes of converted data *)

(** An entity as the importer declares it: typed, without vendor
    sub-tree. *)
Definition imported_entity (e : jsstring * IntentEntity) : Prop :=
  entity_type (snd e) <> None /\ entity_dialogflow (snd e) = VUndef.

(** An intent as the importer makes it: a phrase list, and entities that
    are absent rather than an empty mapping. *)
Definition imported_intent (i : Intent) : Prop :=
  phrases i <> None
  /\ entities i <> Some []
  /\ Forall imported_entity (entities_of i).

(** An entity type as the importer makes it: a value list, every value in
    object form. *)
Definition imported_type (t : EntityType) : Prop :=
  exists vs, values t = Some vs /\ Forall (fun v => exists r, v = ValueObject r) vs.

(** Two intents with the same phrases and entities. *)
Definition same_core (j j' : Intent) : Prop :=
  phrases j' = phrases j /\ entities j' = entities j.



(** A vendor sub-tree as the import builds it: absent, or an object whose
    [responses], when set, is an array that starts with an object. *)
Definition shaped (d : value) : Prop :=
  d = VUndef
  \/ exists o,
       d = VObj o
       /\ (lookup (str "responses") o = None
           \/ exists r0 rest, lookup (str "responses") o = Some (VArr (VObj r0 :: rest))).

(** A message the import keeps: of the locale, with speech. *)
Definition kept_message (locale : jsstring) (message : value) : bool :=
  strict_eq (lodash_get message [str "lang"]) (VStr locale)
  && gt_zero (own (lodash_get_default message [str "speech"] (VStr [])) (str "length")).



(** What a list built by pushing to an initially absent array reads as. *)
Definition pushed_list (l : list value) : value :=
  match l with
  | [] => VUndef
  | _ => VArr l
  end.

(** An intent record with messages in two languages. *)
Definition english_message : value :=
  VObj [(str "lang", VStr (str "en")); (str "speech", VStr (str "Hello"))].

Definition spoken_messages : list value :=
  [ english_message;
    VObj [(str "lang", VStr (str "de")); (str "speech", VStr (str "Hallo"))];
    VObj [(str "lang", VStr (str "en")); (str "speech", VStr [])] ].

Definition spoken_intent : value :=
  VObj [(str "name", VStr (str "Greet"));
        (str "auto", VBool true);
        (str "responses", VArr [VObj [(str "messages", VArr spoken_messages)]])].

(** The vendor sub-tree of an imported model: absent, or an object whose
    only property is the list [intents] of named objects. *)
Definition vendor_record (w : value) : Prop :=
  exists o, w = VObj o /\ lookup (str "name") o <> None.

Definition vendor_list (d : value) : Prop :=
  d = VUndef
  \/ exists l, d = VObj [(str "intents", VArr l)] /\ l <> [] /\ Forall vendor_record l.

(** The records already listed in a vendor sub-tree. *)
Definition listed_intents (d : value) : list value :=
  match lodash_get d [str "intents"] with
  | VArr l => l
  | _ => []
  end.

(** The record the importer lists for a fallback or greeting intent. *)
Definition routed_record (locale : jsstring) (dialogFlowIntent w : value) : Prop :=
  exists j o,
    skipDefaultIntentProps
      {| phrases := Some []; entities := None; intent_dialogflow := VUndef |}
      dialogFlowIntent locale = Ok j
    /\ intent_dialogflow j = VObj o
    /\ w = VObj (obj_set (str "name") (own dialogFlowIntent (str "name")) o).

(** The native type the exporter derives for an entity, when it derives
    one: the bare type name, or the [dialogflow] entry of a vendor-qualified
    type, empty strings excluded. *)
Definition native_name (entityData : IntentEntity) : option jsstring :=
  match entity_type entityData with
  | None | Some (TypeName []) => None
  | Some (TypeName name) => Some name
  | Some (TypeVendors vendors) =>
      match lookup (str "dialogflow") vendors with
      | Some (c :: native) => Some (c :: native)
      | _ => None
      end
  end.

(** An entity whose type the exporter resolves: a built-in type, or a
    type of the entity-type mapping of the model. *)
Definition exportable (m : JovoModelData) (entityData : IntentEntity) : Prop :=
  exists dataType,
    native_name entityData = Some dataType
    /\ (startsWith dataType BUILTIN_PREFIX = true
        \/ exists t, JovoModelHelper.getEntityTypeByName m dataType = Some t).

(** A segment as the marker scan cuts it: the name of a placeholder holds
    no closing brace and no line terminator, and a literal text holds no
    marker. *)
Definition well_cut (s : segment) : Prop :=
  match s with
  | Placeholder entity =>
      Forall (fun c => c <> 125%N /\ is_line_terminator c = false) entity
  | Literal text => exec_marker text = None
  end.

(** A companion file: a sample file under [intents], an entries file
    under [entities]. *)
Definition companion_file (f : NativeFileInformation) : Prop :=
  exists name,
    nth_error (path f) 1 = Some name
    /\ (under "intents" f = true -> includes name (str "usersays") = true)
    /\ (under "entities" f = true -> includes name (str "entries") = true).

(** The model the importer starts from. *)
Definition empty_model : JovoModelData :=
  {| schema := Current;
     version := VStr (str "4.0");
     invocation := VStr [];
     intents := Some [];
     entityTypes := Some [];
     dialogflow := VUndef |}.

(** The text a segment of a sample record adds to the phrase. *)
Definition segment_text (data : value) : jsstring :=
  if truthy (own data (str "alias"))
  then str "{" ++ to_string (own data (str "alias")) ++ str "}"
  else to_string (own data (str "text")).

(** A value whose members can be read: not [undefined], not [null], and
    not the place of a missing element, which reads as [undefined]. *)
Definition defined (v : value) : Prop := v <> VUndef /\ v <> VNull /\ v <> VHole.

(** A file the exporter returns: two path segments, the first [intents]
    or [entities]. *)
Definition located (f : NativeFileInformation) : Prop :=
  exists dir name,
    path f = [dir; name] /\ (dir = str "intents" \/ dir = str "entities").

(** A vendor record whose properties have distinct names. *)
Definition keyed (record : value) : Prop :=
  match record with
  | VObj o => NoDup (List.map fst o)
  | _ => True
  end.

(** The file of a vendor record that has no companion. *)
Definition record_file (dir : jsstring) (record : value) : NativeFileInformation :=
  {| path := [dir; to_string (own record (str "name")) ++ str ".json"];
     content := record |}.

(** A value that [_merge] assigns as it is. *)
Definition primitive (v : value) : Prop :=
  match v with
  | VNull | VBool _ | VNum _ | VStr _ => True
  | _ => False
  end.

(** A model whose intent overrides the generated webhook flag. *)
Definition quiet_model : JovoModelData :=
  plain_model Current
    [(str "Hello",
      {| phrases := Some [str "hi"; str "hello"];
         entities := None;
         intent_dialogflow := VObj [(str "webhookUsed", VBool false)] |})]
    (Some []).

(** The parameter record that the loop over the entities of an intent
    builds for an entity without vendor sub-tree: the native type as it is
    when it starts with [@sys.], behind [@] otherwise. *)
Definition exported_parameter (entry : jsstring * IntentEntity) : value :=
  VObj [ (str "isList", VBool false);
         (str "name", VStr (fst entry));
         (str "value", VStr (str "$" ++ fst entry));
         (str "dataType",
           VStr (match native_name (snd entry) with
                 | Some dataType =>
                     if startsWith dataType BUILTIN_PREFIX then dataType
                     else str "@" ++ dataType
                 | None => []
                 end)) ].

(** * Properties *)

(** ** Import failures *)

(** C2: the importer raises on an entries file whose entry has no
    synonyms, although the companion record type declares the field
    optional; the exporter itself writes such entries for the values an
    entity type lists as plain strings, and the importer raises on the
    files of that export. *)
Theorem import_raises_without_synonyms :
  toJovoModel [city_file; city_entries_file] (str "en") = Raise TypeError
  /\ exists files,
       fst (fromJovoModel sample_ids listed_model (str "en")) = Ok files
       /\ In city_entries_file files
       /\ toJovoModel files (str "en") = Raise TypeError.
Proof.
  split; [vm_compute; reflexivity|].
  eexists. split; [vm_compute; reflexivity|].
  split; [|vm_compute; reflexivity].
  right. left. reflexivity.
Qed.

(** ** Unresolved entity types *)

(** C3: when the model declares no entity-type mapping, a legacy model and
    a current model get the same message, worded [Input type] with
    [entityTypes]; when only the name is missing the messages differ. *)
Theorem unresolved_type_messages :
  fst (fromJovoModel sample_ids (untyped_model Legacy) (str "en"))
    = Raise (Error (str "Input type " ++ quoted (str "city")
                      ++ str " must be defined in entityTypes"))
  /\ fst (fromJovoModel sample_ids (untyped_model Current) (str "en"))
    = fst (fromJovoModel sample_ids (untyped_model Legacy) (str "en"))
  /\ fst (fromJovoModel sample_ids (mistyped_model Legacy) (str "en"))
    = Raise (Error (str "Input type " ++ quoted (str "city")
                      ++ str " must be defined in inputTypes"))
  /\ fst (fromJovoModel sample_ids (mistyped_model Current) (str "en"))
    = Raise (Error (str "Entity type " ++ quoted (str "city")
                      ++ str " must be defined in entityTypes")).
Proof. repeat split; vm_compute; reflexivity. Qed.

(** ** Fallback and greeting intents *)

(** C4: a fallback intent imported after a greeting intent replaces the
    vendor list, which then holds the fallback intent alone. *)
Theorem fallback_replaces_vendor_list :
  exists m,
    toJovoModel [welcome_file; fallback_file] (str "en") = Ok m
    /\ intents m = Some []
    /\ lodash_get (dialogflow m) [str "intents"]
       = VArr [VObj [(str "fallbackIntent", VBool true);
                     (str "name", VStr (str "Default Fallback Intent"))]].
Proof. eexists. repeat split; vm_compute; reflexivity. Qed.

(** ** Reasoning about the result monad *)

Lemma bind_ok {A B} (r : result A) (k : A -> result B) (b : B) :
  bind r k = Ok b -> exists a, r = Ok a /\ k a = Ok b.
Proof. destruct r as [a|e]; simpl; [eauto|discriminate]. Qed.

Ltac bind_inv H :=
  let a := fresh "a" in
  let E := fresh "E" in
  apply bind_ok in H; destruct H as (a & E & H).

Lemma foldM_invariant {A S} (P : S -> Prop) (body : S -> A -> result S) :
  (forall s a s', P s -> body s a = Ok s' -> P s') ->
  forall l s r, P s -> foldM body l s = Ok r -> P r.
Proof.
  intros step. induction l as [|a l IH]; intros s r Hs; simpl.
  - intros [= <-]. exact Hs.
  - intros H. bind_inv H. eauto.
Qed.

(** ** Arrays without missing elements *)

Lemma settle_present v : v <> VHole -> settle v = v.
Proof. destruct v; try reflexivity. congruence. Qed.

Lemma settle_settled v : settle (settle v) = settle v.
Proof. destruct v; reflexivity. Qed.

Lemma map_settle_dense l : Forall (fun v => v <> VHole) l -> List.map settle l = l.
Proof.
  induction 1 as [|v l Hv Hl IH]; simpl; [reflexivity|].
  rewrite (settle_present Hv), IH. reflexivity.
Qed.

Lemma map_settle_map {A} (f : A -> value) l :
  (forall a, f a <> VHole) -> List.map settle (List.map f l) = List.map f l.
Proof.
  intros H. apply map_settle_dense. apply Forall_forall.
  intros v Hv. apply in_map_iff in Hv. destruct Hv as (a & <- & _). apply H.
Qed.

Lemma filter_present_dense l :
  Forall (fun v => v <> VHole) l -> filter (fun item => negb (is_hole item)) l = l.
Proof.
  induction 1 as [|v l Hv Hl IH]; simpl; [reflexivity|].
  rewrite IH. destruct v; try reflexivity. congruence.
Qed.

Lemma filter_present_map {A} (f : A -> value) l :
  (forall a, f a <> VHole) ->
  filter (fun item => negb (is_hole item)) (List.map f l) = List.map f l.
Proof.
  intros H. apply filter_present_dense. apply Forall_forall.
  intros v Hv. apply in_map_iff in Hv. destruct Hv as (a & <- & _). apply H.
Qed.

Lemma Forall2_dense {A} (R : A -> value -> Prop) l data :
  (forall a v, R a v -> v <> VHole) ->
  Forall2 R l data -> List.map settle data = data.
Proof.
  intros H F. apply map_settle_dense.
  induction F as [|a v l data Hv Hl IH]; constructor; [|exact IH].
  apply (H a v Hv).
Qed.

(** ** The shape of an imported model *)

Lemma import_intent_shape intentFiles locale m fileInformation m' :
  current_shape m ->
  import_intent intentFiles locale m fileInformation = Ok m' ->
  current_shape m'.
Proof.
  intros (Hs & Hv & Hi & Hn & Ht). unfold import_intent.
  destruct (nth_error (path fileInformation) 1) as [name|]; [|discriminate].
  destruct (includes name (str "usersays")).
  { intros [= <-]. repeat split; assumption. }
  intros H. bind_inv H. bind_inv H. bind_inv H.
  destruct (strict_eq a0 (VBool true)).
  { bind_inv H. injection H as <-. repeat split; assumption. }
  destruct (strict_eq _ (VStr (str "WELCOME"))).
  { bind_inv H. destruct (negb _).
    - injection H as <-. repeat split; assumption.
    - bind_inv H. injection H as <-. repeat split; assumption. }
  bind_inv H. bind_inv H.
  destruct (intents m) as [l|] eqn:El; [|discriminate].
  injection H as <-. repeat split; simpl; try assumption. discriminate.
Qed.

Lemma import_entity_shape entityFiles locale m fileInformation m' :
  current_shape m ->
  import_entity entityFiles locale m fileInformation = Ok m' ->
  current_shape m'.
Proof.
  intros (Hs & Hv & Hi & Hn & Ht). unfold import_entity.
  destruct (nth_error (path fileInformation) 1) as [name|]; [|discriminate].
  destruct (includes name (str "entries")).
  { intros [= <-]. repeat split; assumption. }
  intros H. bind_inv H. bind_inv H.
  destruct (entityTypes m) as [l|] eqn:El; [|discriminate].
  injection H as <-. repeat split; simpl; try assumption. discriminate.
Qed.

(** C10: whatever the file set and the locale, a model the importer
    returns has version 4.0, an empty invocation, and both the intents
    and the entityTypes mappings defined. *)
Theorem import_targets_current_version inputData locale m :
  toJovoModel inputData locale = Ok m ->
  version m = VStr (str "4.0")
  /\ invocation m = VStr []
  /\ (exists declared, intents m = Some declared)
  /\ (exists types, entityTypes m = Some types).
Proof.
  unfold toJovoModel. intros H. bind_inv H.
  assert (S0 : current_shape a).
  { eapply (foldM_invariant current_shape); [| |exact E].
    - intros s f s'. apply import_intent_shape.
    - repeat split; simpl; discriminate. }
  assert (S1 : current_shape m).
  { eapply (foldM_invariant current_shape); [| exact S0 |exact H].
    intros s f s'. apply import_entity_shape. }
  destruct S1 as (_ & Hv & Hi & Hn & Ht). repeat split; try assumption.
  - destruct (intents m); [eauto|congruence].
  - destruct (entityTypes m); [eauto|congruence].
Qed.

Lemma import_targets_current_version_witness :
  exists m,
    toJovoModel [welcome_file; city_file; city_synonyms_file] (str "en") = Ok m
    /\ version m = VStr (str "4.0")
    /\ invocation m = VStr []
    /\ (exists declared, intents m = Some declared)
    /\ (exists types, entityTypes m = Some types).
Proof.
  eexists. split; [vm_compute; reflexivity|].
  apply (@import_targets_current_version
           [welcome_file; city_file; city_synonyms_file] (str "en")).
  vm_compute. reflexivity.
Defined.

(** ** Phrase tokenization *)

Lemma close_marker_split s group after :
  close_marker s = Some (group, after) -> s = group ++ 125%N :: after.
Proof.
  revert group after. induction s as [|c s IH]; intros group after; simpl; [discriminate|].
  destruct (c =? 125)%N eqn:Ec.
  - intros [= <- <-]. apply N.eqb_eq in Ec. subst c. reflexivity.
  - destruct (is_line_terminator c); [discriminate|].
    destruct (close_marker s) as [[g a]|]; [|discriminate].
    intros [= <- <-]. simpl. f_equal. apply IH. reflexivity.
Qed.

Lemma exec_marker_split s text group after :
  exec_marker s = Some (text, group, after) ->
  s = text ++ 123%N :: group ++ 125%N :: after.
Proof.
  revert text group after. induction s as [|c s IH]; intros text group after; simpl;
    [discriminate|].
  assert (later : match exec_marker s with
                  | Some (t, g, a) => Some (c :: t, g, a)
                  | None => None
                  end = Some (text, group, after) ->
                  c :: s = text ++ 123%N :: group ++ 125%N :: after).
  { destruct (exec_marker s) as [[[t g] a]|]; [|discriminate].
    intros [= <- <- <-]. simpl. f_equal. apply IH. reflexivity. }
  destruct (c =? 123)%N eqn:Ec; [|exact later].
  destruct (close_marker s) as [[g a]|] eqn:E; [|exact later].
  intros [= <- <- <-]. apply N.eqb_eq in Ec. subst c. simpl. f_equal.
  apply close_marker_split. exact E.
Qed.

Lemma scan_renders rest : List.concat (List.map render (scan rest)) = rest.
Proof.
  funelim (scan rest).
  - rewrite map_app, concat_app. simpl.
    match goal with IH : List.concat _ = _ |- _ => rewrite IH end.
    pose proof (exec_marker_split _ found) as S.
    clear - S. subst rest. rewrite <- app_assoc.
    destruct text; simpl; [reflexivity|]. rewrite app_nil_r. reflexivity.
  - destruct rest; simpl; [reflexivity|]. rewrite app_nil_r. reflexivity.
Qed.

Lemma scan_without_marker rest : exec_marker rest = None -> scan rest = [] \/ scan rest = [Literal rest].
Proof.
  intros H. funelim (scan rest).
  - congruence.
  - destruct rest; simpl; auto.
Qed.

Lemma scan_with_marker rest m : exec_marker rest = Some m -> scan rest <> [].
Proof.
  intros H. funelim (scan rest).
  - destruct ((0 <? List.length text)%nat); simpl; discriminate.
  - congruence.
Qed.

Lemma scan_at_end rest : exec_marker rest = None -> scan rest = literal rest.
Proof.
  intros H. funelim (scan rest).
  - congruence.
  - destruct rest; reflexivity.
Qed.

Lemma scan_at_marker rest t e a :
  exec_marker rest = Some (t, e, a) ->
  scan rest = literal t ++ Placeholder e :: scan a.
Proof.
  intros Hm. funelim (scan rest).
  - rewrite found in Hm. injection Hm as <- <- <-. destruct text; reflexivity.
  - congruence.
Qed.

Lemma tokenize_at_end phrase :
  exec_marker phrase = None -> tokenize phrase = [Literal phrase].
Proof.
  intros H. unfold tokenize. rewrite (scan_at_end _ H). destruct phrase; reflexivity.
Qed.

Lemma tokenize_with_marker phrase m :
  exec_marker phrase = Some m -> tokenize phrase = scan phrase.
Proof.
  intros H. unfold tokenize. pose proof (scan_with_marker _ H) as N.
  destruct (scan phrase); [congruence|reflexivity].
Qed.

Lemma tokenize_at_marker phrase t e a :
  exec_marker phrase = Some (t, e, a) ->
  tokenize phrase
  = literal t ++ Placeholder e ::
      match exec_marker a with
      | None => literal a
      | Some _ => tokenize a
      end.
Proof.
  intros H. rewrite (tokenize_with_marker _ H), (scan_at_marker _ H).
  destruct (exec_marker a) as [m|] eqn:E.
  - rewrite (tokenize_with_marker _ E). reflexivity.
  - rewrite (scan_at_end _ E). reflexivity.
Qed.

Lemma tokenize_renders phrase : List.concat (List.map render (tokenize phrase)) = phrase.
Proof.
  unfold tokenize. pose proof (scan_renders phrase) as R.
  destruct (scan phrase) as [|s l]; [|exact R].
  simpl. rewrite app_nil_r. reflexivity.
Qed.

(** C6 (as the code has it): a phrase without marker is one literal
    segment that holds the whole phrase, also when the phrase is empty.
    In a phrase with markers, the text before the first marker is a
    literal segment when it is not empty and is left out when it is
    empty, the marker is a placeholder segment, and the text after the
    marker is cut in the same way: the text up to the next marker, and the
    text after the last marker, are literal segments when they are not
    empty and are left out when they are empty.  The segments read back
    as the phrase. *)
Theorem tokenize_segments :
  (forall phrase, exec_marker phrase = None -> tokenize phrase = [Literal phrase])
  /\ (forall phrase text entity after,
         exec_marker phrase = Some (text, entity, after) ->
         tokenize phrase
         = literal text ++ Placeholder entity ::
             match exec_marker after with
             | None => literal after
             | Some _ => tokenize after
             end)
  /\ (forall phrase, List.concat (List.map render (tokenize phrase)) = phrase).
Proof.
  split; [|split].
  - apply tokenize_at_end.
  - apply tokenize_at_marker.
  - apply tokenize_renders.
Qed.

Lemma tokenize_segments_witness :
  tokenize (str "fly") = [Literal (str "fly")]
  /\ tokenize [] = [Literal []]
  /\ tokenize (str "from {a}{b} to {c}")
     = [Literal (str "from "); Placeholder (str "a"); Placeholder (str "b");
        Literal (str " to "); Placeholder (str "c")]
  /\ tokenize (str "{a{b}?") = [Placeholder (str "a{b"); Literal (str "?")].
Proof.
  destruct tokenize_segments as (A & B & _).
  split; [apply (A (str "fly")); reflexivity|].
  split; [apply (A []); reflexivity|].
  split.
  - rewrite (B (str "from {a}{b} to {c}") (str "from ") (str "a") (str "{b} to {c}") eq_refl).
    vm_compute. reflexivity.
  - rewrite (B (str "{a{b}?") [] (str "a{b") (str "?") eq_refl).
    vm_compute. reflexivity.
Defined.

(** C6, counterexample: no literal segment stands between two adjacent
    markers nor after the last marker. *)
Lemma adjacent_markers_without_literal :
  tokenize (str "{a}{b}") = [Placeholder (str "a"); Placeholder (str "b")]
  /\ ~ In (Literal []) (tokenize (str "{a}{b}")).
Proof.
  assert (E : tokenize (str "{a}{b}") = [Placeholder (str "a"); Placeholder (str "b")])
    by (vm_compute; reflexivity).
  split; [exact E|]. rewrite E. simpl. intros [H|[H|[]]]; discriminate.
Qed.

(** ** Property lists *)

Lemma replace_In {A} k (v : A) o k' v' :
  In (k', v') (replace k v o) -> v' = v \/ In (k', v') o.
Proof.
  induction o as [|[k0 v0] o IH]; simpl; [tauto|].
  destruct (str_eqb k k0); simpl.
  - intros [[= <- <-]|H]; auto.
  - intros [H|H]; auto. destruct (IH H); auto.
Qed.

Lemma insert_index_In {A} i k (v : A) o k' v' :
  In (k', v') (insert_index i k v o) -> v' = v \/ In (k', v') o.
Proof.
  induction o as [|[k0 v0] o IH]; simpl.
  - intros [[= <- <-]|[]]. auto.
  - destruct (is_index k0) as [j|].
    + destruct (j <? i)%N; simpl.
      * intros [H|H]; auto. destruct (IH H); auto.
      * intros [[= <- <-]|H]; auto.
    + simpl. intros [[= <- <-]|H]; auto.
Qed.

Lemma obj_set_In {A} k (v : A) o k' v' :
  In (k', v') (obj_set k v o) -> v' = v \/ In (k', v') o.
Proof.
  unfold obj_set. destruct (lookup k o).
  - apply replace_In.
  - destruct (is_index k).
    + apply insert_index_In.
    + intros H. apply in_app_or in H. destruct H as [H|[[= <- <-]|[]]]; auto.
Qed.

(** ** Synonyms *)

Lemma import_entry_distinct dialogFlowEntity imported entry imported' :
  Forall distinct_synonyms imported ->
  import_entry dialogFlowEntity imported entry = Ok imported' ->
  Forall distinct_synonyms imported'.
Proof.
  intros Hi. unfold import_entry. intros H.
  bind_inv H. bind_inv H. bind_inv H. bind_inv H. injection H as <-.
  apply Forall_app. split; [exact Hi|]. constructor; [|constructor].
  simpl. destruct (negb (truthy a0) && negb (truthy a1)).
  - bind_inv E2. bind_inv E2.
    destruct (filter _ a4) as [|x l] eqn:F; injection E2 as <-; [exact I|].
    split; [discriminate|]. rewrite <- F. apply Forall_forall.
    intros s Hs. apply filter_In in Hs. destruct Hs as [_ Hs].
    apply negb_true_iff in Hs. exact Hs.
  - injection E2 as <-. exact I.
Qed.

Lemma import_entity_distinct entityFiles locale m fileInformation m' :
  distinct_types m ->
  import_entity entityFiles locale m fileInformation = Ok m' ->
  distinct_types m'.
Proof.
  intros Hm. unfold import_entity.
  destruct (nth_error (path fileInformation) 1) as [name|]; [|discriminate].
  destruct (includes name (str "entries")).
  { intros [= <-]. exact Hm. }
  intros H. bind_inv H. bind_inv H.
  destruct (entityTypes m) as [l|] eqn:El; [|discriminate].
  injection H as <-. intros types n t declared. simpl. intros [= <-] Hin Hv.
  apply obj_set_In in Hin. destruct Hin as [-> | Hin].
  - unfold skipDefaultEntityProps, skip_flag in Hv.
    repeat match type of Hv with
           | context [if ?c then _ else _] => destruct c
           end; simpl in Hv; injection Hv as <-;
    (destruct (find_file _ _);
     [ bind_inv E0;
       eapply (foldM_invariant (Forall distinct_synonyms));
       [ intros s x s'; apply import_entry_distinct | constructor | exact E0 ]
     | injection E0 as <-; constructor ]).
  - eapply Hm; eauto.
Qed.

Lemma import_intent_types intentFiles locale m fileInformation m' :
  import_intent intentFiles locale m fileInformation = Ok m' ->
  entityTypes m' = entityTypes m.
Proof.
  unfold import_intent.
  destruct (nth_error (path fileInformation) 1) as [name|]; [|discriminate].
  destruct (includes name (str "usersays")).
  { intros [= <-]. reflexivity. }
  intros H. bind_inv H. bind_inv H. bind_inv H.
  destruct (strict_eq a0 (VBool true)).
  { bind_inv H. injection H as <-. reflexivity. }
  destruct (strict_eq _ (VStr (str "WELCOME"))).
  { bind_inv H. destruct (negb _).
    - injection H as <-. reflexivity.
    - bind_inv H. injection H as <-. reflexivity. }
  bind_inv H. bind_inv H.
  destruct (intents m) as [l|] eqn:El; [|discriminate].
  injection H as <-. reflexivity.
Qed.

Lemma import_distinct_types inputData locale m :
  toJovoModel inputData locale = Ok m -> distinct_types m.
Proof.
  unfold toJovoModel. intros H. bind_inv H.
  assert (T : entityTypes a = Some []).
  { eapply (foldM_invariant (fun m => entityTypes m = Some [])); [| |exact E].
    - intros s f s' Hs Hf. apply import_intent_types in Hf. congruence.
    - reflexivity. }
  eapply (foldM_invariant distinct_types); [| |exact H].
  - intros s f s'. apply import_entity_distinct.
  - intros types name t declared Ht. rewrite T in Ht. injection Ht as <-. intros [].
Qed.

Lemma kept_ranges c : kept c = true <-> in_kept_ranges c.
Proof.
  unfold kept, in_kept_ranges, is_digit.
  rewrite !orb_true_iff, !andb_true_iff, !N.leb_le, !N.eqb_eq. lia.
Qed.

Lemma sanitize_app s1 s2 : sanitize (s1 ++ s2) = sanitize s1 ++ sanitize s2.
Proof. apply filter_app. Qed.

Lemma sanitize_synonyms_strings declared :
  sanitize_synonyms (List.map VStr declared)
  = (List.map VStr (List.map sanitize declared), Ok tt).
Proof.
  induction declared as [|s l IH]; simpl; [reflexivity|]. rewrite IH. reflexivity.
Qed.

(** C5 (as the code has it): an imported value never lists a synonym
    strictly equal to the value and never has an empty synonym list; the
    export seeds the entry synonyms with the sanitized value, followed by
    the sanitized declared synonyms; sanitization works code unit by code
    unit and keeps exactly digits, ASCII letters, U+00C0 to U+00FF,
    U+0178, hyphen, underscore, apostrophe and space. *)
Theorem synonyms_distinct_and_sanitized :
  (forall inputData locale m types name t declared,
      toJovoModel inputData locale = Ok m ->
      entityTypes m = Some types -> In (name, t) types ->
      values t = Some declared -> Forall distinct_synonyms declared)
  /\ (forall dfEntityObj s (declared : option (list jsstring)),
         truthy (own dfEntityObj (str "isEnum")) = false ->
         truthy (own dfEntityObj (str "isRegexp")) = false ->
         snd (export_value dfEntityObj
                (ValueObject {| value_of := VStr s;
                                synonyms := option_map (List.map VStr) declared |}))
         = Ok (VObj [(str "value", VStr s);
                     (str "synonyms",
                       VArr (List.map VStr
                               (sanitize s ::
                                match declared with
                                | Some l => List.map sanitize l
                                | None => []
                                end)))]))
  /\ (forall s1 s2, sanitize (s1 ++ s2) = sanitize s1 ++ sanitize s2)
  /\ (forall c, in_kept_ranges c -> sanitize [c] = [c])
  /\ (forall c, ~ in_kept_ranges c -> sanitize [c] = []).
Proof.
  split; [|split; [|split; [|split]]].
  - intros inputData locale m types name t declared H.
    apply (import_distinct_types _ _ H).
  - intros dfEntityObj s declared He Hr. unfold export_value.
    rewrite He, Hr. simpl. destruct declared as [l|]; simpl; [|reflexivity].
    rewrite sanitize_synonyms_strings. reflexivity.
  - apply sanitize_app.
  - intros c Hc. apply kept_ranges in Hc. unfold sanitize. simpl. rewrite Hc. reflexivity.
  - intros c Hc. unfold sanitize. simpl. destruct (kept c) eqn:K; [|reflexivity].
    apply kept_ranges in K. contradiction.
Qed.

Lemma synonyms_distinct_and_sanitized_witness :
  (exists m types t declared,
      toJovoModel [city_file; city_synonyms_file] (str "en") = Ok m
      /\ entityTypes m = Some types /\ In (str "city", t) types
      /\ values t = Some declared /\ Forall distinct_synonyms declared)
  /\ snd (export_value (VObj DIALOGFLOW_LM_ENTITY)
            (ValueObject {| value_of := VStr (str "New York!");
                            synonyms := Some [VStr (str "NYC (city)")] |}))
     = Ok (VObj [(str "value", VStr (str "New York!"));
                 (str "synonyms", VArr [VStr (str "New York"); VStr (str "NYC city")])])
  /\ sanitize [32%N] = [32%N]
  /\ sanitize [33%N] = [].
Proof.
  destruct synonyms_distinct_and_sanitized as (A & B & _ & C & D).
  split; [|split; [|split]].
  - do 4 eexists.
    assert (E : toJovoModel [city_file; city_synonyms_file] (str "en") = Ok _)
      by (vm_compute; reflexivity).
    split; [exact E|]. split; [reflexivity|]. split; [left; reflexivity|].
    split; [reflexivity|].
    eapply (A _ _ _ _ (str "city") _ _ E); [reflexivity|left; reflexivity|reflexivity].
  - apply (B (VObj DIALOGFLOW_LM_ENTITY) (str "New York!") (Some [str "NYC (city)"]));
      reflexivity.
  - apply C. unfold in_kept_ranges. lia.
  - apply D. unfold in_kept_ranges. lia.
Defined.

(** C5, counterexample: space, hyphen and underscore are neither
    alphanumeric, apostrophe nor accented Latin, and are kept. *)
Lemma sanitize_keeps_more :
  sanitize (str "a b-c_d") = str "a b-c_d"
  /\ filter claimed_kept (str "a b-c_d") = str "abcd".
Proof. split; vm_compute; reflexivity. Qed.

(** ** Entity declarations *)

Lemma member_own v k x : own v k = VStr x -> member v k = Ok (VStr x).
Proof. destruct v; simpl; try discriminate; intros ->; reflexivity. Qed.

Lemma import_parameter_declares entities p parameter :
  describes_parameter p parameter ->
  import_parameter entities parameter = Ok (declare entities p).
Proof.
  destruct p as [name dataType]. unfold import_parameter.
  intros [[Hn Hd]|(Hd & v & Hm & Hv)]; simpl in *.
  - rewrite (member_own _ _ Hd). simpl.
    destruct dataType as [|c t]; [reflexivity|].
    rewrite (member_own _ _ Hn). reflexivity.
  - subst dataType. rewrite Hm. simpl. rewrite Hv. reflexivity.
Qed.

Lemma import_parameters_declare ps : forall parameters entities,
  Forall2 describes_parameter ps parameters ->
  foldM import_parameter parameters entities = Ok (fold_left declare ps entities).
Proof.
  induction ps as [|p ps IH]; intros parameters entities H; inversion H; subst; simpl.
  - reflexivity.
  - rewrite (import_parameter_declares _ H2). simpl. apply IH. assumption.
Qed.

Lemma described_present p parameter : describes_parameter p parameter -> parameter <> VHole.
Proof.
  intros [[_ H]|(_ & v & H & _)] ->; discriminate H.
Qed.

Lemma described_dense ps parameters :
  Forall2 describes_parameter ps parameters -> List.map settle parameters = parameters.
Proof.
  intros H. apply map_settle_dense.
  induction H as [|p v ps l Hp Hl IH]; constructor; [|exact IH].
  apply (described_present Hp).
Qed.

Lemma describes_settled ps response :
  describes_response ps response -> describes_response ps (settle response).
Proof. destruct response; intros H; exact H. Qed.

Lemma import_responses_declare pss : forall responses entities,
  Forall2 describes_response pss responses ->
  foldM import_response responses entities
  = Ok (fold_left declare (List.concat pss) entities).
Proof.
  induction pss as [|ps pss IH]; intros responses entities H; inversion H; subst; simpl.
  - reflexivity.
  - destruct H2 as (parameters & Hp & Hf). unfold import_response at 1.
    rewrite Hp. simpl. rewrite (described_dense Hf).
    rewrite (import_parameters_declare _ Hf). simpl.
    rewrite fold_left_app. apply IH. assumption.
Qed.

Lemma describe_settled pss : forall responses,
  Forall2 describes_response pss responses ->
  Forall2 describes_response pss (List.map settle responses).
Proof.
  induction 1 as [|ps r pss l Hr Hl IH]; simpl; constructor; [|exact IH].
  apply describes_settled. exact Hr.
Qed.

(** C8 (as the code has it): the entity declarations of an intent come
    from the parameter lists of all its responses, taken in order, a later
    parameter of a name replacing an earlier one: a parameter whose
    [dataType] is empty, absent or falsy in another way declares nothing,
    a [dataType] starting with [@sys.] gives a vendor-qualified
    descriptor, any other gives the name left after its first
    character. *)
Theorem entities_from_all_responses dialogFlowIntent responses pss :
  member dialogFlowIntent (str "responses") = Ok (VArr responses) ->
  Forall2 describes_response pss responses ->
  import_entities dialogFlowIntent = Ok (fold_left declare (List.concat pss) []).
Proof.
  intros Hr Hf. unfold import_entities. rewrite Hr. simpl.
  apply import_responses_declare. apply describe_settled. exact Hf.
Qed.

Lemma entities_from_all_responses_witness :
  import_entities (content untyped_parameter_file)
  = Ok [(str "dish", plain_entity (TypeName (str "food")));
        (str "count", plain_entity (TypeVendors [(str "dialogflow", str "@sys.number")]))].
Proof.
  apply (@entities_from_all_responses (content untyped_parameter_file)
           [VObj [(str "parameters",
                    VArr [parameter_record (str "dish", str "@food");
                          VObj [(str "name", VStr (str "note"))]])];
            response_record [(str "count", str "@sys.number")]]
           [[(str "dish", str "@food"); (str "note", [])];
            [(str "count", str "@sys.number")]]).
  - reflexivity.
  - constructor; [|constructor; [|constructor]].
    + eexists. split; [reflexivity|].
      constructor; [left; split; reflexivity|].
      constructor; [|constructor].
      right. split; [reflexivity|]. exists VUndef. split; reflexivity.
    + eexists. split; [reflexivity|].
      constructor; [left; split; reflexivity|constructor].
Defined.

(** C8, counterexample: a parameter of the second response is imported
    as an entity of the intent. *)
Lemma second_response_declares_entity :
  exists m i,
    toJovoModel [two_responses_file] (str "en") = Ok m
    /\ intents m = Some [(str "Order", i)]
    /\ entities i
       = Some [(str "dish", plain_entity (TypeName (str "food")));
               (str "count",
                 plain_entity (TypeVendors [(str "dialogflow", str "@sys.number")]))]
    /\ claimed_import_entities (content two_responses_file)
       = Ok [(str "dish", plain_entity (TypeName (str "food")))].
Proof. do 2 eexists. repeat split; vm_compute; reflexivity. Qed.

(** ** Reasoning about the export state *)

Lemma preserves_ret {A} I (a : A) : preserves I (ret a).
Proof. intros s H. exact H. Qed.

Lemma preserves_throw {A} I e : preserves I (@throw A e).
Proof. intros s H. exact H. Qed.

Lemma preserves_lift {A} I (r : result A) : preserves I (lift r).
Proof. intros s H. exact H. Qed.

Lemma preserves_get I : preserves I get_model.
Proof. intros s H. exact H. Qed.

Lemma preserves_uuid I uuidv4 : preserves I (uuid uuidv4).
Proof. intros s H. exact H. Qed.

Lemma preserves_and_then {A B} I (m : Export A) (k : A -> Export B) :
  preserves I m -> (forall a, preserves I (k a)) -> preserves I (and_then m k).
Proof.
  intros Hm Hk s H. unfold and_then. specialize (Hm s H).
  destruct (m s) as [[a|e] s']; simpl in *; [apply Hk|]; assumption.
Qed.

Lemma preserves_for_each {A S} I (body : S -> A -> Export S) :
  (forall st a, preserves I (body st a)) ->
  forall l st, preserves I (for_each body l st).
Proof.
  intros Hb. induction l as [|a l IH]; intros st; simpl.
  - apply preserves_ret.
  - apply preserves_and_then; [apply Hb|]. intros st'. apply IH.
Qed.

Create HintDb preserve.
#[local] Hint Resolve preserves_ret preserves_throw preserves_lift preserves_get
  preserves_uuid : preserve.

(** ** The frame of an export *)

Lemma sanitize_idempotent s : sanitize (sanitize s) = sanitize s.
Proof.
  unfold sanitize. induction s as [|c s IH]; simpl; [reflexivity|].
  destruct (kept c) eqn:K; simpl; [rewrite K, IH|]; auto.
Qed.

Lemma synonym_frame_refl x : synonym_frame x x.
Proof. left. reflexivity. Qed.

Lemma synonym_frame_trans x y z :
  synonym_frame x y -> synonym_frame y z -> synonym_frame x z.
Proof.
  intros [->|(s & -> & ->)] [->|(s' & E & ->)].
  - left. reflexivity.
  - right. eauto.
  - right. eauto.
  - injection E as <-. right. exists s. rewrite sanitize_idempotent. auto.
Qed.

Lemma Forall2_refl {A} (R : A -> A -> Prop) :
  (forall x, R x x) -> forall l, Forall2 R l l.
Proof. intros HR. induction l; constructor; auto. Qed.

Lemma Forall2_trans {A} (R : A -> A -> Prop) :
  (forall x y z, R x y -> R y z -> R x z) ->
  forall l1 l2 l3, Forall2 R l1 l2 -> Forall2 R l2 l3 -> Forall2 R l1 l3.
Proof.
  intros HR l1 l2 l3 H. revert l3. induction H; intros l3 H3; inversion H3; subst;
    constructor; eauto.
Qed.

Lemma value_frame_refl v : value_frame v v.
Proof.
  destruct v as [s|r]; simpl; [reflexivity|]. split; [reflexivity|].
  destruct (synonyms r); [|exact I]. apply Forall2_refl, synonym_frame_refl.
Qed.

Lemma value_frame_trans x y z : value_frame x y -> value_frame y z -> value_frame x z.
Proof.
  destruct x as [a|a], y as [b|b], z as [c|c]; simpl; try tauto; try congruence.
  intros [E1 H1] [E2 H2]. split; [congruence|].
  destruct (synonyms a), (synonyms b), (synonyms c); try tauto.
  eapply Forall2_trans; eauto using synonym_frame_trans.
Qed.

Lemma type_frame_refl t : type_frame t t.
Proof.
  repeat split. destruct (values (snd t)); [|exact I].
  apply Forall2_refl, value_frame_refl.
Qed.

Lemma types_frame_refl o : types_frame o o.
Proof. destruct o; simpl; [|exact I]. apply Forall2_refl, type_frame_refl. Qed.

Lemma sanitize_synonyms_frame declared :
  Forall2 synonym_frame declared (fst (sanitize_synonyms declared)).
Proof.
  induction declared as [|x l IH]; simpl; [constructor|].
  destruct x; try (apply Forall2_refl, synonym_frame_refl).
  destruct (sanitize_synonyms l) as [mutated outcome]. simpl in *.
  constructor; [right; eauto|exact IH].
Qed.

Lemma export_value_frame dfEntityObj v :
  value_frame v (fst (export_value dfEntityObj v)).
Proof.
  destruct v as [s|r]; [reflexivity|].
  pose proof (value_frame_refl (ValueObject r)) as R.
  unfold export_value.
  destruct (negb _ && negb _); [|exact R].
  destruct (value_of r) eqn:V; try exact R.
  destruct (synonyms r) as [declared|] eqn:S; [|exact R].
  pose proof (sanitize_synonyms_frame declared) as F.
  destruct (sanitize_synonyms declared) as [mutated outcome]. simpl in *.
  rewrite V, S. split; [reflexivity|exact F].
Qed.

Lemma export_values_frame dfEntityObj vs :
  Forall2 value_frame vs (fst (export_values dfEntityObj vs)).
Proof.
  induction vs as [|v vs IH]; simpl; [constructor|].
  pose proof (export_value_frame dfEntityObj v) as F.
  destruct (export_value dfEntityObj v) as [v' [entry|e]]; simpl in *.
  - destruct (export_values dfEntityObj vs) as [rest' outcome]. simpl in *.
    constructor; assumption.
  - constructor; [assumption|]. apply Forall2_refl, value_frame_refl.
Qed.

Lemma replace_frame name t t' : forall l0 l,
  Forall2 type_frame l0 l ->
  lookup name l = Some t ->
  entityType_dialogflow t' = entityType_dialogflow t ->
  match values t, values t' with
  | Some vs, Some vs' => Forall2 value_frame vs vs'
  | None, None => True
  | _, _ => False
  end ->
  Forall2 type_frame l0 (replace name t' l).
Proof.
  intros l0 l H. induction H as [|[k0 t0] [k t1] l0 l Hx Hl IH]; simpl; [discriminate|].
  intros Hlook Hd Hv. destruct (str_eqb name k).
  - injection Hlook as ->. constructor; [|exact Hl].
    destruct Hx as (Hk & Hdf & Hvals). simpl in *. repeat split; simpl.
    + exact Hk.
    + congruence.
    + destruct (values t0), (values t), (values t'); try tauto.
      eapply Forall2_trans; eauto using value_frame_trans.
  - constructor; [exact Hx|]. apply IH; assumption.
Qed.

Lemma export_entity_type_frame m0 uuidv4 locale name t s :
  JovoModelHelper.getEntityTypeByName (held s) name = Some t ->
  synonyms_frame m0 (held s) ->
  synonyms_frame m0 (held (snd (export_entity_type uuidv4 locale name t s))).
Proof.
  intros Ht Hs. unfold export_entity_type, and_then, uuid at 1. cbv zeta. simpl.
  destruct (values t) as [[|v vs]|] eqn:V; cbn -[export_values replace]; try exact Hs.
  match goal with
  | |- context [export_values ?o ?l] =>
      pose proof (export_values_frame o l) as F;
      destruct (export_values o l) as [mutated outcome]
  end.
  cbn -[replace] in *.
  assert (G : synonyms_frame m0
                (with_entityTypes
                   (option_map (replace name (with_values (Some mutated) t))
                      (entityTypes (held s)))
                   (held s))).
  { destruct Hs as (H1 & H2 & H3 & H4 & H5 & H6).
    repeat split; simpl; try assumption.
    unfold JovoModelHelper.getEntityTypeByName in Ht.
    destruct (entityTypes (held s)) as [l|]; [|discriminate].
    destruct (entityTypes m0) as [l0|]; simpl in *; [|contradiction].
    eapply replace_frame; eauto. simpl. rewrite V. exact F. }
  destruct outcome; simpl; exact G.
Qed.

Lemma export_entity_frame m0 uuidv4 locale intentKey st entry :
  preserves (synonyms_frame m0) (export_entity uuidv4 locale intentKey st entry).
Proof.
  unfold export_entity. destruct st as [parameters returnFiles], entry as [entityKey entityData].
  apply preserves_and_then.
  { destruct (entity_type entityData) as [[[|c n]|vendors]|]; auto with preserve.
    destruct (lookup (str "dialogflow") vendors) as [[|c n]|]; auto with preserve. }
  intros dataType. apply preserves_and_then; [|intros; apply preserves_ret].
  destruct (negb (startsWith dataType BUILTIN_PREFIX)); [|apply preserves_ret].
  intros s Hs. unfold and_then, get_model. cbn -[export_entity_type].
  destruct (JovoModelHelper.hasEntityTypes (held s)); cbn -[export_entity_type]; [|exact Hs].
  destruct (JovoModelHelper.getEntityTypeByName (held s) dataType) as [t|] eqn:E.
  - pose proof (export_entity_type_frame uuidv4 locale dataType s E Hs) as F.
    destruct (export_entity_type uuidv4 locale dataType t s) as [[files|e] s'];
      simpl in *; exact F.
  - destruct (JovoModelHelper.isJovoModelV3 (held s)); exact Hs.
Qed.

Lemma export_phrase_frame I uuidv4 locale intentKey dfIntentObj samples phrase :
  preserves I (export_phrase uuidv4 locale intentKey dfIntentObj samples phrase).
Proof.
  unfold export_phrase.
  repeat (apply preserves_and_then; [auto with preserve|intros]).
  apply preserves_ret.
Qed.

Lemma export_intent_frame m0 uuidv4 locale returnFiles entry :
  preserves (synonyms_frame m0) (export_intent uuidv4 locale returnFiles entry).
Proof.
  unfold export_intent. destruct entry as [intentKey intentData].
  apply preserves_and_then; [auto with preserve|intros id].
  apply preserves_and_then; [auto with preserve|intros m].
  apply preserves_and_then.
  { destruct (JovoModelHelper.hasEntities m intentKey); [|apply preserves_ret].
    apply preserves_and_then; [|intros; apply preserves_ret].
    apply preserves_for_each. intros st e. apply export_entity_frame. }
  intros built. apply preserves_and_then; [|intros; apply preserves_ret].
  apply preserves_for_each. intros st e. apply export_phrase_frame.
Qed.

Lemma export_records_frame dir field suffix locale records :
  Forall2 (record_frame field) records
    (fst (export_records dir field suffix locale records)).
Proof.
  induction records as [|r l IH]; simpl; [constructor|].
  destruct (member r field) as [extracted|e].
  - destruct (export_records dir field suffix locale l) as [rest' outcome]. simpl in *.
    constructor; [|exact IH].
    destruct r; try (left; reflexivity).
    destruct (truthy extracted); [right; eauto|left; reflexivity].
  - simpl. apply Forall2_refl. intros x. left. reflexivity.
Qed.

Lemma export_vendor_list_frame key dir field suffix locale s :
  exists d,
    held (snd (export_vendor_list key dir field suffix locale s)) = with_dialogflow d (held s)
    /\ vendor_frame key field (dialogflow (held s)) d.
Proof.
  unfold export_vendor_list, and_then, get_model.
  cbn -[lodash_get export_records iterate].
  assert (same : held s = with_dialogflow (dialogflow (held s)) (held s))
    by (destruct (held s); reflexivity).
  destruct (lodash_get (dialogflow (held s)) [key]) as [| |b|z|x|records|o|] eqn:L;
    cbn -[lodash_get export_records];
    try (eexists; split; [exact same|left; reflexivity]).
  - destruct b; cbn; eexists; (split; [exact same|left; reflexivity]).
  - destruct (negb (z =? 0)%Z); cbn; eexists; (split; [exact same|left; reflexivity]).
  - destruct x; cbn -[export_records];
      eexists; (split; [exact same|left; reflexivity]).
  - pose proof (export_records_frame dir field suffix locale records) as F.
    destruct (export_records dir field suffix locale records) as [records' outcome].
    cbn in *. eexists. split; [reflexivity|]. right. eauto.
Qed.

(** C7: an export writes the sanitized synonyms back into the model it
    is handed, while the value next to them is sanitized into the entry
    only: after an export that returns files, the declared synonym of the
    model has lost its exclamation mark and the value has kept it.  The
    change also stays when a later intent makes the export raise. *)
Theorem export_rewrites_declared_synonyms :
  (exists files,
      fst (fromJovoModel sample_ids marked_model (str "en")) = Ok files
      /\ In {| path := [str "entities"; str "city_entries_en.json"];
               content :=
                 VArr [VObj [(str "value", VStr (str "Berlin!"));
                             (str "synonyms",
                               VArr [VStr (str "Berlin"); VStr (str "Spree-Athen")])]] |}
           files)
  /\ entityTypes (snd (fromJovoModel sample_ids marked_model (str "en")))
     = Some [(str "city",
              {| values :=
                   Some [ValueObject {| value_of := VStr (str "Berlin!");
                                        synonyms := Some [VStr (str "Spree-Athen")] |}];
                 entityType_dialogflow := VUndef |})]
  /\ entityTypes (snd (fromJovoModel sample_ids marked_model (str "en")))
     <> entityTypes marked_model
  /\ fst (fromJovoModel sample_ids interrupted_model (str "en"))
     = Raise (Error (str "Entity type " ++ quoted (str "ticket")
                       ++ str " must be defined in entityTypes"))
  /\ entityTypes (snd (fromJovoModel sample_ids interrupted_model (str "en")))
     = Some [(str "city",
              {| values :=
                   Some [ValueObject {| value_of := VStr (str "Berlin");
                                        synonyms := Some [VStr (str "Spree-Athen")] |}];
                 entityType_dialogflow := VUndef |})]
  /\ entityTypes (snd (fromJovoModel sample_ids interrupted_model (str "en")))
     <> entityTypes interrupted_model.
Proof.
  assert (E : entityTypes (snd (fromJovoModel sample_ids marked_model (str "en")))
              = Some [(str "city",
                       {| values :=
                            Some [ValueObject {| value_of := VStr (str "Berlin!");
                                                 synonyms := Some [VStr (str "Spree-Athen")] |}];
                          entityType_dialogflow := VUndef |})])
    by (vm_compute; reflexivity).
  assert (F : entityTypes (snd (fromJovoModel sample_ids interrupted_model (str "en")))
              = Some [(str "city",
                       {| values :=
                            Some [ValueObject {| value_of := VStr (str "Berlin");
                                                 synonyms := Some [VStr (str "Spree-Athen")] |}];
                          entityType_dialogflow := VUndef |})])
    by (vm_compute; reflexivity).
  split; [|split; [exact E|split; [|split; [vm_compute; reflexivity|split; [exact F|]]]]].
  - eexists. split; [vm_compute; reflexivity|]. right. left. reflexivity.
  - rewrite E. vm_compute. discriminate.
  - rewrite F. vm_compute. discriminate.
Qed.

(** ** Exports that draw different identifiers *)

Lemma str_eqb_eq a b : str_eqb a b = true <-> a = b.
Proof.
  revert b. induction a as [|x a IH]; destruct b as [|y b]; simpl;
    try (split; [discriminate|discriminate]); [tauto|].
  rewrite andb_true_iff, N.eqb_eq, IH. split; [intros [-> ->]; reflexivity|].
  intros [= -> ->]. auto.
Qed.

Lemma str_eqb_refl a : str_eqb a a = true.
Proof. apply str_eqb_eq. reflexivity. Qed.

Lemma agree_ret {A} (R : A -> A -> Prop) a b : R a b -> agree R (ret a) (ret b).
Proof. intros H s. split; [exact H|reflexivity]. Qed.

Lemma agree_throw {A} (R : A -> A -> Prop) e : agree R (throw e) (throw e).
Proof. intros s. split; reflexivity. Qed.

Lemma agree_lift {A} (R : A -> A -> Prop) r1 r2 :
  outcome_agree R r1 r2 -> agree R (lift r1) (lift r2).
Proof. intros H s. split; [exact H|reflexivity]. Qed.

Lemma agree_same {A} (c : Export A) : agree eq c c.
Proof.
  intros s. split; [|reflexivity]. destruct (fst (c s)); reflexivity.
Qed.

Lemma agree_uuid u1 u2 : agree (fun _ _ => True) (uuid u1) (uuid u2).
Proof. intros s. split; [exact I|reflexivity]. Qed.

Lemma agree_and_then {A B} (R : A -> A -> Prop) (Q : B -> B -> Prop) m1 m2 k1 k2 :
  agree R m1 m2 ->
  (forall a b, R a b -> agree Q (k1 a) (k2 b)) ->
  agree Q (and_then m1 k1) (and_then m2 k2).
Proof.
  intros Hm Hk s. unfold and_then. destruct (Hm s) as [Ho Hs].
  destruct (m1 s) as [[a|e] s1], (m2 s) as [[b|e'] s2]; simpl in *; subst;
    try contradiction.
  - apply Hk. exact Ho.
  - split; reflexivity.
Qed.

Lemma agree_for_each {A S} (R : S -> S -> Prop) (body1 body2 : S -> A -> Export S) :
  (forall st1 st2 a, R st1 st2 -> agree R (body1 st1 a) (body2 st2 a)) ->
  forall l st1 st2, R st1 st2 -> agree R (for_each body1 l st1) (for_each body2 l st2).
Proof.
  intros Hb. induction l as [|a l IH]; intros st1 st2 H; simpl.
  - apply agree_ret. exact H.
  - eapply agree_and_then; [apply Hb; exact H|]. intros. apply IH. assumption.
Qed.

Lemma prop_agree_refl p : prop_agree p p.
Proof. split; auto. Qed.

Lemma lookup_agree k o1 o2 :
  Forall2 prop_agree o1 o2 ->
  match lookup k o1, lookup k o2 with
  | Some v1, Some v2 =>
      v1 = v2 \/ (k = str "id" /\ exists a b, v1 = VStr a /\ v2 = VStr b)
  | None, None => True
  | _, _ => False
  end.
Proof.
  induction 1 as [|[k1 v1] [k2 v2] o1 o2 [Hk Hv] Hl IH]; simpl; [exact I|].
  simpl in Hk, Hv. subst k2. destruct (str_eqb k k1) eqn:E; [|exact IH].
  apply str_eqb_eq in E. subst k1. exact Hv.
Qed.

Lemma replace_agree k v o1 o2 :
  Forall2 prop_agree o1 o2 -> Forall2 prop_agree (replace k v o1) (replace k v o2).
Proof.
  induction 1 as [|[k1 v1] [k2 v2] o1 o2 [Hk Hv] Hl IH]; simpl; [constructor|].
  simpl in Hk, Hv. subst k2. destruct (str_eqb k k1).
  - constructor; [apply prop_agree_refl|exact Hl].
  - constructor; [split; auto|exact IH].
Qed.

Lemma insert_index_agree i k v o1 o2 :
  Forall2 prop_agree o1 o2 ->
  Forall2 prop_agree (insert_index i k v o1) (insert_index i k v o2).
Proof.
  induction 1 as [|[k1 v1] [k2 v2] o1 o2 [Hk Hv] Hl IH]; simpl.
  - constructor; [apply prop_agree_refl|constructor].
  - simpl in Hk, Hv. subst k2.
    assert (P : prop_agree (k1, v1) (k1, v2)) by (split; auto).
    destruct (is_index k1) as [j|]; [destruct (j <? i)%N|];
      repeat (constructor; try apply prop_agree_refl; try assumption).
Qed.

Lemma obj_set_agree k v o1 o2 :
  Forall2 prop_agree o1 o2 -> Forall2 prop_agree (obj_set k v o1) (obj_set k v o2).
Proof.
  intros H. unfold obj_set. pose proof (lookup_agree k H) as L.
  destruct (lookup k o1), (lookup k o2); try contradiction.
  - apply replace_agree. exact H.
  - destruct (is_index k).
    + apply insert_index_agree. exact H.
    + apply Forall2_app; [exact H|]. constructor; [apply prop_agree_refl|constructor].
Qed.

Lemma own_agree k o1 o2 :
  Forall2 prop_agree o1 o2 -> k <> str "id" -> own (VObj o1) k = own (VObj o2) k.
Proof.
  intros H Hk. simpl. pose proof (lookup_agree k H) as L.
  destruct (lookup k o1), (lookup k o2); try contradiction; [|reflexivity].
  destruct L as [->|[E _]]; [reflexivity|contradiction].
Qed.

Lemma merge_target_agree k o1 o2 srcValue :
  Forall2 prop_agree o1 o2 ->
  isObject srcValue = true ->
  merge_target (own (VObj o1) k) srcValue = merge_target (own (VObj o2) k) srcValue.
Proof.
  intros H Hs. simpl. pose proof (lookup_agree k H) as L.
  destruct (lookup k o1), (lookup k o2); try contradiction; [|reflexivity].
  destruct L as [->|(_ & a & b & -> & ->)]; [reflexivity|].
  destruct srcValue; try discriminate; reflexivity.
Qed.

Lemma assignMergeValue_agree k v o1 o2 :
  Forall2 prop_agree o1 o2 ->
  exists o1' o2',
    assignMergeValue (VObj o1) k v = VObj o1'
    /\ assignMergeValue (VObj o2) k v = VObj o2'
    /\ Forall2 prop_agree o1' o2'.
Proof.
  intros H. pose proof (lookup_agree k H) as L.
  assert (S : Forall2 prop_agree (obj_set k v o1) (obj_set k v o2))
    by (apply obj_set_agree; exact H).
  unfold assignMergeValue, has_key, assign.
  destruct v; try (do 2 eexists; repeat split; exact S).
  destruct (lookup k o1), (lookup k o2); try contradiction;
    do 2 eexists; repeat split; assumption.
Qed.

Lemma merge_step_agree k srcValue (recur : value -> value) (read : value) o1 o2 :
  Forall2 prop_agree o1 o2 ->
  exists o1' o2',
    match srcValue with
    | VArr _ | VObj _ =>
        assignMergeValue (VObj o1) k (recur (merge_target (own (VObj o1) k) srcValue))
    | _ => assignMergeValue (VObj o1) k read
    end = VObj o1'
    /\ match srcValue with
       | VArr _ | VObj _ =>
           assignMergeValue (VObj o2) k (recur (merge_target (own (VObj o2) k) srcValue))
       | _ => assignMergeValue (VObj o2) k read
       end = VObj o2'
    /\ Forall2 prop_agree o1' o2'.
Proof.
  intros H.
  destruct srcValue; try (apply assignMergeValue_agree; exact H).
  - rewrite (@merge_target_agree k o1 o2 (VArr items) H eq_refl).
    apply assignMergeValue_agree; exact H.
  - rewrite (@merge_target_agree k o1 o2 (VObj props) H eq_refl).
    apply assignMergeValue_agree; exact H.
Qed.

Lemma merge_agree src o1 o2 :
  Forall2 prop_agree o1 o2 ->
  exists o1' o2',
    merge (VObj o1) src = VObj o1'
    /\ merge (VObj o2) src = VObj o2'
    /\ Forall2 prop_agree o1' o2'.
Proof.
  destruct src as [| | | |s|items|props|];
    try solve [intros; do 2 eexists; simpl; eauto].
  - simpl. generalize (combine (seq 0 (List.length s)) s). intros l. revert o1 o2.
    induction l as [|[i c] l IH]; intros o1 o2 H; simpl; [eauto|].
    apply IH. apply obj_set_agree. exact H.
  - simpl. generalize 0%nat. revert o1 o2.
    induction items as [|srcValue items IH]; intros o1 o2 i H; [eauto|].
    destruct (@merge_step_agree (idx_key i) srcValue (fun t => merge t srcValue)
                (settle srcValue) o1 o2 H)
      as (a & b & E1 & E2 & G).
    rewrite E1, E2. apply IH. exact G.
  - simpl. revert o1 o2.
    induction props as [|[key srcValue] props IH]; intros o1 o2 H; [eauto|].
    destruct (@merge_step_agree key srcValue (fun t => merge t srcValue) srcValue o1 o2 H)
      as (a & b & E1 & E2 & G).
    rewrite E1, E2. apply IH. exact G.
Qed.

Lemma object_agree_record v1 v2 : object_agree v1 v2 -> record_agree v1 v2.
Proof. intros H. right. exact H. Qed.

Lemma file_agree_refl f : file_agree f f.
Proof. split; [reflexivity|]. left. left. reflexivity. Qed.

Lemma files_agree_refl l : files_agree l l.
Proof. apply Forall2_refl, file_agree_refl. Qed.

Lemma entity_record_agree id1 id2 name t :
  object_agree (entity_record id1 name t) (entity_record id2 name t).
Proof.
  unfold entity_record.
  assert (B : Forall2 prop_agree
                (obj_set (str "name") (VStr name)
                   (obj_set (str "id") (VStr id1) DIALOGFLOW_LM_ENTITY))
                (obj_set (str "name") (VStr name)
                   (obj_set (str "id") (VStr id2) DIALOGFLOW_LM_ENTITY))).
  { apply obj_set_agree. cbv [DIALOGFLOW_LM_ENTITY]. vm_compute obj_set.
    repeat (constructor; [apply prop_agree_refl|]).
    constructor; [|constructor]. split; [reflexivity|]. right. simpl. eauto. }
  destruct (truthy (entityType_dialogflow t)); [|do 2 eexists; eauto].
  destruct (entityType_dialogflow t);
    try (apply merge_agree; exact B).
  do 2 eexists. split; [reflexivity|]. split; [reflexivity|].
  apply obj_set_agree. exact B.
Qed.

Lemma export_values_agree o1 o2 vs :
  Forall2 prop_agree o1 o2 -> export_values (VObj o1) vs = export_values (VObj o2) vs.
Proof.
  intros H. induction vs as [|v vs IH]; [reflexivity|].
  cbn [export_values]. rewrite IH.
  assert (E : export_value (VObj o1) v = export_value (VObj o2) v).
  { unfold export_value.
    rewrite (@own_agree (str "isEnum") o1 o2 H) by discriminate.
    rewrite (@own_agree (str "isRegexp") o1 o2 H) by discriminate.
    reflexivity. }
  rewrite E. reflexivity.
Qed.

Lemma export_entity_type_agree u1 u2 locale name t :
  agree files_agree (export_entity_type u1 locale name t)
    (export_entity_type u2 locale name t).
Proof.
  unfold export_entity_type.
  eapply agree_and_then; [apply agree_uuid|]. intros id1 id2 _. cbv zeta.
  destruct (entity_record_agree id1 id2 name t) as (o1 & o2 & E1 & E2 & H).
  rewrite E1, E2.
  assert (D : file_agree
                {| path := [str "entities"; name ++ str ".json"]; content := VObj o1 |}
                {| path := [str "entities"; name ++ str ".json"]; content := VObj o2 |}).
  { split; [reflexivity|]. left. right. exists o1, o2. auto. }
  destruct (values t) as [[|v vs]|].
  - apply agree_ret. constructor; [exact D|constructor].
  - rewrite (export_values_agree (v :: vs) H).
    destruct (export_values (VObj o2) (v :: vs)) as [mutated outcome].
    eapply agree_and_then; [apply agree_same|]. intros m m' <-.
    eapply agree_and_then; [apply agree_same|]. intros x x' <-.
    eapply agree_and_then; [apply agree_same|]. intros y y' <-.
    apply agree_ret. constructor; [exact D|]. apply files_agree_refl.
  - apply agree_ret. constructor; [exact D|constructor].
Qed.

Lemma export_entity_agree u1 u2 locale intentKey st1 st2 entry :
  fst st1 = fst st2 -> files_agree (snd st1) (snd st2) ->
  agree (fun a b => fst a = fst b /\ files_agree (snd a) (snd b))
    (export_entity u1 locale intentKey st1 entry)
    (export_entity u2 locale intentKey st2 entry).
Proof.
  destruct st1 as [p1 f1], st2 as [p2 f2], entry as [entityKey entityData].
  simpl. intros <- Hf. unfold export_entity.
  eapply agree_and_then; [apply agree_same|]. intros dataType ? <-.
  eapply (@agree_and_then _ _ (fun a b => fst a = fst b /\ files_agree (snd a) (snd b))).
  - destruct (negb (startsWith dataType BUILTIN_PREFIX)).
    + eapply agree_and_then; [apply agree_same|]. intros m ? <-.
      destruct (negb (JovoModelHelper.hasEntityTypes m)); [apply agree_throw|].
      destruct (JovoModelHelper.getEntityTypeByName m dataType) as [t|].
      * eapply agree_and_then; [apply export_entity_type_agree|].
        intros a b Hab. apply agree_ret. split; [reflexivity|exact Hab].
      * destruct (JovoModelHelper.isJovoModelV3 m); apply agree_throw.
    + apply agree_ret. split; [reflexivity|constructor].
  - intros [t1 g1] [t2 g2] [Ht Hg]. simpl in Ht, Hg. subst t2.
    apply agree_ret. simpl. split; [reflexivity|].
    apply Forall2_app; assumption.
Qed.

Lemma export_placeholder_agree m intentKey o1 o2 entity :
  Forall2 prop_agree o1 o2 ->
  export_placeholder m intentKey (VObj o1) entity
  = export_placeholder m intentKey (VObj o2) entity.
Proof.
  intros H. unfold export_placeholder.
  assert (E : lodash_get (VObj o1) (first_response "parameters")
              = lodash_get (VObj o2) (first_response "parameters")).
  { unfold first_response. cbn [lodash_get].
    rewrite (@own_agree (str "responses") o1 o2 H) by discriminate. reflexivity. }
  rewrite E. reflexivity.
Qed.

Lemma export_phrase_agree u1 u2 locale intentKey o1 o2 l1 l2 phrase :
  Forall2 prop_agree o1 o2 ->
  Forall2 record_agree l1 l2 ->
  agree (Forall2 record_agree)
    (export_phrase u1 locale intentKey (VObj o1) l1 phrase)
    (export_phrase u2 locale intentKey (VObj o2) l2 phrase).
Proof.
  intros H Hl. unfold export_phrase.
  eapply agree_and_then; [apply agree_same|]. intros m ? <-.
  eapply (@agree_and_then _ _ eq).
  - assert (E : foldM (export_segment m intentKey (VObj o1)) (tokenize phrase) []
                = foldM (export_segment m intentKey (VObj o2)) (tokenize phrase) []).
    { generalize (@nil value). induction (tokenize phrase) as [|s l IH]; intros acc;
        [reflexivity|].
      cbn [foldM]. assert (S : export_segment m intentKey (VObj o1) acc s
                               = export_segment m intentKey (VObj o2) acc s).
      { destruct s; [reflexivity|]. unfold export_segment.
        rewrite (export_placeholder_agree m intentKey entity H). reflexivity. }
      rewrite S. destruct (export_segment m intentKey (VObj o2) acc s); simpl; auto. }
    rewrite E. apply agree_same.
  - intros data ? <-.
    eapply agree_and_then; [apply agree_uuid|]. intros id1 id2 _.
    apply agree_ret. apply Forall2_app; [exact Hl|]. constructor; [|constructor].
    right. do 2 eexists. split; [reflexivity|]. split; [reflexivity|].
    constructor; [split; [reflexivity|right; simpl; eauto]|].
    repeat (constructor; [apply prop_agree_refl|]). constructor.
Qed.

Lemma export_intent_agree u1 u2 locale f1 f2 entry :
  files_agree f1 f2 ->
  agree files_agree (export_intent u1 locale f1 entry) (export_intent u2 locale f2 entry).
Proof.
  intros Hf. unfold export_intent. destruct entry as [intentKey intentData].
  eapply agree_and_then; [apply agree_uuid|]. intros id1 id2 _. cbv zeta.
  eapply agree_and_then; [apply agree_same|]. intros m ? <-.
  assert (B : forall extra,
             Forall2 prop_agree
               ([(str "id", VStr id1); (str "name", VStr intentKey);
                 (str "auto", VBool true); (str "webhookUsed", VBool true)] ++ extra)
               ([(str "id", VStr id2); (str "name", VStr intentKey);
                 (str "auto", VBool true); (str "webhookUsed", VBool true)] ++ extra)).
  { intros extra. simpl. constructor; [split; [reflexivity|right; simpl; eauto]|].
    apply Forall2_refl, prop_agree_refl. }
  eapply (@agree_and_then _ _
            (fun a b => object_agree (fst a) (fst b) /\ files_agree (snd a) (snd b))).
  - destruct (JovoModelHelper.hasEntities m intentKey).
    + eapply (@agree_and_then _ _
                (fun a b => fst a = fst b /\ files_agree (snd a) (snd b))).
      * apply agree_for_each.
        -- intros st1 st2 e [H1 H2]. apply export_entity_agree; assumption.
        -- split; [reflexivity|exact Hf].
      * intros [p1 g1] [p2 g2] [Hp Hg]. simpl in Hp, Hg. subst p2.
        apply agree_ret. simpl. split; [|exact Hg].
        do 2 eexists. split; [reflexivity|]. split; [reflexivity|]. apply B.
    + apply agree_ret. simpl. split; [|exact Hf].
      do 2 eexists. split; [reflexivity|]. split; [reflexivity|].
      specialize (B []). rewrite !app_nil_r in B. exact B.
  - intros [v1 g1] [v2 g2] [(o1 & o2 & -> & -> & Ho) Hg]. simpl in Hg. cbn [fst snd].
    assert (M : object_agree
                  (if truthy (intent_dialogflow intentData)
                   then merge (VObj o1) (intent_dialogflow intentData) else VObj o1)
                  (if truthy (intent_dialogflow intentData)
                   then merge (VObj o2) (intent_dialogflow intentData) else VObj o2)).
    { destruct (truthy (intent_dialogflow intentData)).
      - apply merge_agree. exact Ho.
      - exists o1, o2. auto. }
    destruct M as (d1 & d2 & -> & -> & Hd).
    eapply (@agree_and_then _ _ (Forall2 record_agree)).
    + apply agree_for_each; [|constructor].
      intros st1 st2 phrase Hs. apply export_phrase_agree; assumption.
    + intros l1 l2 Hl. apply agree_ret.
      assert (F : files_agree
                    (g1 ++ [{| path := [str "intents"; intentKey ++ str ".json"];
                               content := VObj d1 |}])
                    (g2 ++ [{| path := [str "intents"; intentKey ++ str ".json"];
                               content := VObj d2 |}])).
      { apply Forall2_app; [exact Hg|]. constructor; [|constructor].
        split; [reflexivity|]. left. right. exists d1, d2. auto. }
      rewrite (Forall2_length Hl). destruct (0 <? List.length l2)%nat; [|exact F].
      apply Forall2_app; [exact F|]. constructor; [|constructor].
      split; [reflexivity|]. right. exists l1, l2. auto.
Qed.

(** C9 (as the code has it): the importer is a function of the file set
    and the locale.  Two exports of the same model for the same locale end
    alike whatever identifiers they draw: both raise the same error, or
    both return files with the same paths in the same order whose contents
    agree but for the strings stored under [id]; and both leave the same
    model behind. *)
Theorem conversions_determined_up_to_identifiers
  u1 u2 model locale inputData inputData' :
  inputData = inputData' ->
  toJovoModel inputData locale = toJovoModel inputData' locale
  /\ outcome_agree files_agree
       (fst (fromJovoModel u1 model locale)) (fst (fromJovoModel u2 model locale))
  /\ snd (fromJovoModel u1 model locale) = snd (fromJovoModel u2 model locale).
Proof.
  intros <-. split; [reflexivity|].
  assert (A : agree files_agree (export_all u1 locale) (export_all u2 locale)).
  { unfold export_all.
    eapply agree_and_then; [apply agree_same|]. intros m ? <-.
    eapply agree_and_then.
    - apply agree_for_each; [|apply Forall2_nil].
      intros st1 st2 e Hs. apply export_intent_agree. exact Hs.
    - intros f1 f2 Hf.
      eapply agree_and_then; [apply agree_same|]. intros i ? <-.
      eapply agree_and_then; [apply agree_same|]. intros e ? <-.
      apply agree_ret. apply Forall2_app; [exact Hf|]. apply files_agree_refl. }
  unfold fromJovoModel. destruct (A {| held := model; drawn := 0 |}) as [Ho Hs].
  destruct (export_all u1 locale _) as [r1 s1], (export_all u2 locale _) as [r2 s2].
  simpl in *. subst s2. auto.
Qed.

Lemma conversions_determined_up_to_identifiers_witness :
  toJovoModel [welcome_file] (str "en") = toJovoModel [welcome_file] (str "en")
  /\ outcome_agree files_agree
       (fst (fromJovoModel sample_ids travel_model (str "en")))
       (fst (fromJovoModel other_ids travel_model (str "en")))
  /\ snd (fromJovoModel sample_ids travel_model (str "en"))
     = snd (fromJovoModel other_ids travel_model (str "en")).
Proof.
  apply (@conversions_determined_up_to_identifiers sample_ids other_ids travel_model
           (str "en") [welcome_file] [welcome_file]).
  reflexivity.
Defined.

(** C9, counterexample: two exports of the same model for the same locale
    return different file sets when the generated identifiers differ. *)
Lemma exports_differ_by_identifiers :
  fst (fromJovoModel sample_ids greeting_model (str "en"))
  <> fst (fromJovoModel other_ids greeting_model (str "en")).
Proof. vm_compute. discriminate. Qed.

(** ** Export of a portable model *)

Lemma entity_record_plain id t et :
  entityType_dialogflow et = VUndef ->
  entity_record id t et
  = VObj [ (str "isOverridable", VBool true);
           (str "isEnum", VBool false);
           (str "automatedExpansion", VBool false);
           (str "isRegexp", VBool false);
           (str "allowFuzzyExtraction", VBool false);
           (str "id", VStr id);
           (str "name", VStr t) ].
Proof. intros E. unfold entity_record. rewrite E. reflexivity. Qed.

Lemma sanitize_synonyms_clean s l :
  Forall (fun x => exists y, x = VStr y /\ sanitize y = y /\ y <> s) l ->
  sanitize_synonyms l = (l, Ok tt).
Proof.
  induction 1 as [|x l (y & -> & Hy & _) Hl IH]; simpl; [reflexivity|].
  rewrite IH, Hy. reflexivity.
Qed.

Lemma export_value_portable dfEntityObj v :
  truthy (own dfEntityObj (str "isEnum")) = false ->
  truthy (own dfEntityObj (str "isRegexp")) = false ->
  portable_value v ->
  export_value dfEntityObj v = (v, Ok (entry_of v)).
Proof.
  intros He Hr. destruct v as [s|r]; simpl; [contradiction|].
  intros (s & Hv & Hs & Hl). rewrite He, Hr. simpl. destruct r as [val syn].
  simpl in *. subst val. destruct syn as [l|].
  - destruct Hl as [_ Hl]. rewrite (sanitize_synonyms_clean Hl). simpl.
    rewrite Hs. reflexivity.
  - rewrite Hs. reflexivity.
Qed.

Lemma export_values_portable dfEntityObj vs :
  truthy (own dfEntityObj (str "isEnum")) = false ->
  truthy (own dfEntityObj (str "isRegexp")) = false ->
  Forall portable_value vs ->
  export_values dfEntityObj vs = (vs, Ok (List.map entry_of vs)).
Proof.
  intros He Hr. induction 1 as [|v vs Hv Hvs IH]; [reflexivity|].
  cbn [export_values]. rewrite (@export_value_portable dfEntityObj v He Hr Hv), IH.
  reflexivity.
Qed.

Lemma replace_same {A} k (v : A) o : lookup k o = Some v -> replace k v o = o.
Proof.
  induction o as [|[k' v'] o IH]; simpl; [reflexivity|].
  destruct (str_eqb k k') eqn:E.
  - intros [= ->]. reflexivity.
  - intros H. rewrite (IH H). reflexivity.
Qed.

Lemma export_entity_type_portable uuidv4 locale t et s :
  lookup t (types_of (held s)) = Some et ->
  portable_type et ->
  export_entity_type uuidv4 locale t et s
  = (Ok (type_files locale (uuidv4 (drawn s)) t et),
     {| held := held s; drawn := S (drawn s) |}).
Proof.
  intros Hl [Hd Hv]. unfold export_entity_type, and_then, uuid at 1. cbv zeta.
  cbn [fst snd held drawn]. unfold type_files, definition_file, entries_file.
  unfold values_of in *. destruct (values et) as [[|v vs]|] eqn:V; try reflexivity.
  rewrite (@export_values_portable (entity_record (uuidv4 (drawn s)) t et) (v :: vs));
    try exact Hv;
    try (rewrite (@entity_record_plain (uuidv4 (drawn s)) t et Hd); reflexivity).
  unfold get_model, put_model, lift, ret. cbn [fst snd held drawn].
  f_equal. f_equal.
  unfold types_of in Hl. destruct (held s) as [sch ver inv ints [types|] df]; simpl in *;
    [|discriminate].
  unfold with_entityTypes. simpl. f_equal. f_equal.
  replace (with_values (Some (v :: vs)) et) with et
    by (destruct et; simpl in *; subst; reflexivity).
  apply replace_same. exact Hl.
Qed.

Lemma startsWith_nonempty s p c : startsWith s (c :: p) = true -> s <> [].
Proof. destruct s; [discriminate|discriminate]. Qed.

Lemma and_then_ret {A B} (a : A) (k : A -> Export B) s :
  and_then (ret a) k s = k a s.
Proof. reflexivity. Qed.

Lemma and_then_get {B} (k : JovoModelData -> Export B) s :
  and_then get_model k s = k (held s) s.
Proof. reflexivity. Qed.

Lemma export_entity_portable uuidv4 locale intentKey parameters returnFiles entry s :
  portable_entity (types_of (held s)) entry ->
  exists files n,
    export_entity uuidv4 locale intentKey (parameters, returnFiles) entry s
    = (Ok (parameters ++ [parameter_of entry], returnFiles ++ files),
       {| held := held s; drawn := n |})
    /\ entity_files locale (types_of (held s)) [entry] files.
Proof.
  destruct entry as [entityKey entityData].
  intros (Hk & Ht & Hd & r & Hr & Hp). simpl in Hk, Ht, Hd, Hr.
  unfold export_entity, parameter_of. cbv beta iota. cbn [fst snd].
  rewrite Hr, Hd. change BUILTIN_PREFIX with (str "@sys.").
  destruct r as [t|vendors]; simpl in Hp.
  - destruct Hp as (Hn & Hsys & _ & _ & et & Hl & Het).
    destruct t as [|c t]; [congruence|]. cbv beta iota.
    rewrite and_then_ret. rewrite Hsys. cbv beta iota. cbn [negb].
    assert (Ht' : JovoModelHelper.hasEntityTypes (held s) = true).
    { unfold JovoModelHelper.hasEntityTypes, types_of in *.
      destruct (entityTypes (held s)); [reflexivity|discriminate]. }
    assert (Hg : JovoModelHelper.getEntityTypeByName (held s) (c :: t) = Some et).
    { unfold JovoModelHelper.getEntityTypeByName, types_of in *.
      destruct (entityTypes (held s)); [exact Hl|discriminate]. }
    unfold and_then at 1. rewrite and_then_get, Ht', Hg. cbn [negb].
    unfold and_then at 1.
    rewrite (@export_entity_type_portable uuidv4 locale (c :: t) et s Hl Het).
    cbv beta iota. unfold ret. cbn [fst snd truthy].
    do 2 eexists. split; [reflexivity|].
    rewrite <- (app_nil_r (type_files _ _ _ _)).
    eapply entity_files_custom; eauto. constructor.
  - destruct Hp as (native & -> & Hsys).
    destruct native as [|c native]; [discriminate|].
    change (lookup (str "dialogflow") [(str "dialogflow", c :: native)])
      with (Some (c :: native)).
    cbv beta iota. rewrite and_then_ret, Hsys. cbn [negb].
    rewrite and_then_ret. unfold ret. cbn [fst snd truthy].
    exists [], (drawn s). split.
    + rewrite app_nil_r. destruct s; reflexivity.
    + eapply entity_files_builtin; eauto. constructor.
Qed.

Lemma str_eqb_neq a b : str_eqb a b = false <-> a <> b.
Proof.
  split.
  - intros H E. apply str_eqb_eq in E. congruence.
  - intros H. destruct (str_eqb a b) eqn:E; [|reflexivity].
    apply str_eqb_eq in E. contradiction.
Qed.

Lemma str_eqb_sym a b : str_eqb a b = str_eqb b a.
Proof.
  destruct (str_eqb a b) eqn:E.
  - apply str_eqb_eq in E. subst. symmetry. apply str_eqb_refl.
  - apply str_eqb_neq in E. symmetry. apply str_eqb_neq. congruence.
Qed.

Lemma lookup_replace {A} k k' (v : A) o :
  lookup k' o <> None ->
  lookup k (replace k' v o) = if str_eqb k k' then Some v else lookup k o.
Proof.
  induction o as [|[k0 v0] o IH]; simpl; [congruence|].
  destruct (str_eqb k' k0) eqn:E0.
  - intros _. apply str_eqb_eq in E0. subst k0. simpl.
    destruct (str_eqb k k'); reflexivity.
  - intros H. simpl. destruct (str_eqb k k0) eqn:E1.
    + apply str_eqb_eq in E1. subst k0. rewrite str_eqb_sym, E0. reflexivity.
    + apply IH. exact H.
Qed.

Lemma lookup_insert_index {A} i k k' (v : A) o :
  lookup k' o = None ->
  lookup k (insert_index i k' v o) = if str_eqb k k' then Some v else lookup k o.
Proof.
  induction o as [|[k0 v0] o IH]; simpl.
  - intros _. destruct (str_eqb k k'); reflexivity.
  - destruct (str_eqb k' k0) eqn:E0; [discriminate|]. intros H.
    assert (F : lookup k ((k', v) :: (k0, v0) :: o)
                = if str_eqb k k' then Some v
                  else if str_eqb k k0 then Some v0 else lookup k o) by reflexivity.
    destruct (is_index k0) as [j|]; [destruct (j <? i)%N|]; try exact F.
    simpl. destruct (str_eqb k k0) eqn:E1.
    + apply str_eqb_eq in E1. subst k0. rewrite str_eqb_sym, E0. reflexivity.
    + apply IH. exact H.
Qed.

Lemma lookup_app_last {A} k k' (v : A) o :
  lookup k' o = None ->
  lookup k (o ++ [(k', v)]) = if str_eqb k k' then Some v else lookup k o.
Proof.
  induction o as [|[k0 v0] o IH]; simpl.
  - intros _. destruct (str_eqb k k'); reflexivity.
  - destruct (str_eqb k' k0) eqn:E0; [discriminate|]. intros H.
    destruct (str_eqb k k0) eqn:E1.
    + apply str_eqb_eq in E1. subst k0. rewrite str_eqb_sym, E0. reflexivity.
    + apply IH. exact H.
Qed.

Lemma lookup_obj_set {A} k k' (v : A) o :
  lookup k (obj_set k' v o) = if str_eqb k k' then Some v else lookup k o.
Proof.
  unfold obj_set. destruct (lookup k' o) eqn:E.
  - apply lookup_replace. congruence.
  - destruct (is_index k').
    + apply lookup_insert_index. exact E.
    + apply lookup_app_last. exact E.
Qed.

Lemma entity_files_app locale types es1 es2 f1 f2 :
  entity_files locale types es1 f1 ->
  entity_files locale types es2 f2 ->
  entity_files locale types (es1 ++ es2) (f1 ++ f2).
Proof.
  induction 1; intros H2; simpl; [exact H2| |].
  - rewrite <- app_assoc. eapply entity_files_custom; eauto.
  - eapply entity_files_builtin; eauto.
Qed.

Lemma export_entities_portable uuidv4 locale intentKey es :
  forall parameters returnFiles s,
    Forall (portable_entity (types_of (held s))) es ->
    exists files n,
      for_each (export_entity uuidv4 locale intentKey) es (parameters, returnFiles) s
      = (Ok (parameters ++ List.map parameter_of es, returnFiles ++ files),
         {| held := held s; drawn := n |})
      /\ entity_files locale (types_of (held s)) es files.
Proof.
  induction es as [|entry es IH]; intros parameters returnFiles s H.
  - exists [], (drawn s). simpl. rewrite !app_nil_r. split; [|constructor].
    destruct s; reflexivity.
  - inversion H as [|x l Hx Hl]; subst.
    destruct (@export_entity_portable uuidv4 locale intentKey parameters returnFiles
                entry s Hx) as (f1 & n1 & E1 & F1).
    cbn [for_each]. unfold and_then. rewrite E1.
    destruct (IH (parameters ++ [parameter_of entry]) (returnFiles ++ f1)
                {| held := held s; drawn := n1 |} Hl) as (f2 & n2 & E2 & F2).
    rewrite E2. cbn [held]. exists (f1 ++ f2), n2. split.
    + rewrite <- !app_assoc. reflexivity.
    + apply (@entity_files_app locale _ [entry] es f1 f2); assumption.
Qed.

Lemma fill_parameter_of entity obj entry :
  fill_parameter entity obj (parameter_of entry)
  = Ok (if str_eqb (fst entry) entity
        then obj_set (str "meta")
               (VStr match entity_type (snd entry) with
                     | Some r => native_type r
                     | None => []
                     end)
               (obj_set (str "alias") (VStr (fst entry)) obj)
        else obj).
Proof.
  unfold fill_parameter, parameter_of, member, own. 
  change (lookup (str "name") _) with (Some (VStr (fst entry))).
  cbn [bind strict_eq]. destruct (str_eqb (fst entry) entity); reflexivity.
Qed.

Lemma fill_parameters entity es : forall obj,
  exists obj',
    foldM (fill_parameter entity) (List.map parameter_of es) obj = Ok obj'
    /\ lookup (str "text") obj' = lookup (str "text") obj
    /\ (lookup (str "alias") obj = Some (VStr entity) \/ lookup entity es <> None ->
        lookup (str "alias") obj' = Some (VStr entity)).
Proof.
  induction es as [|[k e] es IH]; intros obj.
  - exists obj. simpl. repeat split. intros [H|H]; [exact H|congruence].
  - cbn [List.map foldM]. rewrite fill_parameter_of. cbn [bind fst snd].
    destruct (str_eqb k entity) eqn:E.
    + apply str_eqb_eq in E. subst k.
      match goal with
      | |- context [foldM _ _ ?o] => destruct (IH o) as (obj' & F & T & A)
      end.
      exists obj'. split; [exact F|]. split.
      * rewrite T, !lookup_obj_set. reflexivity.
      * intros _. apply A. left. rewrite !lookup_obj_set. reflexivity.
    + destruct (IH obj) as (obj' & F & T & A).
      exists obj'. split; [exact F|]. split; [exact T|].
      intros [H|H]; apply A; [left; exact H|right].
      simpl in H. rewrite str_eqb_sym, E in H. exact H.
Qed.

Lemma export_placeholder_portable m intentKey id i entity :
  JovoModelHelper.getEntities m intentKey = entities_of i ->
  lookup entity (entities_of i) <> None ->
  exists data,
    export_placeholder m intentKey (intent_record id intentKey i) entity = Ok data
    /\ segment_record (entities_of i) (Placeholder entity) data.
Proof.
  intros Hg Hl. unfold export_placeholder. rewrite Hg.
  assert (T : (if JovoModelHelper.hasEntities m intentKey
               then sample_text entity (entities_of i) else VStr entity)
              = sample_text entity (entities_of i)).
  { destruct (JovoModelHelper.hasEntities m intentKey) eqn:Hh; [reflexivity|].
    unfold JovoModelHelper.hasEntities, JovoModelHelper.getEntities in Hh, Hg.
    destruct (lookup intentKey (JovoModelHelper.getIntents m)) as [intentData|].
    - destruct (entities intentData); [discriminate|]. rewrite <- Hg. reflexivity.
    - rewrite <- Hg. reflexivity. }
  rewrite T. clear T.
  unfold entities_of in *. unfold intent_record.
  destruct (entities i) as [es|]; [|simpl in Hl; congruence].
  change (lodash_get _ (first_response "parameters"))
    with (VArr (List.map parameter_of es)).
  cbv zeta. cbn [truthy].
  rewrite (@filter_present_map _ parameter_of es) by (intros a; discriminate).
  destruct (fill_parameters entity es
              [(str "text", sample_text entity es); (str "userDefined", VBool true)])
    as (obj' & F & T & A).
  rewrite F. cbn [bind]. exists (VObj obj'). split; [reflexivity|].
  cbn [segment_record own]. rewrite T, A; [split; reflexivity|right; exact Hl].
Qed.

Lemma export_segments_portable m intentKey id i tokens : forall acc,
  JovoModelHelper.getEntities m intentKey = entities_of i ->
  Forall (declared_in (entities_of i)) tokens ->
  exists data,
    foldM (export_segment m intentKey (intent_record id intentKey i)) tokens acc
    = Ok (acc ++ data)
    /\ Forall2 (segment_record (entities_of i)) tokens data.
Proof.
  induction tokens as [|s tokens IH]; intros acc Hg H.
  - exists []. rewrite app_nil_r. split; [reflexivity|constructor].
  - inversion H as [|x l Hx Hl]; subst. cbn [foldM].
    destruct s as [text|entity].
    + cbn [export_segment bind].
      destruct (IH (acc ++ [VObj [(str "text", VStr text); (str "userDefined", VBool false)]])
                  Hg Hl) as (data & F & D).
      rewrite F. eexists. rewrite <- app_assoc. split; [reflexivity|].
      constructor; [reflexivity|exact D].
    + destruct Hx as [e He].
      destruct (@export_placeholder_portable m intentKey id i entity Hg)
        as (d & E & S); [congruence|].
      unfold export_segment at 1. rewrite E. cbn [bind].
      destruct (IH (acc ++ [d]) Hg Hl) as (data & F & D).
      rewrite F. eexists. rewrite <- app_assoc. split; [reflexivity|].
      constructor; assumption.
Qed.

Lemma export_phrase_portable uuidv4 locale intentKey id i samples phrase s :
  JovoModelHelper.getEntities (held s) intentKey = entities_of i ->
  Forall (declared_in (entities_of i)) (tokenize phrase) ->
  exists sample,
    export_phrase uuidv4 locale intentKey (intent_record id intentKey i) samples phrase s
    = (Ok (samples ++ [sample]), {| held := held s; drawn := S (drawn s) |})
    /\ sample_record (entities_of i) phrase sample.
Proof.
  intros Hg Hx.
  destruct (@export_segments_portable (held s) intentKey id i (tokenize phrase) []
              Hg Hx) as (data & F & D).
  unfold export_phrase, and_then, get_model, lift, uuid, ret. cbn [fst snd].
  rewrite F. eexists. split; [reflexivity|].
  exists data. split; [reflexivity|exact D].
Qed.

Lemma export_phrases_portable uuidv4 locale intentKey id i phrases :
  forall samples s,
    JovoModelHelper.getEntities (held s) intentKey = entities_of i ->
    Forall (fun phrase => Forall (declared_in (entities_of i)) (tokenize phrase)) phrases ->
    exists added n,
      for_each (export_phrase uuidv4 locale intentKey (intent_record id intentKey i))
        phrases samples s
      = (Ok (samples ++ added), {| held := held s; drawn := n |})
      /\ Forall2 (sample_record (entities_of i)) phrases added.
Proof.
  induction phrases as [|phrase phrases IH]; intros samples s Hg H.
  - exists [], (drawn s). rewrite app_nil_r. split; [destruct s; reflexivity|constructor].
  - inversion H as [|x l Hx Hl]; subst. cbn [for_each].
    destruct (@export_phrase_portable uuidv4 locale intentKey id i samples phrase s
                Hg Hx) as (sample & E & R).
    unfold and_then. rewrite E.
    destruct (IH (samples ++ [sample]) {| held := held s; drawn := S (drawn s) |}
                Hg Hl) as (added & n & E' & S').
    rewrite E'. cbn [held]. exists (sample :: added), n.
    rewrite <- app_assoc. split; [reflexivity|]. constructor; assumption.
Qed.

Lemma export_intent_portable uuidv4 locale returnFiles intentKey intentData s :
  lookup intentKey (JovoModelHelper.getIntents (held s)) = Some intentData ->
  portable_intent (types_of (held s)) (intentKey, intentData) ->
  exists files n,
    export_intent uuidv4 locale returnFiles (intentKey, intentData) s
    = (Ok (returnFiles ++ files), {| held := held s; drawn := n |})
    /\ intent_files locale (types_of (held s)) (intentKey, intentData) files.
Proof.
  intros Hl (Hu & Hd & He & Hn & Hp & _ & Hph). simpl in Hu, Hd, He, Hn, Hp, Hph.
  assert (Hg : JovoModelHelper.getEntities (held s) intentKey = entities_of intentData).
  { unfold JovoModelHelper.getEntities. rewrite Hl. reflexivity. }
  assert (Hh : JovoModelHelper.hasEntities (held s) intentKey
               = match entities intentData with Some _ => true | None => false end).
  { unfold JovoModelHelper.hasEntities. rewrite Hl. reflexivity. }
  unfold export_intent. unfold and_then at 1, uuid at 1. cbv zeta.
  rewrite and_then_get. cbn [held drawn]. rewrite Hh, Hg, Hd. cbn [truthy].
  set (id := uuidv4 (drawn s)).
  assert (B : exists companions n1,
             (if match entities intentData with Some _ => true | None => false end
              then
                and_then
                  (for_each (export_entity uuidv4 locale intentKey)
                     (entities_of intentData) ([], returnFiles))
                  (fun filled =>
                     ret (VObj ([(str "id", VStr id); (str "name", VStr intentKey);
                                 (str "auto", VBool true); (str "webhookUsed", VBool true)]
                                ++ [(str "responses",
                                      VArr [VObj [(str "parameters", VArr (fst filled))]])]),
                          snd filled))
              else
                ret (VObj [(str "id", VStr id); (str "name", VStr intentKey);
                           (str "auto", VBool true); (str "webhookUsed", VBool true)],
                     returnFiles))
               {| held := held s; drawn := S (drawn s) |}
             = (Ok (intent_record id intentKey intentData, returnFiles ++ companions),
                {| held := held s; drawn := n1 |})
             /\ entity_files locale (types_of (held s)) (entities_of intentData) companions).
  { unfold intent_record, entities_of in *. destruct (entities intentData) as [es|].
    - destruct (@export_entities_portable uuidv4 locale intentKey es [] returnFiles
                  {| held := held s; drawn := S (drawn s) |} Hp) as (f & n1 & E & F).
      unfold and_then. rewrite E. exists f, n1. split; [reflexivity|exact F].
    - exists [], (S (drawn s)). rewrite (app_nil_r returnFiles).
      split; [reflexivity|constructor]. }
  destruct B as (companions & n1 & B & F).
  unfold and_then at 1. rewrite B. cbn [fst snd].
  destruct (@export_phrases_portable uuidv4 locale intentKey id intentData
              (phrases_of intentData) [] {| held := held s; drawn := n1 |} Hg Hph)
    as (samples & n2 & P & R).
  unfold and_then at 1. fold (phrases_of intentData). rewrite P. unfold ret.
  cbn [held app].
  exists (companions
          ++ intent_file id intentKey intentData
          :: match samples with
             | [] => []
             | _ => [usersays_file locale intentKey samples]
             end), n2.
  split.
  - unfold intent_file, usersays_file.
    destruct samples; cbn [List.length Nat.ltb Nat.leb];
      rewrite <- ?app_assoc; reflexivity.
  - exists companions, id, samples. repeat split; assumption.
Qed.

Lemma export_intents_portable uuidv4 locale declared : forall returnFiles s,
  Forall (fun entry =>
            lookup (fst entry) (JovoModelHelper.getIntents (held s)) = Some (snd entry)
            /\ portable_intent (types_of (held s)) entry) declared ->
  exists groups n,
    for_each (export_intent uuidv4 locale) declared returnFiles s
    = (Ok (returnFiles ++ List.concat groups), {| held := held s; drawn := n |})
    /\ Forall2 (intent_files locale (types_of (held s))) declared groups.
Proof.
  induction declared as [|[k i] declared IH]; intros returnFiles s H.
  - exists [], (drawn s). simpl. rewrite app_nil_r.
    split; [destruct s; reflexivity|constructor].
  - inversion H as [|x l [Hl Hp] Hr]; subst. simpl in Hl.
    destruct (@export_intent_portable uuidv4 locale returnFiles k i s Hl Hp)
      as (files & n1 & E & F).
    cbn [for_each]. unfold and_then. rewrite E.
    destruct (IH (returnFiles ++ files) {| held := held s; drawn := n1 |} Hr)
      as (groups & n2 & E' & G).
    rewrite E'. cbn [held]. exists (files :: groups), n2. simpl.
    rewrite <- app_assoc. split; [reflexivity|]. constructor; assumption.
Qed.

Lemma lookup_nodup {A} k (v : A) o :
  NoDup (List.map fst o) -> In (k, v) o -> lookup k o = Some v.
Proof.
  induction o as [|[k0 v0] o IH]; simpl; [tauto|].
  intros N [H|H].
  - injection H as -> ->. rewrite str_eqb_refl. reflexivity.
  - inversion N as [|x l Hx Hn]; subst.
    destruct (str_eqb k k0) eqn:E; [|apply IH; assumption].
    apply str_eqb_eq in E. subst k0. exfalso. apply Hx.
    apply (in_map fst) in H. exact H.
Qed.

Lemma export_vendor_list_absent key dir field suffix locale s :
  dialogflow (held s) = VUndef ->
  export_vendor_list key dir field suffix locale s = (Ok [], s).
Proof.
  intros H. unfold export_vendor_list. rewrite and_then_get, H. reflexivity.
Qed.

Lemma export_portable uuidv4 model locale :
  portable model ->
  exists groups,
    fromJovoModel uuidv4 model locale = (Ok (List.concat groups), model)
    /\ Forall2 (intent_files locale (types_of model)) (JovoModelHelper.getIntents model) groups.
Proof.
  intros (Hd & Hn & Hp).
  unfold fromJovoModel, export_all. rewrite and_then_get. cbn [held].
  destruct (@export_intents_portable uuidv4 locale (JovoModelHelper.getIntents model) []
              {| held := model; drawn := 0 |}) as (groups & n & E & G).
  { cbn [held]. apply Forall_forall. intros [k i] Hin. split.
    - apply lookup_nodup; assumption.
    - rewrite Forall_forall in Hp. apply Hp. exact Hin. }
  unfold and_then at 1. rewrite E. cbn [held app].
  unfold and_then at 1. rewrite export_vendor_list_absent by exact Hd.
  unfold and_then at 1. rewrite export_vendor_list_absent by exact Hd.
  unfold ret. cbn [fst snd held]. rewrite !app_nil_r.
  exists groups. split; [reflexivity|exact G].
Qed.

(** ** File names *)

Lemma startsWith_app p b : startsWith (p ++ b) p = true.
Proof.
  induction p as [|c p IH]; simpl; [destruct b; reflexivity|].
  rewrite N.eqb_refl. exact IH.
Qed.

Lemma includes_cons c s p :
  includes (c :: s) p = startsWith (c :: s) p || includes s p.
Proof. reflexivity. Qed.

Lemma includes_infix a p b : includes (a ++ p ++ b) p = true.
Proof.
  induction a as [|c a IH].
  - pose proof (startsWith_app p b) as S. cbn [app].
    destruct (p ++ b); [simpl in *; rewrite S; reflexivity|].
    rewrite includes_cons, S. reflexivity.
  - change ((c :: a) ++ p ++ b) with (c :: (a ++ p ++ b)).
    rewrite includes_cons, IH. apply orb_true_r.
Qed.

Lemma startsWith_before_dot p : forall k r,
  forallb (fun c => negb (c =? 46)%N) p = true ->
  startsWith (k ++ 46%N :: r) p = true -> startsWith k p = true.
Proof.
  induction p as [|x p IH]; intros k r Hp H; [destruct k; reflexivity|].
  simpl in Hp. apply andb_true_iff in Hp. destruct Hp as [Hx Hp].
  destruct k as [|y k]; simpl in *.
  - apply andb_true_iff in H. destruct H as [H _]. rewrite H in Hx. discriminate.
  - apply andb_true_iff in H. destruct H as [H1 H2]. rewrite H1. simpl.
    eapply IH; eassumption.
Qed.

Lemma includes_json k p :
  forallb (fun c => negb (c =? 46)%N) p = true ->
  includes (str ".json") p = false ->
  includes k p = false ->
  includes (k ++ str ".json") p = false.
Proof.
  intros Hp Hj. induction k as [|c k IH]; intros H; [exact Hj|].
  rewrite includes_cons in H. apply orb_false_iff in H. destruct H as [H1 H2].
  change ((c :: k) ++ str ".json") with (c :: (k ++ str ".json")).
  rewrite includes_cons, (IH H2), orb_false_r.
  destruct (startsWith (c :: k ++ str ".json") p) eqn:E; [|reflexivity].
  change (c :: k ++ str ".json") with ((c :: k) ++ 46%N :: str "json") in E.
  apply startsWith_before_dot in E; [congruence|exact Hp].
Qed.

Lemma usersays_name_includes locale k :
  includes (usersays_name locale k) (str "usersays") = true.
Proof.
  unfold usersays_name.
  change (k ++ str "_usersays_" ++ locale ++ str ".json")
    with (k ++ str "_" ++ str "usersays" ++ (str "_" ++ locale ++ str ".json")).
  rewrite app_assoc. apply includes_infix.
Qed.

Lemma entries_name_includes locale t :
  includes (entries_name locale t) (str "entries") = true.
Proof.
  unfold entries_name.
  change (t ++ str "_entries_" ++ locale ++ str ".json")
    with (t ++ str "_" ++ str "entries" ++ (str "_" ++ locale ++ str ".json")).
  rewrite app_assoc. apply includes_infix.
Qed.

Lemma intent_name_plain k :
  includes k (str "usersays") = false ->
  includes (k ++ str ".json") (str "usersays") = false.
Proof. apply includes_json; reflexivity. Qed.

Lemma type_name_plain t :
  includes t (str "entries") = false ->
  includes (t ++ str ".json") (str "entries") = false.
Proof. apply includes_json; reflexivity. Qed.

Lemma intent_name_differs locale k0 k :
  includes k0 (str "usersays") = false ->
  str_eqb (k0 ++ str ".json") (usersays_name locale k) = false.
Proof.
  intros H. apply str_eqb_neq. intros E. apply intent_name_plain in H.
  rewrite E, usersays_name_includes in H. discriminate.
Qed.

Lemma type_name_differs locale t0 t :
  includes t0 (str "entries") = false ->
  str_eqb (t0 ++ str ".json") (entries_name locale t) = false.
Proof.
  intros H. apply str_eqb_neq. intros E. apply type_name_plain in H.
  rewrite E, entries_name_includes in H. discriminate.
Qed.

Lemma str_eqb_app_tail a b sfx : str_eqb (a ++ sfx) (b ++ sfx) = str_eqb a b.
Proof.
  destruct (str_eqb a b) eqn:E.
  - apply str_eqb_eq in E. subst. apply str_eqb_refl.
  - apply str_eqb_neq. apply str_eqb_neq in E. intros H. apply E.
    eapply app_inv_tail. exact H.
Qed.

(** ** Import of the files of a portable model *)

Lemma member_defined v k x : own v k = x -> x <> VUndef -> member v k = Ok x.
Proof. destruct v; simpl; intros <- H; try reflexivity; congruence. Qed.

Lemma skip_intent_record id k i locale :
  skipDefaultIntentProps
    {| phrases := Some []; entities := None; intent_dialogflow := VUndef |}
    (intent_record id k i) locale
  = Ok {| phrases := Some []; entities := None;
          intent_dialogflow := VObj [(str "webhookUsed", VBool true)] |}.
Proof. unfold intent_record. destruct (entities i); reflexivity. Qed.

Lemma parameters_described es :
  Forall2 describes_parameter (List.map typed es) (List.map parameter_of es).
Proof.
  induction es as [|e es IH]; simpl; constructor; [|exact IH].
  left. split; reflexivity.
Qed.

Lemma import_entities_record id k i :
  import_entities (intent_record id k i)
  = Ok match entities i with
       | Some es => fold_left declare (List.map typed es) []
       | None => []
       end.
Proof.
  unfold import_entities, intent_record. destruct (entities i) as [es|]; [|reflexivity].
  change (member _ (str "responses"))
    with (Ok (VArr [VObj [(str "parameters", VArr (List.map parameter_of es))]])).
  cbn [bind truthy iterate List.map settle].
  rewrite (@import_responses_declare [List.map typed es]
             [VObj [(str "parameters", VArr (List.map parameter_of es))]] []).
  - simpl. rewrite app_nil_r. reflexivity.
  - constructor; [|constructor]. eexists. split; [reflexivity|].
    apply parameters_described.
Qed.

Lemma with_entities_same J declared :
  entities J = declared -> with_entities declared J = J.
Proof. destruct J; simpl; intros ->; reflexivity. Qed.

Lemma backfill_nothing (declared : list (jsstring * IntentEntity)) :
  List.map (fun entry : jsstring * IntentEntity => let (_, _) := entry in entry) declared
  = declared.
Proof.
  induction declared as [|[k e] l IH]; [reflexivity|].
  cbn [List.map]. rewrite IH. reflexivity.
Qed.

Lemma backfill_unseen declared (ds : list (jsstring * IntentEntity)) :
  List.map (backfill declared []) ds = ds.
Proof.
  induction ds as [|d ds IH]; [reflexivity|].
  cbn [List.map]. rewrite IH. reflexivity.
Qed.

Lemma backfill_same declared seen entity ds :
  strict_eq (sample_text entity declared) (VStr entity) = true ->
  List.map (backfill declared (entity :: seen)) ds = List.map (backfill declared seen) ds.
Proof.
  intros H. apply map_ext. intros [k e]. unfold backfill. cbn [fst snd existsb].
  destruct (str_eqb k entity) eqn:E; [|reflexivity].
  apply str_eqb_eq in E. subst k. rewrite H. cbn [negb]. rewrite !andb_false_r.
  reflexivity.
Qed.

Lemma backfill_step declared seen entity ds :
  strict_eq (sample_text entity declared) (VStr entity) = false ->
  List.map
    (fun entry : jsstring * IntentEntity =>
       let (entityKey, entityData) := entry in
       if strict_eq (VStr entityKey) (VStr entity)
       then (entityKey, with_text (sample_text entity declared) entityData)
       else entry)
    (List.map (backfill declared seen) ds)
  = List.map (backfill declared (entity :: seen)) ds.
Proof.
  intros H. rewrite map_map. apply map_ext. intros [k e].
  unfold backfill. cbn [fst snd existsb].
  destruct (str_eqb k entity) eqn:E.
  - apply str_eqb_eq in E. subst k. rewrite H. cbn [negb orb andb].
    destruct (existsb (str_eqb entity) seen); cbn [andb strict_eq];
      rewrite str_eqb_refl; reflexivity.
  - cbn [orb].
    destruct (existsb (str_eqb k) seen
              && negb (strict_eq (sample_text k declared) (VStr k)));
      cbn [strict_eq]; rewrite E; reflexivity.
Qed.

Lemma member_of_defined v k k' x :
  own v k = x -> x <> VUndef -> member v k' = Ok (own v k').
Proof. destruct v; simpl; intros <- H; try reflexivity; congruence. Qed.

Lemma import_segments declared base tokens : forall data phrase J seen,
  Forall2 (segment_record declared) tokens data ->
  Forall named tokens ->
  entities J = option_map (List.map (backfill declared seen)) base ->
  foldM import_segment data (phrase, J)
  = Ok (phrase ++ List.concat (List.map render tokens),
        with_entities
          (option_map (List.map (backfill declared (placeholders seen tokens))) base) J).
Proof.
  induction tokens as [|s tokens IH]; intros data phrase J seen H N B;
    inversion H as [|x d l l' Hx Hl]; subst.
  - simpl. rewrite app_nil_r, (with_entities_same J B). reflexivity.
  - inversion N as [|y z Hy Hz]; subst. cbn [foldM].
    assert (E : import_segment (phrase, J) d
                = Ok (phrase ++ render s,
                      with_entities
                        (option_map (List.map (backfill declared (placeholders seen [s])))
                           base) J)).
    { destruct s as [text|entity]; simpl in Hx.
      - subst d. unfold import_segment. cbn [member own].
        change (lookup (str "alias") _) with (@None value).
        change (lookup (str "text") _) with (Some (VStr text)).
        cbn [bind truthy to_string strict_eq negb placeholders fold_left].
        rewrite (with_entities_same J B).
        destruct (entities J) as [cur|] eqn:D; [|reflexivity].
        rewrite backfill_nothing, (with_entities_same J D). reflexivity.
      - destruct Hx as [Ha Ht]. simpl in Hy. unfold import_segment.
        rewrite (@member_defined d (str "alias") (VStr entity) Ha) by discriminate.
        rewrite (@member_of_defined d (str "alias") (str "text") (VStr entity) Ha)
          by discriminate.
        rewrite Ht. cbn [bind to_string placeholders fold_left].
        assert (T : truthy (VStr entity) = true) by (destruct entity; [congruence|reflexivity]).
        rewrite T. clear T.
        destruct (strict_eq (sample_text entity declared) (VStr entity)) eqn:Q; cbn [negb].
        + destruct base as [ds|]; cbn [option_map] in *.
          * rewrite (@backfill_same declared seen entity ds Q), (with_entities_same J B).
            reflexivity.
          * rewrite (with_entities_same J B). reflexivity.
        + rewrite B. destruct base as [ds|]; cbn [option_map] in *.
          * rewrite (@backfill_step declared seen entity ds Q). reflexivity.
          * rewrite (with_entities_same J B). reflexivity. }
    rewrite E. cbn [bind].
    etransitivity;
      [exact (IH l' (phrase ++ render s)
                (with_entities
                   (option_map (List.map (backfill declared (placeholders seen [s]))) base)
                   J)
                (placeholders seen [s]) Hl Hz eq_refl)|].
    simpl. rewrite <- app_assoc. reflexivity.
Qed.

Lemma segment_record_present declared s data :
  segment_record declared s data -> data <> VHole.
Proof.
  destruct s; simpl; [intros -> |intros [H _] ->]; discriminate.
Qed.

Lemma sample_record_present declared phrase sample :
  sample_record declared phrase sample -> sample <> VHole.
Proof. intros (data & H & _) ->. discriminate. Qed.

Lemma import_sample_record declared base J phrase sample l seen :
  sample_record declared phrase sample ->
  Forall named (tokenize phrase) ->
  phrases J = Some l ->
  entities J = option_map (List.map (backfill declared seen)) base ->
  import_sample J sample
  = Ok (with_phrases (Some (l ++ [phrase]))
          (with_entities
             (option_map
                (List.map (backfill declared (placeholders seen (tokenize phrase)))) base)
             J)).
Proof.
  intros (data & Hd & Hs) N P B. unfold import_sample.
  rewrite (@member_defined sample (str "data") (VArr data) Hd) by discriminate.
  cbn [bind iterate].
  rewrite (Forall2_dense (@segment_record_present declared) Hs).
  pose proof (@import_segments declared base (tokenize phrase) data [] J seen Hs N B) as R.
  unfold jsstring in *. rewrite R.
  cbn [bind app]. fold jsstring. rewrite tokenize_renders. cbn [with_entities phrases].
  rewrite P. reflexivity.
Qed.

Lemma import_samples declared base phrases' : forall samples J l seen,
  Forall2 (sample_record declared) phrases' samples ->
  Forall (fun phrase => Forall named (tokenize phrase)) phrases' ->
  phrases J = Some l ->
  entities J = option_map (List.map (backfill declared seen)) base ->
  foldM import_sample samples J
  = Ok (with_phrases (Some (l ++ phrases'))
          (with_entities
             (option_map (List.map (backfill declared (mentioned seen phrases'))) base) J)).
Proof.
  induction phrases' as [|p ps IH]; intros samples J l seen H N P B;
    inversion H as [|x d y z Hx Hl]; subst.
  - simpl. rewrite app_nil_r, (with_entities_same J B).
    destruct J; simpl in *; subst; reflexivity.
  - inversion N as [|u v Hu Hv]; subst. cbn [foldM].
    rewrite (@import_sample_record declared base J p d l seen Hx Hu P B). cbn [bind].
    rewrite (IH z
               (with_phrases (Some (l ++ [p]))
                  (with_entities
                     (option_map
                        (List.map (backfill declared (placeholders seen (tokenize p)))) base)
                     J))
               (l ++ [p]) (placeholders seen (tokenize p)) Hl Hv eq_refl eq_refl).
    rewrite <- app_assoc. reflexivity.
Qed.

Lemma declare_typed_portable types acc entry :
  portable_entity types entry ->
  declare acc (typed entry) = obj_set (fst entry) (with_text VUndef (snd entry)) acc.
Proof.
  destruct entry as [k [ty tx df]]. intros (_ & _ & Hd & r & Hr & Hp).
  simpl in Hd, Hr. subst ty df. unfold typed, with_text. cbn [fst snd entity_type entity_dialogflow].
  destruct r as [t|vendors]; simpl in Hp.
  - destruct Hp as (_ & _ & Hs & _).
    unfold declare, native_type. change (str "@" ++ t) with (64%N :: t).
    unfold declared_type. change BUILTIN_PREFIX with (64%N :: str "sys.").
    cbn [startsWith]. rewrite Hs. simpl. reflexivity.
  - destruct Hp as (native & -> & Hs).
    unfold declare, native_type.
    change (lookup (str "dialogflow") [(str "dialogflow", native)]) with (Some native).
    destruct native as [|c native]; [discriminate|].
    unfold declared_type. change BUILTIN_PREFIX with (str "@sys."). rewrite Hs.
    reflexivity.
Qed.

Lemma length_insert_index {A} i k (v : A) o :
  List.length (insert_index i k v o) = S (List.length o).
Proof.
  induction o as [|[k0 v0] o IH]; simpl; [reflexivity|].
  destruct (is_index k0) as [j|]; [destruct (j <? i)%N|]; simpl; auto.
Qed.

Lemma length_obj_set_new {A} k (v : A) o :
  lookup k o = None -> List.length (obj_set k v o) = S (List.length o).
Proof.
  intros H. unfold obj_set. rewrite H. destruct (is_index k).
  - apply length_insert_index.
  - rewrite length_app. simpl. lia.
Qed.

Lemma lookup_notin {A} k (o : list (jsstring * A)) :
  ~ In k (List.map fst o) -> lookup k o = None.
Proof.
  induction o as [|[k0 v0] o IH]; simpl; [reflexivity|]. intros H.
  destruct (str_eqb k k0) eqn:E.
  - apply str_eqb_eq in E. subst. tauto.
  - apply IH. tauto.
Qed.

Lemma lookup_in {A} k (v : A) o : lookup k o = Some v -> In k (List.map fst o).
Proof.
  induction o as [|[k0 v0] o IH]; simpl; [discriminate|].
  destruct (str_eqb k k0) eqn:E.
  - apply str_eqb_eq in E. auto.
  - auto.
Qed.

Lemma declared_entities types es : forall acc,
  NoDup (List.map fst es) ->
  (forall k, In k (List.map fst es) -> lookup k acc = None) ->
  Forall (portable_entity types) es ->
  List.length (fold_left declare (List.map typed es) acc)
  = (List.length acc + List.length es)%nat
  /\ forall k, lookup k (fold_left declare (List.map typed es) acc)
               = match lookup k es with
                 | Some e => Some (with_text VUndef e)
                 | None => lookup k acc
                 end.
Proof.
  induction es as [|[k0 e0] es IH]; intros acc N D P.
  - simpl. split; [lia|reflexivity].
  - inversion N as [|x l Hx Hn]; subst. inversion P as [|y z Hy Hz]; subst.
    cbn [List.map fold_left]. rewrite (declare_typed_portable acc Hy). cbn [fst snd].
    destruct (IH (obj_set k0 (with_text VUndef e0) acc) Hn) as [L K]; [|exact Hz|].
    { intros k Hk. rewrite lookup_obj_set.
      destruct (str_eqb k k0) eqn:E.
      - apply str_eqb_eq in E. subst. contradiction.
      - apply D. right. exact Hk. }
    split.
    + rewrite L, length_obj_set_new; [simpl; lia|]. apply D. left. reflexivity.
    + intros k. rewrite K, lookup_obj_set. simpl.
      destruct (str_eqb k k0) eqn:E; [|reflexivity].
      apply str_eqb_eq in E. subst. rewrite (@lookup_notin _ k0 es Hx). reflexivity.
Qed.

Lemma declared_named types es tokens :
  Forall (portable_entity types) es ->
  Forall (declared_in es) tokens -> Forall named tokens.
Proof.
  intros P. apply Forall_impl. intros [text|entity]; simpl; [trivial|].
  intros [e He] ->. rewrite Forall_forall in P.
  assert (In ([], e) es) as Hin.
  { clear P. induction es as [|[k0 e0] es IH]; simpl in *; [discriminate|].
    destruct k0; simpl in He; [injection He as ->; auto|auto]. }
  destruct (P _ Hin) as [H _]. apply H. reflexivity.
Qed.

Lemma lookup_some_in {A} k (v : A) o : lookup k o = Some v -> In (k, v) o.
Proof.
  induction o as [|[k0 v0] o IH]; simpl; [discriminate|].
  destruct (str_eqb k k0) eqn:E.
  - apply str_eqb_eq in E. subst. intros [= ->]. auto.
  - auto.
Qed.

Lemma sample_text_lookup entity es :
  NoDup (List.map fst es) ->
  sample_text entity es
  = match lookup entity es with
    | Some e => if truthy (entity_text e) then entity_text e else VStr entity
    | None => VStr entity
    end.
Proof.
  unfold sample_text. generalize (VStr entity) as v.
  induction es as [|[k e] es IH]; intros v N; [reflexivity|].
  inversion N as [|x l Hx Hn]; subst. cbn [fold_left lookup].
  rewrite (str_eqb_sym entity k). destruct (str_eqb k entity) eqn:E.
  - apply str_eqb_eq in E. subst k. cbn [andb]. rewrite (IH _ Hn).
    rewrite (@lookup_notin _ entity es Hx). destruct (truthy (entity_text e)); reflexivity.
  - cbn [andb]. apply IH. exact Hn.
Qed.

Lemma lookup_backfill declared seen key ds :
  lookup key (List.map (backfill declared seen) ds)
  = option_map (fun e => snd (backfill declared seen (key, e))) (lookup key ds).
Proof.
  induction ds as [|[k0 e0] ds IH]; [reflexivity|]. cbn [List.map lookup].
  assert (F : exists e', backfill declared seen (k0, e0) = (k0, e')).
  { unfold backfill. destruct (_ && _); eexists; reflexivity. }
  destruct F as [e' F]. rewrite F. cbn [lookup].
  destruct (str_eqb key k0) eqn:E; [|exact IH].
  apply str_eqb_eq in E. subst k0. cbn [option_map]. rewrite F. reflexivity.
Qed.

Lemma in_placeholders k tokens : forall seen,
  In k seen \/ In (Placeholder k) tokens -> In k (placeholders seen tokens).
Proof.
  unfold placeholders. induction tokens as [|s tokens IH]; intros seen; cbn [fold_left].
  - intros [H|[]]. exact H.
  - intros [H|[H|H]]; apply IH.
    + left. destruct s; [exact H|right; exact H].
    + subst s. left. left. reflexivity.
    + right. exact H.
Qed.

Lemma in_mentioned k samples : forall seen,
  In k seen \/ used k samples -> In k (mentioned seen samples).
Proof.
  unfold mentioned. induction samples as [|p ps IH]; intros seen; cbn [fold_left].
  - intros [H|(phrase & [] & _)]. exact H.
  - intros [H|(phrase & [H|H] & U)]; apply IH.
    + left. apply in_placeholders. left. exact H.
    + subst phrase. left. apply in_placeholders. right. exact U.
    + right. exists phrase. split; assumption.
Qed.

Lemma reimport_portable types k i :
  portable_intent types (k, i) -> reimported_intent i (reimport i).
Proof.
  intros (_ & _ & _ & N & P & U & _). simpl in N, P, U.
  unfold reimported_intent, reimport. simpl. repeat split.
  unfold entities_of in *. destruct (entities i) as [es|]; simpl; [|exact I].
  destruct (@declared_entities types es [] N) as [L K]; [reflexivity|exact P|].
  split; [rewrite length_map; exact L|]. intros key.
  rewrite lookup_backfill, K. destruct (lookup key es) as [e|] eqn:Le; [|reflexivity].
  cbn [option_map]. f_equal.
  pose proof (lookup_some_in _ _ Le) as Hin.
  rewrite Forall_forall in P, U.
  destruct (P _ Hin) as (_ & Ht & _). specialize (U _ Hin). cbn [fst snd] in Ht, U.
  unfold backfill. cbn [fst snd]. rewrite (@sample_text_lookup key es N), Le.
  destruct Ht as [Ht|[Ht Hne]].
  - rewrite Ht. cbn [truthy strict_eq]. rewrite str_eqb_refl. cbn [negb].
    rewrite andb_false_r. destruct e; simpl in *; subst; reflexivity.
  - rewrite Ht, Hne. cbn [negb]. rewrite andb_true_r.
    destruct U as [U|U]; [rewrite U in Ht; discriminate|].
    assert (S : existsb (str_eqb key) (mentioned [] (phrases_of i)) = true).
    { apply existsb_exists. exists key. split; [|apply str_eqb_refl].
      apply in_mentioned. right. exact U. }
    rewrite S. destruct e; reflexivity.
Qed.

Lemma import_usersays_file intentFiles locale M k samples :
  import_intent intentFiles locale M (usersays_file locale k samples) = Ok M.
Proof.
  unfold import_intent, usersays_file. cbn [path nth_error].
  fold (usersays_name locale k). rewrite usersays_name_includes. reflexivity.
Qed.

Lemma import_intent_file types intentFiles locale M id k i l samples :
  portable_intent types (k, i) ->
  intents M = Some l ->
  find_file intentFiles (usersays_name locale k)
  = match samples with
    | [] => None
    | _ => Some (usersays_file locale k samples)
    end ->
  Forall2 (sample_record (entities_of i)) (phrases_of i) samples ->
  import_intent intentFiles locale M (intent_file id k i)
  = Ok (with_intents (Some (obj_set k (reimport i) l)) M).
Proof.
  intros P Hl Hf Hs. pose proof P as (Hu & _ & He & Hn & Hp & _ & Hph).
  simpl in Hu, He, Hn, Hp, Hph.
  unfold import_intent, intent_file. cbn [path nth_error content].
  rewrite (@intent_name_plain k Hu), skip_intent_record. cbn [bind].
  assert (F : member (intent_record id k i) (str "fallbackIntent") = Ok VUndef)
    by (unfold intent_record; destruct (entities i); reflexivity).
  assert (Nm : member (intent_record id k i) (str "name") = Ok (VStr k))
    by (unfold intent_record; destruct (entities i); reflexivity).
  assert (Ev : lodash_get (intent_record id k i) [str "events"; str "0"; str "name"]
               = VUndef)
    by (unfold intent_record; destruct (entities i); reflexivity).
  rewrite F, Nm. cbn [bind strict_eq]. rewrite Ev. cbn [strict_eq].
  rewrite import_entities_record. cbn [bind to_string].
  fold (usersays_name locale k). rewrite Hf, Hl.
  assert (J : forall base J0,
             phrases J0 = Some [] ->
             entities J0 = option_map (List.map (backfill (entities_of i) [])) base ->
             match
               match samples with
               | [] => None
               | _ :: _ => Some (usersays_file locale k samples)
               end
             with
             | Some userSaysFile =>
                 bind (iterate (content userSaysFile))
                   (fun userSays => foldM import_sample userSays J0)
             | None => Ok J0
             end
             = Ok (with_phrases (Some (phrases_of i))
                     (with_entities
                        (option_map
                           (List.map (backfill (entities_of i) (mentioned [] (phrases_of i))))
                           base)
                        J0))).
  { intros base J0 HJ HB. destruct samples as [|s0 samples].
    - inversion Hs. cbn [mentioned fold_left]. rewrite (with_entities_same J0 HB).
      destruct J0; simpl in *; subst; reflexivity.
    - cbn [usersays_file content iterate bind].
      rewrite (Forall2_dense (@sample_record_present (entities_of i)) Hs).
      apply (@import_samples (entities_of i) base (phrases_of i) (s0 :: samples) J0 [] []
               Hs); [|exact HJ|exact HB].
      revert Hph. apply Forall_impl. intros phrase. apply (declared_named Hp). }
  unfold reimport, entities_of in *. destruct (entities i) as [es|].
  - destruct (@declared_entities types es [] Hn) as [L _]; [reflexivity|exact Hp|].
    assert (Z : (0 <? List.length (fold_left declare (List.map typed es) []))%nat = true).
    { apply Nat.ltb_lt. rewrite L. simpl. destruct He as [He|He]; [discriminate|].
      destruct es; [congruence|simpl; lia]. }
    rewrite Z, (J (Some (fold_left declare (List.map typed es) []))).
    + reflexivity.
    + reflexivity.
    + cbn [option_map with_entities entities]. rewrite backfill_unseen. reflexivity.
  - cbn [List.length Nat.ltb Nat.leb]. rewrite (J None) by reflexivity. reflexivity.
Qed.

Lemma find_file_cons f files name :
  find_file (f :: files) name
  = if match nth_error (path f) 1 with
       | Some segment => str_eqb segment name
       | None => false
       end
    then Some f else find_file files name.
Proof. reflexivity. Qed.

Lemma find_usersays locale k (qs : list intent_layout) :
  NoDup (List.map fst qs) ->
  Forall (fun q : intent_layout => includes (fst q) (str "usersays") = false) qs ->
  find_file (List.concat (List.map (intent_part locale) qs)) (usersays_name locale k)
  = match lookup k qs with
    | Some (_, _, s :: l) => Some (usersays_file locale k (s :: l))
    | _ => None
    end.
Proof.
  induction qs as [|[k0 [[i0 id0] samples0]] qs IH]; intros N U; [reflexivity|].
  inversion N as [|x y Hx Hn]; subst. inversion U as [|u v Hu Hv]; subst.
  simpl in Hu. specialize (IH Hn Hv).
  cbn [List.map List.concat intent_part lookup].
  rewrite <- app_comm_cons, find_file_cons. unfold intent_file at 1. cbn [path nth_error].
  rewrite (@intent_name_differs locale k0 k Hu).
  assert (R : lookup k qs = None -> find_file (List.concat (List.map (intent_part locale) qs))
                                      (usersays_name locale k) = None).
  { intros E. rewrite IH, E. reflexivity. }
  destruct samples0 as [|s l].
  - cbn [app]. destruct (str_eqb k k0) eqn:E; [|exact IH].
    apply str_eqb_eq in E. subst k0. apply R. apply lookup_notin. exact Hx.
  - cbn [app]. rewrite find_file_cons. unfold usersays_file at 1. cbn [path nth_error].
    fold (usersays_name locale k0). unfold usersays_name at 1 2.
    rewrite str_eqb_app_tail, (str_eqb_sym k0 k).
    destruct (str_eqb k k0) eqn:E; [|exact IH].
    apply str_eqb_eq in E. subst k0. reflexivity.
Qed.

Lemma with_intents_twice a b M : with_intents a (with_intents b M) = with_intents a M.
Proof. reflexivity. Qed.

Lemma import_intent_parts types locale (all : list intent_layout) :
  NoDup (List.map fst all) ->
  Forall (fun q : intent_layout => includes (fst q) (str "usersays") = false) all ->
  forall (qs : list intent_layout) M l,
    Forall (fun q : intent_layout =>
              lookup (fst q) all = Some (snd q)
              /\ portable_intent types (fst q, fst (fst (snd q)))
              /\ laid_out q) qs ->
    intents M = Some l ->
    foldM (import_intent (List.concat (List.map (intent_part locale) all)) locale)
      (List.concat (List.map (intent_part locale) qs)) M
    = Ok (with_intents
            (Some (fold_left
                     (fun l (q : intent_layout) =>
                        obj_set (fst q) (reimport (fst (fst (snd q)))) l) qs l))
            M).
Proof.
  intros N U. induction qs as [|[k [[i id] samples]] qs IH]; intros M l H Hl.
  - simpl. destruct M; simpl in *; subst; reflexivity.
  - inversion H as [|x y (Hk & Hp & Hs) Hr]; subst. simpl in Hk, Hp, Hs.
    cbn [List.map List.concat intent_part]. rewrite <- app_comm_cons. cbn [foldM].
    rewrite (@import_intent_file types _ locale M id k i l samples Hp Hl); [|  |exact Hs].
    2:{ rewrite (@find_usersays locale k all N U), Hk. destruct samples; reflexivity. }
    cbn [bind].
    assert (S : foldM (import_intent (List.concat (List.map (intent_part locale) all)) locale)
                  (match samples with
                   | [] => []
                   | _ :: _ => [usersays_file locale k samples]
                   end ++ List.concat (List.map (intent_part locale) qs))
                  (with_intents (Some (obj_set k (reimport i) l)) M)
                = foldM (import_intent (List.concat (List.map (intent_part locale) all)) locale)
                    (List.concat (List.map (intent_part locale) qs))
                    (with_intents (Some (obj_set k (reimport i) l)) M)).
    { destruct samples; [reflexivity|]. cbn [app foldM].
      rewrite import_usersays_file. reflexivity. }
    rewrite S, (IH (with_intents (Some (obj_set k (reimport i) l)) M)
                  (obj_set k (reimport i) l) Hr eq_refl).
    reflexivity.
Qed.

Lemma lookup_fold_obj_set {A B} (f : A -> B) k (qs : list (jsstring * A)) : forall l,
  NoDup (List.map fst qs) ->
  lookup k (fold_left (fun l (q : jsstring * A) => obj_set (fst q) (f (snd q)) l) qs l)
  = match lookup k qs with
    | Some x => Some (f x)
    | None => lookup k l
    end.
Proof.
  induction qs as [|[k0 x0] qs IH]; intros l N; [reflexivity|].
  inversion N as [|x y Hx Hn]; subst. cbn [fold_left fst snd].
  rewrite (IH _ Hn), lookup_obj_set. simpl.
  destruct (str_eqb k k0) eqn:E; [|reflexivity].
  apply str_eqb_eq in E. subst. rewrite (@lookup_notin _ k0 qs Hx). reflexivity.
Qed.

Lemma filter_all {A} (P : A -> bool) l : Forall (fun x => P x = true) l -> filter P l = l.
Proof. induction 1 as [|x l Hx Hl IH]; simpl; [reflexivity|]. rewrite Hx, IH. reflexivity. Qed.

Lemma import_entry_of dfEntityObj acc v :
  member dfEntityObj (str "isEnum") = Ok (VBool false) ->
  member dfEntityObj (str "isRegexp") = Ok (VBool false) ->
  portable_value v ->
  import_entry dfEntityObj acc (entry_of v) = Ok (acc ++ [v]).
Proof.
  intros He Hr. destruct v as [s|[val syn]]; simpl; [contradiction|].
  intros (s & -> & _ & Hl). unfold import_entry, entry_of. cbn [value_of synonyms].
  cbn [member own]. change (lookup (str "value") _) with (Some (VStr s)).
  cbn [bind]. rewrite He, Hr. cbn [bind truthy negb andb].
  match goal with
  | |- context [lookup (str "synonyms") ?o] =>
      change (lookup (str "synonyms") o)
        with (Some (VArr (VStr s :: match syn with Some l => l | None => [] end)))
  end.
  cbn [bind iterate List.map settle].
  assert (D : List.map settle match syn with Some l => l | None => [] end
              = match syn with Some l => l | None => [] end).
  { destruct syn as [l|]; [|reflexivity]. destruct Hl as [_ Hl].
    apply map_settle_dense. revert Hl. apply Forall_impl.
    intros x (y & -> & _). discriminate. }
  rewrite D. clear D.
  cbn [bind filter strict_eq]. rewrite str_eqb_refl. cbn [negb].
  destruct syn as [l|]; [|reflexivity]. destruct Hl as [Hn Hl].
  rewrite filter_all.
  - destruct l; [congruence|reflexivity].
  - revert Hl. apply Forall_impl. intros x (y & -> & _ & Hy). simpl.
    apply negb_true_iff. apply str_eqb_neq. exact Hy.
Qed.

Lemma import_entries dfEntityObj vs : forall acc,
  member dfEntityObj (str "isEnum") = Ok (VBool false) ->
  member dfEntityObj (str "isRegexp") = Ok (VBool false) ->
  Forall portable_value vs ->
  foldM (import_entry dfEntityObj) (List.map entry_of vs) acc = Ok (acc ++ vs).
Proof.
  induction vs as [|v vs IH]; intros acc He Hr H.
  - simpl. rewrite app_nil_r. reflexivity.
  - inversion H as [|x y Hx Hy]; subst. cbn [List.map foldM].
    rewrite (@import_entry_of dfEntityObj acc v He Hr Hx). cbn [bind].
    rewrite (IH (acc ++ [v]) He Hr Hy), <- app_assoc. reflexivity.
Qed.

Lemma import_entries_file entityFiles locale M t et :
  import_entity entityFiles locale M (entries_file locale t et) = Ok M.
Proof.
  unfold import_entity, entries_file. cbn [path nth_error].
  fold (entries_name locale t). rewrite entries_name_includes. reflexivity.
Qed.

Lemma import_definition_file entityFiles locale M id t et l :
  portable_type et ->
  includes t (str "entries") = false ->
  entityTypes M = Some l ->
  find_file entityFiles (entries_name locale t)
  = match values_of et with
    | [] => None
    | _ => Some (entries_file locale t et)
    end ->
  import_entity entityFiles locale M (definition_file id t et)
  = Ok (with_entityTypes (Some (obj_set t (reimport_type et) l)) M).
Proof.
  intros [Hd Hv] Hi Hl Hf. unfold import_entity, definition_file.
  cbn [path nth_error content]. rewrite (@type_name_plain t Hi).
  rewrite (@entity_record_plain id t et Hd).
  match goal with
  | |- context [skipDefaultEntityProps ?a ?b] =>
      change (skipDefaultEntityProps a b) with a
  end.
  match goal with
  | |- context [member ?o (str "name")] =>
      change (member o (str "name")) with (Ok (VStr t))
  end.
  cbn [bind to_string]. fold (entries_name locale t). rewrite Hf, Hl.
  unfold reimport_type. destruct (values_of et) as [|v vs] eqn:V; [reflexivity|].
  unfold entries_file. cbn [content iterate bind]. rewrite V.
  rewrite (@map_settle_map _ entry_of (v :: vs)) by (intros [x|x]; discriminate).
  rewrite import_entries; try reflexivity. exact Hv.
Qed.

Lemma find_entries locale types t et (qs : list type_layout) :
  Forall (fun q : type_layout =>
            lookup (fst q) types = Some (fst (snd q))
            /\ includes (fst q) (str "entries") = false) qs ->
  lookup t types = Some et ->
  find_file (List.concat (List.map (type_part locale) qs)) (entries_name locale t)
  = match lookup t qs, values_of et with
    | Some _, _ :: _ => Some (entries_file locale t et)
    | _, _ => None
    end.
Proof.
  intros H Ht. induction H as [|[t0 [et0 id0]] qs [H0 Hi] Hq IH]; [reflexivity|].
  simpl in H0, Hi.
  cbn [List.map List.concat type_part lookup]. unfold type_files.
  rewrite <- app_comm_cons, find_file_cons. unfold definition_file at 1.
  cbn [path nth_error]. rewrite (@type_name_differs locale t0 t Hi).
  destruct (str_eqb t t0) eqn:E.
  - apply str_eqb_eq in E. subst t0. assert (et0 = et) by congruence. subst et0.
    destruct (values_of et) as [|v vs] eqn:V.
    + cbn [app]. rewrite IH. destruct (lookup t qs); reflexivity.
    + cbn [app]. rewrite find_file_cons. unfold entries_file at 1. cbn [path nth_error].
      fold (entries_name locale t). rewrite str_eqb_refl. reflexivity.
  - destruct (values_of et0) as [|v vs] eqn:V; cbn [app]; [exact IH|].
    rewrite find_file_cons. unfold entries_file at 1. cbn [path nth_error].
    fold (entries_name locale t0). unfold entries_name at 1 2.
    rewrite str_eqb_app_tail, (str_eqb_sym t0 t), E. exact IH.
Qed.

Lemma lookup_present {A} k (v : A) o : In (k, v) o -> lookup k o <> None.
Proof.
  induction o as [|[k0 v0] o IH]; simpl; [tauto|].
  intros [H|H].
  - injection H as -> ->. rewrite str_eqb_refl. discriminate.
  - destruct (str_eqb k k0); [discriminate|auto].
Qed.

Lemma with_entityTypes_twice a b M :
  with_entityTypes a (with_entityTypes b M) = with_entityTypes a M.
Proof. reflexivity. Qed.

Lemma import_type_parts locale types (all : list type_layout) :
  Forall (fun q : type_layout =>
            lookup (fst q) types = Some (fst (snd q))
            /\ includes (fst q) (str "entries") = false) all ->
  forall (qs : list type_layout) M l,
    Forall (fun q : type_layout =>
              In q all
              /\ lookup (fst q) types = Some (fst (snd q))
              /\ includes (fst q) (str "entries") = false
              /\ portable_type (fst (snd q))) qs ->
    entityTypes M = Some l ->
    foldM (import_entity (List.concat (List.map (type_part locale) all)) locale)
      (List.concat (List.map (type_part locale) qs)) M
    = Ok (with_entityTypes
            (Some (fold_left
                     (fun l (q : type_layout) =>
                        obj_set (fst q) (reimport_type (fst (snd q))) l) qs l))
            M).
Proof.
  intros A. induction qs as [|[t [et id]] qs IH]; intros M l H Hl.
  - simpl. destruct M; simpl in *; subst; reflexivity.
  - inversion H as [|x y (Hin & Ht & Hi & Hp) Hr]; subst. simpl in Ht, Hi, Hp.
    cbn [List.map List.concat type_part]. unfold type_files.
    rewrite <- app_comm_cons. cbn [foldM].
    rewrite (@import_definition_file _ locale M id t et l Hp Hi Hl).
    2:{ rewrite (@find_entries locale types t et all A Ht).
        destruct (lookup t all) eqn:E; [reflexivity|].
        exfalso. exact (lookup_present _ _ _ Hin E). }
    cbn [bind].
    assert (S : forall M',
               foldM (import_entity (List.concat (List.map (type_part locale) all)) locale)
                 (match values_of et with
                  | [] => []
                  | _ :: _ => [entries_file locale t et]
                  end ++ List.concat (List.map (type_part locale) qs)) M'
               = foldM (import_entity (List.concat (List.map (type_part locale) all)) locale)
                   (List.concat (List.map (type_part locale) qs)) M').
    { intros M'. destruct (values_of et); [reflexivity|]. cbn [app foldM].
      rewrite import_entries_file. reflexivity. }
    rewrite S, (IH (with_entityTypes (Some (obj_set t (reimport_type et) l)) M)
                  (obj_set t (reimport_type et) l) Hr eq_refl).
    reflexivity.
Qed.

Lemma lookup_fold_right_obj_set {A B} (f : A -> B) k (qs : list (jsstring * A)) l :
  lookup k (fold_right (fun (q : jsstring * A) l => obj_set (fst q) (f (snd q)) l) l qs)
  = match lookup k qs with
    | Some x => Some (f x)
    | None => lookup k l
    end.
Proof.
  induction qs as [|[k0 x0] qs IH]; [reflexivity|].
  cbn [fold_right fst snd]. rewrite lookup_obj_set, IH. simpl.
  destruct (str_eqb k k0); reflexivity.
Qed.

Lemma lookup_fold_left_obj_set {A B} (f : A -> B) k (qs : list (jsstring * A)) l :
  lookup k (fold_left (fun l (q : jsstring * A) => obj_set (fst q) (f (snd q)) l) qs l)
  = match lookup k (rev qs) with
    | Some x => Some (f x)
    | None => lookup k l
    end.
Proof.
  rewrite <- fold_left_rev_right.
  exact (@lookup_fold_right_obj_set A B f k (rev qs) l).
Qed.

Lemma filter_type_parts locale (ts : list type_layout) :
  filter (under "intents") (List.concat (List.map (type_part locale) ts)) = []
  /\ filter (under "entities") (List.concat (List.map (type_part locale) ts))
     = List.concat (List.map (type_part locale) ts).
Proof.
  induction ts as [|[t [et id]] ts [I E]]; [split; reflexivity|].
  cbn [List.map List.concat]. rewrite !filter_app, I, E.
  unfold type_part, type_files. destruct (values_of et); split; reflexivity.
Qed.

Lemma filter_intent_part locale (q : intent_layout) :
  filter (under "intents") (intent_part locale q) = intent_part locale q
  /\ filter (under "entities") (intent_part locale q) = [].
Proof.
  destruct q as [k [[i id] samples]]. unfold intent_part.
  destruct samples; split; reflexivity.
Qed.

Lemma entity_files_layout locale types es fs :
  entity_files locale types es fs ->
  exists ts : list type_layout,
    fs = List.concat (List.map (type_part locale) ts)
    /\ Forall (fun q : type_layout =>
                 lookup (fst q) types = Some (fst (snd q))
                 /\ exists ek e, In (ek, e) es /\ entity_type e = Some (TypeName (fst q)))
         ts
    /\ forall ek e t,
         In (ek, e) es -> entity_type e = Some (TypeName t) -> In t (List.map fst ts).
Proof.
  induction 1 as [|ek e t et id rest files Ht Hl Hr (ts & E & F & G)
                  |ek e vendors rest files Ht Hr (ts & E & F & G)].
  - exists []. repeat split; [constructor|]. intros ek e t [].
  - exists ((t, (et, id)) :: ts). split; [|split].
    + simpl. rewrite E. reflexivity.
    + constructor.
      * simpl. split; [exact Hl|]. exists ek, e. split; [left; reflexivity|exact Ht].
      * revert F. apply Forall_impl. intros q (A & ek' & e' & B & C).
        split; [exact A|]. exists ek', e'. split; [right; exact B|exact C].
    + intros ek' e' t' [H|H] Ht'.
      * injection H as <- <-. left. simpl. congruence.
      * right. eapply G; eassumption.
  - exists ts. split; [exact E|]. split.
    + revert F. apply Forall_impl. intros q (A & ek' & e' & B & C).
      split; [exact A|]. exists ek', e'. split; [right; exact B|exact C].
    + intros ek' e' t' [H|H] Ht'.
      * injection H as <- <-. congruence.
      * eapply G; eassumption.
Qed.

Lemma model_layout locale types declared groups :
  Forall2 (intent_files locale types) declared groups ->
  exists (qs : list intent_layout) (ts : list type_layout),
    List.map (fun q : intent_layout => (fst q, fst (fst (snd q)))) qs = declared
    /\ Forall laid_out qs
    /\ filter (under "intents") (List.concat groups)
       = List.concat (List.map (intent_part locale) qs)
    /\ filter (under "entities") (List.concat groups)
       = List.concat (List.map (type_part locale) ts)
    /\ Forall (fun q : type_layout =>
                 lookup (fst q) types = Some (fst (snd q))
                 /\ exists k i ek e,
                      In (k, i) declared /\ In (ek, e) (entities_of i)
                      /\ entity_type e = Some (TypeName (fst q))) ts
    /\ forall k i ek e t,
         In (k, i) declared -> In (ek, e) (entities_of i) ->
         entity_type e = Some (TypeName t) -> In t (List.map fst ts).
Proof.
  induction 1 as [|[k i] group declared groups (companions & id & samples & C & S & ->) Hr
                    (qs & ts & Eq & L & FI & FE & T & Cov)].
  - exists [], []. repeat split; try constructor. intros k i ek e t [].
  - simpl in C, S.
    destruct (entity_files_layout C) as (ts1 & E1 & F1 & G1).
    destruct (filter_type_parts locale ts1) as [X1 X2].
    destruct (filter_intent_part locale (k, (i, id, samples))) as [Y1 Y2].
    exists ((k, (i, id, samples)) :: qs), (ts1 ++ ts). repeat split.
    + simpl. rewrite Eq. reflexivity.
    + constructor; [exact S|exact L].
    + cbn [List.concat List.map]. rewrite !filter_app, FI, E1, X1.
      cbn [fst snd app]. f_equal. exact Y1.
    + cbn [List.concat]. rewrite !filter_app, FE, E1, X2, map_app, concat_app.
      replace (filter (under "entities") _) with (@nil NativeFileInformation)
        by (symmetry; exact Y2).
      rewrite app_nil_r. reflexivity.
    + apply Forall_app. split.
      * revert F1. apply Forall_impl. intros q (A & ek & e & B & D).
        split; [exact A|]. exists k, i, ek, e. split; [left; reflexivity|auto].
      * revert T. apply Forall_impl. intros q (A & k' & i' & ek & e & B & D & F).
        split; [exact A|]. exists k', i', ek, e. split; [right; exact B|auto].
    + intros k' i' ek e t [H|H] He Ht; rewrite map_app; apply in_or_app.
      * injection H as <- <-. left. eapply G1; eassumption.
      * right. eapply Cov; eassumption.
Qed.

Lemma lookup_none_notin {A} k (o : list (jsstring * A)) :
  lookup k o = None -> ~ In k (List.map fst o).
Proof.
  intros H Hin. apply in_map_iff in Hin. destruct Hin as ([k0 v] & E & Hin).
  simpl in E. subst k0. exact (lookup_present _ _ _ Hin H).
Qed.

Lemma lookup_map_snd {A B} (g : A -> B) k (qs : list (jsstring * A)) :
  lookup k (List.map (fun q : jsstring * A => (fst q, g (snd q))) qs)
  = option_map g (lookup k qs).
Proof.
  induction qs as [|[k0 x] qs IH]; [reflexivity|].
  simpl. destruct (str_eqb k k0); [reflexivity|exact IH].
Qed.

(** ** Export followed by import *)

(** C1 (as the code has it): for a model without vendor fields whose
    intent names, entity names, type names, phrases, exemplar texts and
    values are portable, importing the exported files succeeds; every
    intent comes back with its phrases and its entities, their types and
    exemplar texts included, and with the vendor sub-tree
    [{webhookUsed: true}]; the entity types that come back are those an
    entity names, each with its values and synonyms. *)
Theorem roundtrip_of_portable_model uuidv4 model locale :
  portable model ->
  exists model',
    roundtrip uuidv4 model locale = Ok model'
    /\ (forall k,
          match lookup k (JovoModelHelper.getIntents model),
                lookup k (JovoModelHelper.getIntents model') with
          | Some i, Some i' => reimported_intent i i'
          | None, None => True
          | _, _ => False
          end)
    /\ (forall t,
          match lookup t (types_of model') with
          | Some et' =>
              referenced model t
              /\ exists et, lookup t (types_of model) = Some et /\ et' = reimport_type et
          | None => ~ referenced model t
          end).
Proof.
  intros P. destruct (@export_portable uuidv4 model locale P) as (groups & E & G).
  destruct (model_layout G) as (qs & ts & Eq & L & FI & FE & T & Cov).
  destruct P as (Hd & Hn & Hp).
  assert (N : NoDup (List.map fst qs)).
  { rewrite <- Eq, map_map in Hn. exact Hn. }
  assert (Q : Forall (fun q : intent_layout =>
                        portable_intent (types_of model) (fst q, fst (fst (snd q)))) qs).
  { rewrite <- Eq in Hp. rewrite Forall_map in Hp. exact Hp. }
  assert (U : Forall (fun q : intent_layout => includes (fst q) (str "usersays") = false) qs).
  { revert Q. apply Forall_impl. intros q (H & _). exact H. }
  assert (HF : Forall (fun q : intent_layout =>
                         lookup (fst q) qs = Some (snd q)
                         /\ portable_intent (types_of model) (fst q, fst (fst (snd q)))
                         /\ laid_out q) qs).
  { apply Forall_forall. intros q Hin. rewrite Forall_forall in Q, L.
    split; [|split; [exact (Q q Hin)|exact (L q Hin)]].
    apply lookup_nodup; [exact N|]. destruct q; exact Hin. }
  assert (TP : Forall (fun q : type_layout =>
                         lookup (fst q) (types_of model) = Some (fst (snd q))
                         /\ includes (fst q) (str "entries") = false
                         /\ portable_type (fst (snd q))
                         /\ referenced model (fst q)) ts).
  { revert T. apply Forall_impl. intros [t [et id]] (A & k & i & ek & e & B & C & D).
    simpl in *. rewrite Forall_forall in Hp.
    destruct (Hp _ B) as (_ & _ & _ & _ & Pe & _). simpl in Pe.
    rewrite Forall_forall in Pe. destruct (Pe _ C) as (_ & _ & _ & r & Hr & Pr).
    simpl in Hr. rewrite D in Hr. injection Hr as <-. simpl in Pr.
    destruct Pr as (_ & _ & _ & Hi & et' & Hl & Ht).
    assert (et' = et) by congruence. subst et'.
    split; [exact A|]. split; [exact Hi|]. split; [exact Ht|].
    unfold referenced. exists k, i, ek, e. auto. }
  unfold roundtrip. rewrite E. cbn [fst]. unfold toJovoModel. rewrite FI, FE.
  rewrite (@import_intent_parts (types_of model) locale qs N U qs
             {| schema := Current; version := VStr (str "4.0"); invocation := VStr [];
                intents := Some []; entityTypes := Some []; dialogflow := VUndef |}
             [] HF eq_refl).
  cbn [bind].
  assert (TA : Forall (fun q : type_layout =>
                         lookup (fst q) (types_of model) = Some (fst (snd q))
                         /\ includes (fst q) (str "entries") = false) ts).
  { revert TP. apply Forall_impl. intros q (A & B & _). auto. }
  assert (TB : Forall (fun q : type_layout =>
                         In q ts
                         /\ lookup (fst q) (types_of model) = Some (fst (snd q))
                         /\ includes (fst q) (str "entries") = false
                         /\ portable_type (fst (snd q))) ts).
  { apply Forall_forall. intros q Hin. rewrite Forall_forall in TP.
    destruct (TP q Hin) as (A & B & C & _). auto. }
  match goal with
  | |- context [foldM _ _ ?M] =>
      rewrite (@import_type_parts locale (types_of model) ts TA ts M [] TB eq_refl)
  end.
  eexists. split; [reflexivity|]. split.
  - intros k.
    match goal with
    | |- context [JovoModelHelper.getIntents (with_entityTypes ?a (with_intents (Some ?b) ?c))] =>
        change (JovoModelHelper.getIntents (with_entityTypes a (with_intents (Some b) c)))
          with b
    end.
    pose proof (@lookup_fold_obj_set _ _ (fun x : Intent * jsstring * list value =>
                                            reimport (fst (fst x))) k qs [] N) as R.
    cbv beta in R. unfold intent_layout in *. rewrite R. clear R.
    rewrite <- Eq.
    rewrite (@lookup_map_snd _ _ (fun x : Intent * jsstring * list value => fst (fst x)) k qs).
    destruct (lookup k qs) as [[[i id] samples]|] eqn:K; simpl; [|exact I].
    apply lookup_some_in in K. rewrite Forall_forall in Q.
    apply (@reimport_portable (types_of model) k i). exact (Q _ K).
  - intros t.
    match goal with
    | |- context [types_of (with_entityTypes (Some ?a) ?c)] =>
        change (types_of (with_entityTypes (Some a) c)) with a
    end.
    pose proof (@lookup_fold_left_obj_set _ _ (fun x : EntityType * jsstring =>
                                                 reimport_type (fst x)) t ts []) as R.
    cbv beta in R. unfold type_layout in *. rewrite R. clear R.
    destruct (lookup t (rev ts)) as [[et id]|] eqn:K; simpl.
    + apply lookup_some_in in K. apply in_rev in K. rewrite Forall_forall in TP.
      destruct (TP _ K) as (A & _ & _ & R). simpl in A, R. split; [exact R|].
      exists et. auto.
    + intros (k & i & ek & e & A & B & C).
      apply lookup_none_notin in K. apply K. rewrite map_rev. apply in_rev.
      rewrite rev_involutive. eapply Cov; eassumption.
Qed.

Lemma roundtrip_of_portable_model_witness :
  portable booking_model
  /\ exists model',
       roundtrip sample_ids booking_model (str "en") = Ok model'
       /\ (forall k,
             match lookup k (JovoModelHelper.getIntents booking_model),
                   lookup k (JovoModelHelper.getIntents model') with
             | Some i, Some i' => reimported_intent i i'
             | None, None => True
             | _, _ => False
             end)
       /\ (forall t,
             match lookup t (types_of model') with
             | Some et' =>
                 referenced booking_model t
                 /\ exists et,
                      lookup t (types_of booking_model) = Some et /\ et' = reimport_type et
             | None => ~ referenced booking_model t
             end).
Proof.
  assert (P : portable booking_model).
  { split; [reflexivity|]. split.
    - cbn. repeat constructor; simpl; intuition discriminate.
    - apply Forall_cons; [|apply Forall_cons; [|apply Forall_nil]].
      + split; [reflexivity|]. split; [reflexivity|]. split; [right; discriminate|].
        split; [cbn; repeat constructor; simpl; intuition discriminate|].
        split.
        * apply Forall_cons; [|apply Forall_cons; [|apply Forall_nil]].
          -- split; [discriminate|]. split; [right; split; reflexivity|].
             split; [reflexivity|].
             eexists. split; [reflexivity|].
             split; [discriminate|]. split; [reflexivity|]. split; [reflexivity|].
             split; [reflexivity|].
             eexists. split; [reflexivity|]. split; [reflexivity|].
             apply Forall_cons; [|apply Forall_cons; [|apply Forall_nil]].
             ++ eexists. split; [reflexivity|]. split; [reflexivity|].
                split; [discriminate|].
                apply Forall_cons; [|apply Forall_nil].
                eexists. split; [reflexivity|]. split; [reflexivity|discriminate].
             ++ eexists. split; [reflexivity|]. split; [reflexivity|exact I].
          -- split; [discriminate|]. split; [left; reflexivity|]. split; [reflexivity|].
             eexists. split; [reflexivity|]. eexists. split; reflexivity.
        * split.
          { apply Forall_cons; [|apply Forall_cons; [|apply Forall_nil]].
            - right. exists (str "book a {city} flight"). split; [left; reflexivity|].
              vm_compute. right. left. reflexivity.
            - left. reflexivity. }
          apply Forall_cons; [|apply Forall_cons; [|apply Forall_cons; [|apply Forall_nil]]].
          -- replace (tokenize (str "book a {city} flight"))
               with [Literal (str "book a "); Placeholder (str "city");
                     Literal (str " flight")] by (vm_compute; reflexivity).
             repeat (apply Forall_cons; [first [exact I|eexists; reflexivity]|]).
             apply Forall_nil.
          -- replace (tokenize (str "{n} seats to {city}{city}"))
               with [Placeholder (str "n"); Literal (str " seats to ");
                     Placeholder (str "city"); Placeholder (str "city")]
               by (vm_compute; reflexivity).
             repeat (apply Forall_cons; [first [exact I|eexists; reflexivity]|]).
             apply Forall_nil.
          -- replace (tokenize (str "help")) with [Literal (str "help")]
               by (vm_compute; reflexivity).
             apply Forall_cons; [exact I|apply Forall_nil].
      + split; [reflexivity|]. split; [reflexivity|]. split; [left; reflexivity|].
        split; [apply NoDup_nil|]. split; [apply Forall_nil|]. split; apply Forall_nil. }
  split; [exact P|].
  apply (@roundtrip_of_portable_model sample_ids booking_model (str "en") P).
Defined.

(** What is not portable.  The exemplar text of an entity that no phrase
    mentions is not exported. *)
Lemma roundtrip_drops_unused_text :
  exists model' i',
    roundtrip sample_ids silent_model (str "en") = Ok model'
    /\ intents model' = Some [(str "Travel", i')]
    /\ entities i' = Some [(str "where", plain_entity (TypeName (str "city")))].
Proof. do 2 eexists. split; [vm_compute; reflexivity|]. split; reflexivity. Qed.

(** A value that sanitization changes comes back with its sanitized form
    as a synonym. *)
Lemma roundtrip_adds_sanitized_synonym :
  exists model',
    roundtrip sample_ids punctuated_model (str "en") = Ok model'
    /\ entityTypes model'
       = Some [(str "city",
                {| values :=
                     Some [ValueObject {| value_of := VStr (str "St. Louis");
                                          synonyms := Some [VStr (str "St Louis")] |}];
                   entityType_dialogflow := VUndef |})].
Proof. eexists. split; [vm_compute; reflexivity|]. reflexivity. Qed.

(** C1, counterexample: an intent without any vendor field comes back
    with a vendor sub-tree that holds the webhook flag of the export. *)
Lemma roundtrip_adds_webhook_flag :
  exists model' i',
    roundtrip sample_ids greeting_model (str "en") = Ok model'
    /\ intents model' = Some [(str "Hello", i')]
    /\ intent_dialogflow i' = VObj [(str "webhookUsed", VBool true)]
    /\ intent_dialogflow i' <> VUndef.
Proof.
  do 2 eexists. split; [vm_compute; reflexivity|].
  split; [reflexivity|]. split; [reflexivity|discriminate].
Qed.

(** * Further properties of the conversions *)

(** ** The files the importer reads *)

Lemma filter_twice {A} (P : A -> bool) l : filter P (filter P l) = filter P l.
Proof.
  induction l as [|x l IH]; [reflexivity|]. simpl.
  destruct (P x) eqn:E; simpl; rewrite ?E, IH; reflexivity.
Qed.

Lemma filter_disjoint {A} (P Q : A -> bool) l :
  (forall x, Q x = true -> P x = false) -> filter P (filter Q l) = [].
Proof.
  intros D. induction l as [|x l IH]; [reflexivity|]. simpl.
  destruct (Q x) eqn:E; simpl; [rewrite (D x E)|]; exact IH.
Qed.

Lemma under_one_directory file :
  under "intents" file = true -> under "entities" file = false.
Proof.
  unfold under. destruct (path file) as [|segment rest]; [discriminate|].
  intros H. apply str_eqb_eq in H. subst segment. reflexivity.
Qed.

Lemma under_other_directory file :
  under "entities" file = true -> under "intents" file = false.
Proof.
  unfold under. destruct (path file) as [|segment rest]; [discriminate|].
  intros H. apply str_eqb_eq in H. subst segment. reflexivity.
Qed.

(** X1: the importer reads the files whose first path segment is
    [intents] and those whose first path segment is [entities], and nothing
    else: files with an empty path or under another directory, and the
    way the files of the two directories are interleaved, do not change
    the result. *)
Theorem import_reads_two_directories inputData locale :
  toJovoModel inputData locale
  = toJovoModel
      (filter (under "intents") inputData ++ filter (under "entities") inputData) locale.
Proof.
  unfold toJovoModel. rewrite !filter_app, !filter_twice.
  rewrite (@filter_disjoint _ (under "intents") (under "entities") inputData
             under_other_directory).
  rewrite (@filter_disjoint _ (under "entities") (under "intents") inputData
             under_one_directory).
  rewrite app_nil_r. reflexivity.
Qed.

(** ** The shape of imported intents and entity types *)

Lemma same_core_refl j : same_core j j.
Proof. split; reflexivity. Qed.

Lemma same_core_trans j1 j2 j3 : same_core j1 j2 -> same_core j2 j3 -> same_core j1 j3.
Proof. intros [A B] [C D]. split; congruence. Qed.

Lemma set_intent_core path v j : same_core j (set_intent path v j).
Proof. split; reflexivity. Qed.

Lemma skip_defined_core field d j : same_core j (skip_defined field d j).
Proof. unfold skip_defined. destruct (_ && _); [apply set_intent_core|apply same_core_refl]. Qed.

Lemma skip_response_core field d j : same_core j (skip_response field d j).
Proof.
  unfold skip_response. destruct (_ && _); [apply set_intent_core|apply same_core_refl].
Qed.

Lemma skip_message_core locale j message j' :
  skip_message locale j message = Ok j' -> same_core j j'.
Proof.
  unfold skip_message. destruct (strict_eq _ _); [|intros [= <-]; apply same_core_refl].
  intros H. bind_inv H. destruct (gt_zero a); [|injection H as <-; apply same_core_refl].
  bind_inv H. injection H as <-. apply set_intent_core.
Qed.

Lemma skip_messages_core locale messages : forall j j',
  foldM (skip_message locale) messages j = Ok j' -> same_core j j'.
Proof.
  induction messages as [|m ms IH]; intros j j'; simpl.
  - intros [= <-]. apply same_core_refl.
  - intros H. bind_inv H. apply skip_message_core in E.
    eapply same_core_trans; [exact E|]. apply IH. exact H.
Qed.

Ltac core_steps :=
  repeat match goal with
         | |- same_core _ (skip_defined _ _ _) =>
             eapply same_core_trans; [|apply skip_defined_core]
         | |- same_core _ (skip_response _ _ _) =>
             eapply same_core_trans; [|apply skip_response_core]
         | |- same_core _ (set_intent _ _ _) =>
             eapply same_core_trans; [|apply set_intent_core]
         | |- same_core _ (if ?c then _ else _) => destruct c
         end;
  try apply same_core_refl.

Lemma skipDefaultIntentProps_core j d locale j' :
  skipDefaultIntentProps j d locale = Ok j' -> same_core j j'.
Proof.
  unfold skipDefaultIntentProps. cbv zeta. intros H.
  match type of H with
  | (if _ then Ok ?x else _) = _ =>
      assert (C7 : same_core j x) by core_steps;
      set (j7 := x) in *; clearbody j7
  end.
  destruct (strict_eq _ VUndef); [injection H as <-; exact C7|].
  bind_inv H.
  destruct (_ && _); [|injection H as <-; exact C7].
  bind_inv H. injection H as <-.
  eapply same_core_trans; [|apply skip_response_core].
  eapply same_core_trans; [exact C7|].
  destruct (negb _).
  - bind_inv E0. apply skip_messages_core in E0.
    eapply same_core_trans; [|exact E0]. core_steps.
  - injection E0 as <-. core_steps.
Qed.

Lemma Forall_obj_set {A} (P : jsstring * A -> Prop) k v o :
  (forall k', P (k', v)) -> Forall P o -> Forall P (obj_set k v o).
Proof.
  intros Hv Ho. apply Forall_forall. intros [k' v'] Hin.
  apply obj_set_In in Hin. destruct Hin as [-> | Hin]; [apply Hv|].
  rewrite Forall_forall in Ho. apply Ho. exact Hin.
Qed.

Lemma import_parameter_shape entities parameter entities' :
  Forall imported_entity entities ->
  import_parameter entities parameter = Ok entities' ->
  Forall imported_entity entities'.
Proof.
  intros He. unfold import_parameter. intros H. bind_inv H.
  destruct (truthy a); [|injection H as <-; exact He].
  destruct a; try discriminate. bind_inv H. injection H as <-.
  apply Forall_obj_set; [|exact He].
  intros k'. split; simpl; [discriminate|reflexivity].
Qed.

Lemma import_entities_shape dialogFlowIntent entities :
  import_entities dialogFlowIntent = Ok entities -> Forall imported_entity entities.
Proof.
  unfold import_entities. intros H. bind_inv H.
  destruct (truthy a); [|injection H as <-; constructor].
  bind_inv H.
  eapply (foldM_invariant (Forall imported_entity)); [|constructor|exact H].
  intros s response s' Hs. unfold import_response. intros R. bind_inv R.
  eapply (foldM_invariant (Forall imported_entity)); [|exact Hs|exact R].
  intros s0 p s1. apply import_parameter_shape.
Qed.

Lemma import_segment_shape phrase J data phrase' J' :
  imported_intent J ->
  import_segment (phrase, J) data = Ok (phrase', J') ->
  imported_intent J'.
Proof.
  intros (Hp & Hn & He). unfold import_segment. intros H.
  bind_inv H. bind_inv H. injection H as _ <-.
  destruct (negb (strict_eq a0 a)); [|repeat split; assumption].
  unfold entities_of in He.
  destruct (entities J) as [declared|] eqn:D.
  2:{ split; [exact Hp|]. split; [congruence|]. unfold entities_of. rewrite D. constructor. }
  split; [exact Hp|]. split.
  - simpl. destruct declared; [congruence|discriminate].
  - unfold entities_of. simpl. apply Forall_map.
    revert He. apply Forall_impl. intros [k e] [Ht Hd].
    simpl in Ht, Hd.
    match goal with
    | |- imported_entity (if ?c then _ else _) => destruct c
    end; split; simpl; assumption.
Qed.

Lemma import_sample_shape J us J' :
  imported_intent J -> import_sample J us = Ok J' -> imported_intent J'.
Proof.
  intros HJ. unfold import_sample. intros H. bind_inv H. bind_inv H. bind_inv H.
  destruct a1 as [phrase J1].
  assert (S1 : imported_intent J1).
  { assert (G : forall segments st st',
               imported_intent (snd st) ->
               foldM import_segment segments st = Ok st' -> imported_intent (snd st')).
    { induction segments as [|d ds IH]; intros st st' Hs; simpl.
      - intros [= <-]. exact Hs.
      - intros F. bind_inv F. destruct st as [p0 J0], a1 as [p1 J2].
        apply (IH (p1, J2) st'); [|exact F].
        eapply import_segment_shape; [exact Hs|exact E2]. }
    apply (G a0 ([], J) (phrase, J1) HJ E1). }
  destruct (phrases J1) as [l|]; [|discriminate]. injection H as <-.
  destruct S1 as (_ & Hn & He). repeat split; try assumption. discriminate.
Qed.

Lemma import_intent_intents intentFiles locale m fileInformation m' :
  (forall k i, In (k, i) (JovoModelHelper.getIntents m) -> imported_intent i) ->
  import_intent intentFiles locale m fileInformation = Ok m' ->
  forall k i, In (k, i) (JovoModelHelper.getIntents m') -> imported_intent i.
Proof.
  intros Hm. unfold import_intent.
  destruct (nth_error (path fileInformation) 1) as [name|]; [|discriminate].
  destruct (includes name (str "usersays")).
  { intros [= <-]. exact Hm. }
  intros H. bind_inv H. bind_inv H. bind_inv H.
  destruct (strict_eq a0 (VBool true)).
  { bind_inv H. injection H as <-. exact Hm. }
  destruct (strict_eq _ (VStr (str "WELCOME"))).
  { bind_inv H. destruct (negb _).
    - injection H as <-. exact Hm.
    - bind_inv H. injection H as <-. exact Hm. }
  bind_inv H. bind_inv H.
  destruct (intents m) as [l|] eqn:El; [|discriminate].
  injection H as <-. intros k i. unfold JovoModelHelper.getIntents. simpl.
  intros Hin. apply obj_set_In in Hin. destruct Hin as [-> | Hin].
  2:{ apply (Hm k). unfold JovoModelHelper.getIntents. rewrite El. exact Hin. }
  apply skipDefaultIntentProps_core in E. destruct E as [Ep Ee]. simpl in Ep, Ee.
  apply import_entities_shape in E2.
  assert (S0 : imported_intent
                 (if (0 <? List.length a2)%nat then with_entities (Some a2) a else a)).
  { destruct a2 as [|e0 es]; simpl.
    - split; [congruence|]. split; [congruence|].
      unfold entities_of. rewrite Ee. constructor.
    - split; [simpl; congruence|]. split; [discriminate|exact E2]. }
  destruct (find_file intentFiles _) as [userSaysFile|].
  - bind_inv E3.
    eapply (foldM_invariant imported_intent); [|exact S0|exact E3].
    intros s us s'. apply import_sample_shape.
  - injection E3 as <-. exact S0.
Qed.

Lemma import_entity_intents entityFiles locale m fileInformation m' :
  import_entity entityFiles locale m fileInformation = Ok m' ->
  intents m' = intents m.
Proof.
  unfold import_entity.
  destruct (nth_error (path fileInformation) 1) as [name|]; [|discriminate].
  destruct (includes name (str "entries")).
  { intros [= <-]. reflexivity. }
  intros H. bind_inv H. bind_inv H.
  destruct (entityTypes m) as [l|]; [|discriminate].
  injection H as <-. reflexivity.
Qed.

(** X2: every intent of a model the importer returns has a phrase list
    (possibly empty); its entities are absent rather than an empty
    mapping, and each entity has a type and no vendor sub-tree. *)
Theorem imported_intents_shape inputData locale m :
  toJovoModel inputData locale = Ok m ->
  forall k i, In (k, i) (JovoModelHelper.getIntents m) -> imported_intent i.
Proof.
  unfold toJovoModel. intros H. bind_inv H.
  assert (A : forall k i, In (k, i) (JovoModelHelper.getIntents a) -> imported_intent i).
  { eapply (foldM_invariant
              (fun m => forall k i,
                   In (k, i) (JovoModelHelper.getIntents m) -> imported_intent i));
      [| |exact E].
    - intros s f s'. apply import_intent_intents.
    - intros k i []. }
  assert (I : intents m = intents a).
  { eapply (foldM_invariant (fun m => intents m = intents a)); [| |exact H].
    - intros s f s' Hs Hf. apply import_entity_intents in Hf. congruence.
    - reflexivity. }
  unfold JovoModelHelper.getIntents in *. rewrite I. exact A.
Qed.

Lemma imported_intents_shape_witness :
  exists m i,
    toJovoModel [two_responses_file] (str "en") = Ok m
    /\ In (str "Order", i) (JovoModelHelper.getIntents m)
    /\ imported_intent i.
Proof.
  assert (E : exists m, toJovoModel [two_responses_file] (str "en") = Ok m)
    by (eexists; vm_compute; reflexivity).
  destruct E as [m E].
  assert (G : exists i, In (str "Order", i) (JovoModelHelper.getIntents m)).
  { revert E. vm_compute. intros [= <-]. eexists. left. reflexivity. }
  destruct G as [i G]. exists m, i. split; [exact E|]. split; [exact G|].
  exact (@imported_intents_shape [two_responses_file] (str "en") m E (str "Order") i G).
Defined.

Lemma import_entry_object dialogFlowEntity imported entry imported' :
  Forall (fun v => exists r, v = ValueObject r) imported ->
  import_entry dialogFlowEntity imported entry = Ok imported' ->
  Forall (fun v => exists r, v = ValueObject r) imported'.
Proof.
  intros Hi. unfold import_entry. intros H.
  bind_inv H. bind_inv H. bind_inv H. bind_inv H. injection H as <-.
  apply Forall_app. split; [exact Hi|]. constructor; [|constructor]. eexists. reflexivity.
Qed.


Lemma import_entity_types entityFiles locale m fileInformation m' :
  (forall k t, In (k, t) (types_of m) -> imported_type t) ->
  import_entity entityFiles locale m fileInformation = Ok m' ->
  forall k t, In (k, t) (types_of m') -> imported_type t.
Proof.
  intros Hm. unfold import_entity.
  destruct (nth_error (path fileInformation) 1) as [name|]; [|discriminate].
  destruct (includes name (str "entries")).
  { intros [= <-]. exact Hm. }
  intros H. bind_inv H. bind_inv H.
  destruct (entityTypes m) as [l|] eqn:El; [|discriminate].
  injection H as <-. intros k t. unfold types_of. simpl. intros Hin.
  apply obj_set_In in Hin. destruct Hin as [-> | Hin].
  2:{ apply (Hm k). unfold types_of. rewrite El. exact Hin. }
  exists a0. split; [reflexivity|].
  destruct (find_file entityFiles _).
  - bind_inv E0.
    eapply (foldM_invariant (Forall (fun v => exists r, v = ValueObject r)));
      [|constructor|exact E0].
    intros s x s'. apply import_entry_object.
  - injection E0 as <-. constructor.
Qed.

(** X3: every entity type of a model the importer returns has a value
    list (possibly empty), and every value of it is in object form, never
    a plain string. *)
Theorem imported_types_shape inputData locale m :
  toJovoModel inputData locale = Ok m ->
  forall k t, In (k, t) (types_of m) -> imported_type t.
Proof.
  unfold toJovoModel. intros H. bind_inv H.
  assert (T : entityTypes a = Some []).
  { eapply (foldM_invariant (fun m => entityTypes m = Some [])); [| |exact E].
    - intros s f s' Hs Hf. apply import_intent_types in Hf. congruence.
    - reflexivity. }
  eapply (foldM_invariant (fun m => forall k t, In (k, t) (types_of m) -> imported_type t));
    [| |exact H].
  - intros s f s'. apply import_entity_types.
  - unfold types_of. rewrite T. intros k t [].
Qed.

Lemma imported_types_shape_witness :
  exists m t,
    toJovoModel [city_file; city_synonyms_file] (str "en") = Ok m
    /\ In (str "city", t) (types_of m)
    /\ imported_type t.
Proof.
  assert (E : exists m, toJovoModel [city_file; city_synonyms_file] (str "en") = Ok m)
    by (eexists; vm_compute; reflexivity).
  destruct E as [m E].
  assert (G : exists t, In (str "city", t) (types_of m)).
  { revert E. vm_compute. intros [= <-]. eexists. left. reflexivity. }
  destruct G as [t G]. exists m, t. split; [exact E|]. split; [exact G|].
  exact (@imported_types_shape [city_file; city_synonyms_file] (str "en") m E
           (str "city") t G).
Defined.

(** ** Default suppression *)



Lemma get_first_response o r0 rest y :
  lookup (str "responses") o = Some (VArr (VObj r0 :: rest)) ->
  lodash_get (VObj o) [str "responses"; str "0"; y]
  = match lookup y r0 with Some z => z | None => VUndef end.
Proof.
  intros H. cbn [lodash_get own]. rewrite H. reflexivity.
Qed.

Lemma get_no_response o y :
  lookup (str "responses") o = None ->
  lodash_get (VObj o) [str "responses"; str "0"; y] = VUndef.
Proof.
  intros H. cbn [lodash_get own]. rewrite H. reflexivity.
Qed.

Lemma set_first_response d x v :
  shaped d ->
  lodash_isIndex x = false ->
  exists o r0 rest,
    set_under d [str "responses"; str "0"; x] v
    = VObj (obj_set (str "responses") (VArr (VObj (obj_set x v r0) :: rest)) o)
    /\ (forall f, lodash_get d [f] = match lookup f o with Some z => z | None => VUndef end)
    /\ (forall y, lodash_get d [str "responses"; str "0"; y]
                  = match lookup y r0 with Some z => z | None => VUndef end).
Proof.
  intros [->|(o & -> & [N|(r0 & rest & S)])] Hx.
  - exists [], [], []. unfold set_under.
    cbn [isObject set_in own lookup assign]. rewrite Hx.
    cbn [isObject set_in own lookup assign]. repeat split.
  - exists o, [], []. unfold set_under.
    cbn [isObject set_in own assign]. rewrite N.
    cbn [isObject set_in own lookup assign]. rewrite Hx.
    cbn [isObject set_in own lookup assign]. split; [reflexivity|].
    split; [reflexivity|]. intros y. apply (@get_no_response o y N).
  - exists o, r0, rest. unfold set_under.
    cbn [isObject set_in own assign]. rewrite S.
    cbn [isObject set_in own lookup assign]. split; [reflexivity|].
    split; [reflexivity|]. intros y. apply (@get_first_response o r0 rest y S).
Qed.

Lemma set_intent_first field v j :
  shaped (intent_dialogflow j) ->
  lodash_isIndex (str field) = false ->
  shaped (intent_dialogflow (set_intent (first_response field) v j))
  /\ (forall f, str_eqb f (str "responses") = false ->
        lodash_get (intent_dialogflow (set_intent (first_response field) v j)) [f]
        = lodash_get (intent_dialogflow j) [f])
  /\ (forall y,
        lodash_get (intent_dialogflow (set_intent (first_response field) v j))
          [str "responses"; str "0"; y]
        = if str_eqb y (str field) then v
          else lodash_get (intent_dialogflow j) [str "responses"; str "0"; y]).
Proof.
  intros Hs Hx.
  destruct (@set_first_response (intent_dialogflow j) (str field) v Hs Hx)
    as (o & r0 & rest & E & F & G).
  unfold set_intent, first_response. cbn [intent_dialogflow with_intent_dialogflow].
  rewrite E.
  assert (L : lookup (str "responses")
                (obj_set (str "responses") (VArr (VObj (obj_set (str field) v r0) :: rest)) o)
              = Some (VArr (VObj (obj_set (str field) v r0) :: rest))).
  { rewrite lookup_obj_set, str_eqb_refl. reflexivity. }
  split; [|split].
  - right. eexists. split; [reflexivity|]. right. eexists. eexists. exact L.
  - intros f Hf. rewrite F. cbn [lodash_get own]. rewrite lookup_obj_set, Hf. reflexivity.
  - intros y. rewrite (@get_first_response _ _ _ y L), lookup_obj_set, G.
    destruct (str_eqb y (str field)); reflexivity.
Qed.

Lemma skip_response_first field d j :
  shaped (intent_dialogflow j) ->
  lodash_isIndex (str field) = false ->
  shaped (intent_dialogflow (skip_response field d j))
  /\ (forall f, str_eqb f (str "responses") = false ->
        lodash_get (intent_dialogflow (skip_response field d j)) [f]
        = lodash_get (intent_dialogflow j) [f])
  /\ (forall y, str_eqb y (str field) = false ->
        lodash_get (intent_dialogflow (skip_response field d j))
          [str "responses"; str "0"; y]
        = lodash_get (intent_dialogflow j) [str "responses"; str "0"; y]).
Proof.
  intros Hs Hx. unfold skip_response. cbv zeta. destruct (_ && _).
  - destruct (@set_intent_first field (lodash_get d (first_response field)) j Hs Hx)
      as (A & B & C).
    split; [exact A|]. split; [exact B|]. intros y Hy. rewrite C, Hy. reflexivity.
  - repeat split; assumption.
Qed.

Lemma skip_message_first locale j message j' :
  shaped (intent_dialogflow j) ->
  skip_message locale j message = Ok j' ->
  shaped (intent_dialogflow j')
  /\ (forall f, str_eqb f (str "responses") = false ->
        lodash_get (intent_dialogflow j') [f] = lodash_get (intent_dialogflow j) [f])
  /\ (forall cur,
        lodash_get (intent_dialogflow j) (first_response "messages") = pushed_list cur ->
        lodash_get (intent_dialogflow j') (first_response "messages")
        = pushed_list (cur ++ (if kept_message locale message then [message] else []))).
Proof.
  intros Hs. unfold skip_message, kept_message.
  destruct (strict_eq (lodash_get message [str "lang"]) (VStr locale)).
  2:{ intros [= <-]. split; [exact Hs|]. split; [reflexivity|].
      intros cur Hc. rewrite app_nil_r. exact Hc. }
  intros H. bind_inv H.
  assert (La : a = own (lodash_get_default message [str "speech"] (VStr [])) (str "length")).
  { revert E. unfold member.
    destruct (lodash_get_default message [str "speech"] (VStr [])); congruence. }
  subst a. cbn [andb].
  destruct (gt_zero _).
  2:{ injection H as <-. split; [exact Hs|]. split; [reflexivity|].
      intros cur Hc. rewrite app_nil_r. exact Hc. }
  bind_inv H. injection H as <-.
  destruct (@set_intent_first "messages" a j Hs eq_refl) as (A & B & C).
  split; [exact A|]. split; [exact B|].
  intros cur Hc. pose proof (C (str "messages")) as C1.
  change [str "responses"; str "0"; str "messages"] with (first_response "messages") in C1.
  rewrite C1, str_eqb_refl.
  revert E0. unfold lodash_get_default. rewrite Hc. unfold push, pushed_list.
  destruct cur as [|c cur]; intros [= <-]; reflexivity.
Qed.

Lemma skip_messages_first locale messages : forall j j',
  shaped (intent_dialogflow j) ->
  foldM (skip_message locale) messages j = Ok j' ->
  shaped (intent_dialogflow j')
  /\ (forall f, str_eqb f (str "responses") = false ->
        lodash_get (intent_dialogflow j') [f] = lodash_get (intent_dialogflow j) [f])
  /\ (forall cur,
        lodash_get (intent_dialogflow j) (first_response "messages") = pushed_list cur ->
        lodash_get (intent_dialogflow j') (first_response "messages")
        = pushed_list (cur ++ filter (kept_message locale) messages)).
Proof.
  induction messages as [|m ms IH]; intros j j' Hs; cbn [foldM].
  - intros [= <-]. split; [exact Hs|]. split; [reflexivity|].
    intros cur Hc. cbn [filter]. rewrite app_nil_r. exact Hc.
  - intros H. bind_inv H.
    destruct (@skip_message_first locale j m a Hs E) as (A & B & C).
    destruct (IH a j' A H) as (A' & B' & C').
    split; [exact A'|]. split.
    + intros f Hf. rewrite (B' f Hf). apply B. exact Hf.
    + intros cur Hc. specialize (C cur Hc). specialize (C' _ C).
      rewrite C'. cbn [filter].
      destruct (kept_message locale m); rewrite <- ?app_assoc, ?app_nil_r; reflexivity.
Qed.

Ltac split_conditions :=
  repeat match goal with
         | |- context [if ?c then _ else _] => destruct c
         end.



(** ** Messages of the locale *)

Lemma isEqual_object_keys o1 o2 :
  isEqual (VObj o1) (VObj o2) = true ->
  forall k, lookup k o1 <> None -> lookup k o2 <> None.
Proof.
  cbn [isEqual]. intros H. apply andb_true_iff in H. destruct H as [_ H].
  revert H. induction o1 as [|[k0 x0] o1 IH]; intros H k Hk; [simpl in Hk; congruence|].
  simpl in Hk. destruct (str_eqb k k0) eqn:E.
  - apply str_eqb_eq in E. subst k0. destruct (lookup k o2); [discriminate|discriminate H].
  - apply IH; [|exact Hk]. destruct (lookup k0 o2); [|discriminate H].
    apply andb_true_iff in H. tauto.
Qed.

Lemma responses_not_default first rest messages :
  own first (str "messages") = VArr messages ->
  isEqual (VArr (first :: rest)) (lodash_get DEFAULT_INTENT [str "responses"]) = false.
Proof.
  intros Hm.
  change (lodash_get DEFAULT_INTENT [str "responses"])
    with (VArr [VObj [ (str "resetContexts", VBool false);
                       (str "affectedContexts", VArr []);
                       (str "parameters", VArr []);
                       (str "defaultResponsePlatforms", VObj []);
                       (str "speech", VArr []) ]]).
  match goal with
  | |- isEqual (VArr (_ :: _)) (VArr [?y]) = false =>
      change (isEqual first y && isEqual (VArr rest) (VArr []) = false);
      destruct (isEqual first y) eqn:Q; [exfalso|reflexivity]
  end.
  destruct first as [| | | | |l|o|]; try discriminate Q.
  apply (isEqual_object_keys _ _ Q (str "messages")); [|reflexivity].
  simpl in Hm. destruct (lookup (str "messages") o); [discriminate|discriminate Hm].
Qed.

Lemma kept_settled locale messages :
  filter (kept_message locale) (List.map settle messages)
  = filter (kept_message locale) messages.
Proof.
  induction messages as [|m ms IH]; [reflexivity|]. cbn [List.map filter].
  rewrite IH. destruct m; reflexivity.
Qed.

(** X6: when the responses of an intent record are an array whose first
    response has a message array, the import records, as the messages of
    the first response in the vendor sub-tree of the intent, the messages
    whose [lang] is the locale and whose [speech] has a positive length,
    in their order, and no message list when there is none. *)
Theorem messages_of_locale jovoIntent dialogFlowIntent locale imported first rest messages :
  intent_dialogflow jovoIntent = VUndef ->
  lodash_get dialogFlowIntent [str "responses"] = VArr (first :: rest) ->
  own first (str "messages") = VArr messages ->
  skipDefaultIntentProps jovoIntent dialogFlowIntent locale = Ok imported ->
  lodash_get (intent_dialogflow imported) (first_response "messages")
  = pushed_list (filter (kept_message locale) messages).
Proof.
  intros Hd Hr Hm H.
  destruct jovoIntent as [ph en df]. simpl in Hd. subst df.
  assert (G : lodash_get dialogFlowIntent (first_response "messages") = VArr messages).
  { assert (O : own dialogFlowIntent (str "responses") = VArr (first :: rest)
                /\ lodash_get dialogFlowIntent (first_response "messages")
                   = lodash_get (own dialogFlowIntent (str "responses"))
                       [str "0"; str "messages"]).
    { destruct dialogFlowIntent; try discriminate Hr; split; first [exact Hr|reflexivity]. }
    destruct O as [O1 O2]. rewrite O2, O1.
    change (lodash_get (VArr (first :: rest)) [str "0"; str "messages"])
      with (lodash_get (settle first) [str "messages"]).
    destruct first; try discriminate Hm; exact Hm. }
  revert H. unfold skipDefaultIntentProps. cbv zeta. intros H.
  match type of H with
  | (if _ then Ok ?x else _) = _ =>
      assert (F7 : intent_dialogflow x = VUndef
                   \/ exists o, intent_dialogflow x = VObj o
                                /\ lookup (str "responses") o = None);
      [|set (j7 := x) in *; clearbody j7]
  end.
  { unfold skip_defined. cbv zeta. split_conditions;
      first [left; reflexivity | right; eexists; split; reflexivity]. }
  assert (S7 : shaped (intent_dialogflow j7)).
  { destruct F7 as [F|(o & F & N)]; [left; exact F|].
    right. exists o. split; [exact F|left; exact N]. }
  assert (M7 : lodash_get (intent_dialogflow j7) (first_response "messages") = VUndef).
  { destruct F7 as [F|(o & F & N)]; rewrite F; [reflexivity|].
    apply (@get_no_response o (str "messages") N). }
  clear F7. rewrite Hr, G in H.
  change (strict_eq (VArr (first :: rest)) VUndef) with false in H. cbv iota in H.
  change (member (VArr (first :: rest)) (str "length"))
    with (Ok (VNum (Z.of_nat (List.length (first :: rest))))) in H.
  cbn [bind] in H.
  change (strict_eq (VNum (Z.of_nat (List.length (first :: rest)))) (VNum 0))
    with false in H.
  rewrite (responses_not_default first rest Hm) in H. cbn [negb andb] in H.
  change (lodash_get DEFAULT_INTENT (first_response "messages")) with VUndef in H.
  change (isEqual (VArr messages) VUndef) with false in H.
  cbn [negb iterate bind] in H. bind_inv H. injection H as <-.
  destruct (@skip_response_first "resetContexts" dialogFlowIntent j7 S7 eq_refl)
    as (S8 & _ & M8).
  destruct (@skip_response_first "affectedContexts" dialogFlowIntent _ S8 eq_refl)
    as (S9 & _ & M9).
  destruct (@skip_response_first "defaultResponsePlatforms" dialogFlowIntent _ S9 eq_refl)
    as (S10 & _ & M10).
  destruct (@skip_messages_first locale (List.map settle messages) _ a S10 E)
    as (S11 & _ & M11).
  destruct (@skip_response_first "speech" dialogFlowIntent a S11 eq_refl) as (_ & _ & M12).
  unfold first_response at 1. rewrite (M12 (str "messages") eq_refl).
  rewrite <- (kept_settled locale messages).
  apply (M11 []). unfold first_response.
  rewrite (M10 (str "messages") eq_refl), (M9 (str "messages") eq_refl),
    (M8 (str "messages") eq_refl).
  exact M7.
Qed.

Lemma messages_of_locale_witness :
  exists imported,
    skipDefaultIntentProps
      {| phrases := Some []; entities := None; intent_dialogflow := VUndef |}
      spoken_intent (str "en") = Ok imported
    /\ lodash_get (intent_dialogflow imported) (first_response "messages")
       = VArr [english_message].
Proof.
  assert (E : exists imported,
             skipDefaultIntentProps
               {| phrases := Some []; entities := None; intent_dialogflow := VUndef |}
               spoken_intent (str "en") = Ok imported)
    by (eexists; vm_compute; reflexivity).
  destruct E as [imported E]. exists imported. split; [exact E|].
  rewrite (@messages_of_locale
             {| phrases := Some []; entities := None; intent_dialogflow := VUndef |}
             spoken_intent (str "en") imported
             (VObj [(str "messages", VArr spoken_messages)]) [] spoken_messages
             eq_refl eq_refl eq_refl E).
  reflexivity.
Defined.

(** ** Fallback and greeting intents in the vendor list *)

Lemma set_member_record target key v w :
  set_member target key v = Ok w ->
  exists o, target = VObj o /\ w = VObj (obj_set key v o).
Proof.
  unfold set_member. destruct target; try discriminate.
  intros [= <-]. eexists. split; reflexivity.
Qed.

Lemma member_ok v k x : member v k = Ok x -> x = own v k.
Proof. unfold member. destruct v; congruence. Qed.

(** X7: the import of an intent file that is not a sample file and whose
    [fallbackIntent] is strictly [true] leaves the intents of the model
    alone and makes the vendor list hold its record alone; the import of
    such a file whose first event is named [WELCOME], and that is no
    fallback intent, leaves the intents alone and appends its record to the
    vendor list.  The record is the vendor sub-tree of the intent with the
    name of the intent added. *)
Theorem special_intents_routed intentFiles locale M fileInformation M' name :
  nth_error (path fileInformation) 1 = Some name ->
  includes name (str "usersays") = false ->
  (dialogflow M = VUndef \/ exists o, dialogflow M = VObj o) ->
  import_intent intentFiles locale M fileInformation = Ok M' ->
  (strict_eq (own (content fileInformation) (str "fallbackIntent")) (VBool true) = true ->
   intents M' = intents M
   /\ exists w, routed_record locale (content fileInformation) w
                /\ lodash_get (dialogflow M') [str "intents"] = VArr [w])
  /\ (strict_eq (own (content fileInformation) (str "fallbackIntent")) (VBool true) = false ->
      strict_eq (lodash_get (content fileInformation) [str "events"; str "0"; str "name"])
        (VStr (str "WELCOME")) = true ->
      intents M' = intents M
      /\ exists w, routed_record locale (content fileInformation) w
                   /\ lodash_get (dialogflow M') [str "intents"]
                      = VArr (listed_intents (dialogflow M) ++ [w])).
Proof.
  intros Hn Hu Hd. unfold import_intent. rewrite Hn, Hu. intros H.
  bind_inv H. bind_inv H. bind_inv H.
  apply member_ok in E0, E1. subst a0 a1.
  assert (G : forall d v, (d = VUndef \/ exists o, d = VObj o) ->
                lodash_get (set_under d [str "intents"] v) [str "intents"] = v).
  { intros d v [->|[o ->]]; [reflexivity|].
    unfold set_under. cbn [isObject set_in assign lodash_get own].
    rewrite lookup_obj_set, str_eqb_refl. reflexivity. }
  split.
  - intros F. rewrite F in H. bind_inv H. injection H as <-.
    split; [reflexivity|].
    apply set_member_record in E0. destruct E0 as (o & Ho & ->).
    eexists. split; [exists a, o; repeat split; assumption|].
    cbn [dialogflow with_dialogflow]. apply G. exact Hd.
  - intros F W. rewrite F, W in H. bind_inv H.
    apply set_member_record in E0. destruct E0 as (o & Ho & ->).
    destruct (negb (truthy (lodash_get (dialogflow M) [str "intents"]))) eqn:T.
    + injection H as <-. split; [reflexivity|].
      eexists. split; [exists a, o; repeat split; assumption|].
      cbn [dialogflow with_dialogflow]. rewrite (G _ _ Hd). unfold listed_intents.
      destruct (lodash_get (dialogflow M) [str "intents"]); try discriminate T; reflexivity.
    + bind_inv H. injection H as <-. split; [reflexivity|].
      eexists. split; [exists a, o; repeat split; assumption|].
      cbn [dialogflow with_dialogflow]. unfold listed_intents.
      destruct Hd as [Hd|[o' Hd]]; [rewrite Hd in T; discriminate T|].
      rewrite Hd in E0 |- *.
      change (lodash_get (VObj o') [str "intents"]) with (own (VObj o') (str "intents")).
      unfold push in E0.
      destruct (own (VObj o') (str "intents")) eqn:L; try discriminate E0.
      injection E0 as <-.
      change (lodash_get (assign (VObj o') (str "intents") (VArr (items ++ [VObj
                (obj_set (str "name") (own (content fileInformation) (str "name")) o)])))
                [str "intents"])
        with (match lookup (str "intents")
                      (obj_set (str "intents")
                         (VArr (items ++ [VObj
                            (obj_set (str "name")
                               (own (content fileInformation) (str "name")) o)])) o')
              with Some x => x | None => VUndef end).
      rewrite lookup_obj_set, str_eqb_refl. reflexivity.
Qed.

Lemma special_intents_routed_witness :
  exists M M' w,
    import_intent [welcome_file; welcome_file] (str "en") M welcome_file = Ok M'
    /\ lodash_get (dialogflow M) [str "intents"] = VArr [w]
    /\ lodash_get (dialogflow M') [str "intents"] = VArr [w; w].
Proof.
  assert (E : exists M, toJovoModel [welcome_file] (str "en") = Ok M)
    by (eexists; vm_compute; reflexivity).
  destruct E as [M E].
  assert (D : exists w, dialogflow M = VObj [(str "intents", VArr [w])]).
  { revert E. vm_compute. intros [= <-]. eexists. reflexivity. }
  destruct D as [w D].
  assert (E' : exists M', import_intent [welcome_file; welcome_file] (str "en") M welcome_file
                          = Ok M').
  { revert E. vm_compute. intros [= <-]. eexists. reflexivity. }
  destruct E' as [M' E'].
  exists M, M', w. split; [exact E'|]. split; [rewrite D; reflexivity|].
  destruct (@special_intents_routed [welcome_file; welcome_file] (str "en") M welcome_file M'
              (str "Default Welcome Intent.json") eq_refl eq_refl
              (or_intror (ex_intro _ _ D)) E') as [_ R].
  destruct (R eq_refl eq_refl) as (_ & w' & (j & o & Hj & Ho & Hw) & L).
  rewrite L. unfold listed_intents. rewrite D.
  revert Hj. vm_compute. intros [= <-]. revert Ho. vm_compute. intros [= <-].
  subst w'. revert D E. vm_compute. intros D [= E]. rewrite <- E in D.
  injection D as <-. reflexivity.
Defined.

Lemma import_intent_vendor_list intentFiles locale m fileInformation m' :
  vendor_list (dialogflow m) ->
  import_intent intentFiles locale m fileInformation = Ok m' ->
  vendor_list (dialogflow m').
Proof.
  intros Hm. unfold import_intent.
  destruct (nth_error (path fileInformation) 1) as [name|]; [|discriminate].
  destruct (includes name (str "usersays")).
  { intros [= <-]. exact Hm. }
  intros H. bind_inv H. bind_inv H. bind_inv H.
  assert (R : forall target w,
             set_member target (str "name") a1 = Ok w -> vendor_record w).
  { intros target w Hw. apply set_member_record in Hw. destruct Hw as (o & _ & ->).
    eexists. split; [reflexivity|]. rewrite lookup_obj_set, str_eqb_refl. discriminate. }
  destruct (strict_eq a0 (VBool true)).
  { bind_inv H. injection H as <-. apply R in E2. right. exists [a2].
    split; [|split; [discriminate|constructor; [exact E2|constructor]]].
    cbn [dialogflow with_dialogflow].
    destruct Hm as [->|(l & -> & _)]; reflexivity. }
  destruct (strict_eq _ (VStr (str "WELCOME"))).
  { bind_inv H. apply R in E2.
    destruct Hm as [Hm|(l & Hm & Hl & Hr)]; rewrite Hm in H.
    - cbn [lodash_get truthy negb] in H. injection H as <-.
      right. exists [a2].
      split; [reflexivity|split; [discriminate|constructor; [exact E2|constructor]]].
    - change (lodash_get (VObj [(str "intents", VArr l)]) [str "intents"])
        with (VArr l) in H.
      change (own (VObj [(str "intents", VArr l)]) (str "intents")) with (VArr l) in H.
      cbn [truthy negb push bind] in H. injection H as <-.
      right. exists (l ++ [a2]). split; [reflexivity|]. split.
      + destruct l; discriminate.
      + apply Forall_app. split; [exact Hr|constructor; [exact E2|constructor]]. }
  bind_inv H. bind_inv H.
  destruct (intents m) as [l|]; [|discriminate].
  injection H as <-. exact Hm.
Qed.

Lemma import_entity_vendor entityFiles locale m fileInformation m' :
  import_entity entityFiles locale m fileInformation = Ok m' ->
  dialogflow m' = dialogflow m.
Proof.
  unfold import_entity.
  destruct (nth_error (path fileInformation) 1) as [name|]; [|discriminate].
  destruct (includes name (str "entries")).
  { intros [= <-]. reflexivity. }
  intros H. bind_inv H. bind_inv H.
  destruct (entityTypes m) as [l|]; [|discriminate].
  injection H as <-. reflexivity.
Qed.

(** X8: the vendor sub-tree of a model the importer returns is absent,
    or an object whose only property is [intents], a list that is not
    empty and holds objects with a [name] property. *)
Theorem imported_vendor_list inputData locale m :
  toJovoModel inputData locale = Ok m -> vendor_list (dialogflow m).
Proof.
  unfold toJovoModel. intros H. bind_inv H.
  assert (A : vendor_list (dialogflow a)).
  { eapply (foldM_invariant (fun m => vendor_list (dialogflow m))); [| |exact E].
    - intros s f s'. apply import_intent_vendor_list.
    - left. reflexivity. }
  assert (D : dialogflow m = dialogflow a).
  { eapply (foldM_invariant (fun m => dialogflow m = dialogflow a)); [| |exact H].
    - intros s f s' Hs Hf. apply import_entity_vendor in Hf. congruence.
    - reflexivity. }
  rewrite D. exact A.
Qed.

Lemma imported_vendor_list_witness :
  exists m,
    toJovoModel [welcome_file; fallback_file] (str "en") = Ok m
    /\ vendor_list (dialogflow m).
Proof.
  assert (E : exists m, toJovoModel [welcome_file; fallback_file] (str "en") = Ok m)
    by (eexists; vm_compute; reflexivity).
  destruct E as [m E]. exists m. split; [exact E|].
  exact (@imported_vendor_list [welcome_file; fallback_file] (str "en") m E).
Defined.

(** ** What a successful export requires *)

Lemma for_each_ok_each {A S} (I : JovoModelData -> Prop) (body : S -> A -> Export S) :
  (forall st a, preserves I (body st a)) ->
  forall l st s r s',
    I (held s) ->
    for_each body l st s = (Ok r, s') ->
    Forall (fun a => exists st0 s0 r0 s1, I (held s0) /\ body st0 a s0 = (Ok r0, s1)) l.
Proof.
  intros Hb. induction l as [|a l IH]; intros st s r s' Hs; cbn [for_each].
  - intros _. constructor.
  - unfold and_then. destruct (body st a s) as [[r0|e] s1] eqn:B; [|discriminate].
    intros H. constructor.
    + exists st, s, r0, s1. split; [exact Hs|exact B].
    + apply (IH r0 s1 r s'); [|exact H].
      pose proof (Hb st a s Hs) as P. rewrite B in P. exact P.
Qed.

Lemma and_then_ok {A B} (m : Export A) (k : A -> Export B) s r s' :
  and_then m k s = (Ok r, s') ->
  exists a s1, m s = (Ok a, s1) /\ k a s1 = (Ok r, s').
Proof.
  unfold and_then. destruct (m s) as [[a|e] s1]; [|discriminate].
  intros H. exists a, s1. split; [reflexivity|exact H].
Qed.

Lemma export_entity_ok uuidv4 locale intentKey st entityKey entityData s r s' :
  export_entity uuidv4 locale intentKey st (entityKey, entityData) s = (Ok r, s') ->
  exportable (held s) entityData.
Proof.
  unfold export_entity, exportable. destruct st as [parameters returnFiles].
  intros H. apply and_then_ok in H. destruct H as (dataType & s1 & H1 & H).
  apply and_then_ok in H. destruct H as (typed & s2 & H2 & _).
  assert (N : native_name entityData = Some dataType /\ s1 = s).
  { unfold native_name.
    destruct (entity_type entityData) as [[[|c n]|vendors]|]; try discriminate H1.
    - injection H1 as <- <-. split; reflexivity.
    - destruct (lookup (str "dialogflow") vendors) as [[|c n]|]; try discriminate H1.
      injection H1 as <- <-. split; reflexivity. }
  destruct N as [N ->]. exists dataType. split; [exact N|].
  destruct (startsWith dataType BUILTIN_PREFIX); [left; reflexivity|]. cbn [negb] in H2.
  apply and_then_ok in H2. destruct H2 as (m & s3 & H3 & H2).
  injection H3 as <- <-.
  destruct (JovoModelHelper.hasEntityTypes (held s)); cbn [negb] in H2; [|discriminate H2].
  destruct (JovoModelHelper.getEntityTypeByName (held s) dataType) as [t|].
  - right. exists t. reflexivity.
  - destruct (JovoModelHelper.isJovoModelV3 (held s)); discriminate H2.
Qed.

Lemma lookup_type_frame k : forall l0 l (x : EntityType),
  Forall2 type_frame l0 l -> lookup k l = Some x -> exists x0, lookup k l0 = Some x0.
Proof.
  intros l0 l x F. revert x.
  induction F as [|[k0 t0] [k1 t1] l0 l (E & _) F IH]; intros x; simpl; [discriminate|].
  simpl in E. subst k1. destruct (str_eqb k k0); [eauto|apply IH].
Qed.

Lemma exportable_frame m0 m entityData :
  synonyms_frame m0 m -> exportable m entityData -> exportable m0 entityData.
Proof.
  intros (_ & _ & _ & _ & _ & T) (dataType & N & [B|[t R]]).
  - exists dataType. split; [exact N|left; exact B].
  - exists dataType. split; [exact N|right].
    unfold JovoModelHelper.getEntityTypeByName in *. unfold types_frame in T.
    destruct (entityTypes m0) as [l0|], (entityTypes m) as [l|]; try contradiction;
      try discriminate R.
    apply (lookup_type_frame _ T R).
Qed.

(** X9: an export that returns files has resolved the type of every
    entity of every intent: the entity has a non-empty bare type name or a
    non-empty [dialogflow] entry in its vendor-qualified type, and this
    native type starts with [@sys.] or names an entity type of the
    model. *)
Theorem export_needs_resolved_types uuidv4 model locale files :
  fst (fromJovoModel uuidv4 model locale) = Ok files ->
  forall intentKey intentData entityKey entityData,
    In (intentKey, intentData) (JovoModelHelper.getIntents model) ->
    JovoModelHelper.hasEntities model intentKey = true ->
    In (entityKey, entityData) (JovoModelHelper.getEntities model intentKey) ->
    exportable model entityData.
Proof.
  intros H intentKey intentData entityKey entityData Hi Hh He.
  unfold fromJovoModel in H.
  destruct (export_all uuidv4 locale {| held := model; drawn := 0 |}) as [outcome final] eqn:X.
  cbn [fst] in H. subst outcome.
  unfold export_all in X. apply and_then_ok in X. destruct X as (m & s1 & G & X).
  injection G as <- <-.
  apply and_then_ok in X. destruct X as (returnFiles & s2 & F & _).
  cbn [held] in F.
  assert (I0 : synonyms_frame model (held {| held := model; drawn := 0 |})).
  { repeat split. apply types_frame_refl. }
  pose proof (@for_each_ok_each _ _ (synonyms_frame model) (export_intent uuidv4 locale)
                (fun st e => @export_intent_frame model uuidv4 locale st e)
                _ _ _ _ _ I0 F) as A.
  rewrite Forall_forall in A.
  destruct (A _ Hi) as (st0 & s0 & r0 & s3 & I1 & B).
  unfold export_intent in B.
  apply and_then_ok in B. destruct B as (id & s4 & U & B).
  injection U as _ <-.
  apply and_then_ok in B. destruct B as (m & s5 & G & B).
  injection G as <- <-. cbn [held] in B.
  apply and_then_ok in B. destruct B as (built & s6 & B & _).
  assert (Q : intents (held s0) = intents model) by (destruct I1 as (_ & _ & _ & Q & _); exact Q).
  assert (Hh' : JovoModelHelper.hasEntities (held s0) intentKey = true).
  { unfold JovoModelHelper.hasEntities, JovoModelHelper.getIntents in *.
    rewrite Q. exact Hh. }
  assert (He' : JovoModelHelper.getEntities (held s0) intentKey
                = JovoModelHelper.getEntities model intentKey).
  { unfold JovoModelHelper.getEntities, JovoModelHelper.getIntents. rewrite Q. reflexivity. }
  rewrite Hh', He' in B.
  apply and_then_ok in B. destruct B as (filled & s7 & B & _).
  pose proof (@for_each_ok_each _ _ (synonyms_frame model)
                (export_entity uuidv4 locale intentKey)
                (fun st e => @export_entity_frame model uuidv4 locale intentKey st e)
                _ _ {| held := held s0; drawn := S (drawn s0) |} _ _ I1 B) as C.
  rewrite Forall_forall in C.
  destruct (C _ He) as (st1 & s8 & r1 & s9 & I2 & D).
  apply export_entity_ok in D.
  apply (exportable_frame I2 D).
Qed.

Lemma export_needs_resolved_types_witness :
  exists files,
    fst (fromJovoModel sample_ids travel_model (str "en")) = Ok files
    /\ exportable travel_model (plain_entity (TypeName (str "city"))).
Proof.
  assert (E : exists files, fst (fromJovoModel sample_ids travel_model (str "en")) = Ok files)
    by (eexists; vm_compute; reflexivity).
  destruct E as [files E]. exists files. split; [exact E|].
  apply (@export_needs_resolved_types sample_ids travel_model (str "en") files E
           (str "Travel")
           (plain_intent [str "go to {where}"]
              (Some [(str "where", plain_entity (TypeName (str "city")))]))
           (str "where")).
  - left. reflexivity.
  - reflexivity.
  - left. reflexivity.
Defined.

(** ** Markers of a phrase *)

Lemma close_marker_group s group after :
  close_marker s = Some (group, after) ->
  Forall (fun c => c <> 125%N /\ is_line_terminator c = false) group.
Proof.
  revert group after. induction s as [|c s IH]; intros group after; simpl; [discriminate|].
  destruct (c =? 125)%N eqn:Ec.
  - intros [= <- <-]. constructor.
  - destruct (is_line_terminator c) eqn:El; [discriminate|].
    destruct (close_marker s) as [[g a]|]; [|discriminate].
    intros [= <- <-]. constructor; [|apply (IH g a eq_refl)].
    split; [|exact El]. apply N.eqb_neq. exact Ec.
Qed.

Lemma close_marker_prefix t u : close_marker (t ++ u) = None -> close_marker t = None.
Proof.
  induction t as [|c t IH]; simpl; [reflexivity|].
  destruct (c =? 125)%N; [discriminate|].
  destruct (is_line_terminator c); [reflexivity|].
  destruct (close_marker (t ++ u)) as [[g a]|]; [discriminate|].
  intros _. rewrite IH; reflexivity.
Qed.

Lemma exec_marker_cut s text group after :
  exec_marker s = Some (text, group, after) ->
  exec_marker text = None
  /\ Forall (fun c => c <> 125%N /\ is_line_terminator c = false) group.
Proof.
  revert text group after. induction s as [|c s IH]; intros text group after; simpl;
    [discriminate|].
  assert (later : (c =? 123)%N = false \/ close_marker s = None ->
                  match exec_marker s with
                  | Some (t, g, a) => Some (c :: t, g, a)
                  | None => None
                  end = Some (text, group, after) ->
                  exec_marker text = None
                  /\ Forall (fun c => c <> 125%N /\ is_line_terminator c = false) group).
  { intros Hc. destruct (exec_marker s) as [[[t g] a]|] eqn:E; [|discriminate].
    intros [= <- <- <-]. destruct (IH t g a eq_refl) as [A B]. split; [|exact B].
    simpl. rewrite A. destruct Hc as [Hc|Hc]; [rewrite Hc; reflexivity|].
    destruct (c =? 123)%N; [|reflexivity].
    pose proof (exec_marker_split _ E) as S. rewrite S in Hc.
    rewrite (close_marker_prefix _ _ Hc). reflexivity. }
  destruct (c =? 123)%N eqn:Ec; [|apply later; left; reflexivity].
  destruct (close_marker s) as [[g a]|] eqn:E; [|apply later; right; reflexivity].
  intros [= <- <- <-]. split; [reflexivity|]. apply (close_marker_group _ E).
Qed.

Lemma scan_well_cut rest : Forall well_cut (scan rest).
Proof.
  funelim (scan rest).
  - destruct (exec_marker_cut _ found) as [A B].
    apply Forall_app. split.
    + destruct text; simpl; constructor; [exact A|constructor].
    + constructor; [exact B|assumption].
  - destruct rest; simpl; constructor; [assumption|constructor].
Qed.

(** X10: the placeholders of the segments of a phrase are the successive
    matches of the marker expression, in order: none for a phrase without
    match, and otherwise the group of the first match followed by the
    placeholders of the text after that match.  The name of a placeholder
    holds no closing brace and no line terminator (a marker ends at the
    first closing brace and does not span lines), and a literal text holds
    no marker. *)
Theorem tokenize_well_cut :
  (forall phrase, Forall well_cut (tokenize phrase))
  /\ (forall phrase, exec_marker phrase = None -> markers_of (tokenize phrase) = [])
  /\ (forall phrase text entity after,
         exec_marker phrase = Some (text, entity, after) ->
         markers_of (tokenize phrase) = entity :: markers_of (tokenize after)).
Proof.
  split; [|split].
  - intros phrase. unfold tokenize. pose proof (scan_well_cut phrase) as W.
    destruct (scan phrase) as [|s l] eqn:E; [|exact W].
    constructor; [|constructor]. simpl.
    destruct (exec_marker phrase) as [m|] eqn:X; [|reflexivity].
    exfalso. apply (scan_with_marker _ X). exact E.
  - intros phrase H. rewrite (tokenize_at_end _ H). reflexivity.
  - intros phrase text entity after H. rewrite (tokenize_at_marker _ H).
    unfold markers_of. rewrite flat_map_app. cbn [flat_map app].
    replace (flat_map _ (literal text)) with (@nil jsstring) by (destruct text; reflexivity).
    cbn [app]. f_equal.
    destruct (exec_marker after) as [m|] eqn:E; [reflexivity|].
    rewrite (tokenize_at_end _ E). destruct after; reflexivity.
Qed.

Lemma tokenize_well_cut_witness :
  Forall well_cut (tokenize (str "{a{b} and {c}"))
  /\ markers_of (tokenize (str "no marker}")) = []
  /\ markers_of (tokenize (str "{a{b} and {c}")) = [str "a{b"; str "c"].
Proof.
  destruct tokenize_well_cut as (A & B & C).
  split; [apply A|]. split; [apply B; reflexivity|].
  rewrite (C (str "{a{b} and {c}") [] (str "a{b") (str " and {c}") eq_refl).
  vm_compute. reflexivity.
Defined.

(** ** Companion files without their record *)

Lemma foldM_unchanged {A S} (body : S -> A -> result S) l s :
  Forall (fun a => body s a = Ok s) l -> foldM body l s = Ok s.
Proof.
  induction 1 as [|a l Ha Hl IH]; simpl; [reflexivity|]. rewrite Ha. exact IH.
Qed.

(** X11: sample files without an intent file and entries files without
    an entity file are skipped: a file set that consists of companion
    files, and of files outside the two directories, imports to the empty
    model of the current version. *)
Theorem companion_files_alone inputData locale :
  Forall (fun f => under "intents" f = true \/ under "entities" f = true -> companion_file f)
    inputData ->
  toJovoModel inputData locale = Ok empty_model.
Proof.
  intros H. unfold toJovoModel. fold empty_model.
  rewrite foldM_unchanged.
  - cbn [bind]. apply foldM_unchanged. apply Forall_forall. intros f Hf.
    apply filter_In in Hf. destruct Hf as [Hin Hu]. rewrite Forall_forall in H.
    destruct (H f Hin (or_intror Hu)) as (name & Hn & _ & He).
    unfold import_entity. rewrite Hn, (He Hu). reflexivity.
  - apply Forall_forall. intros f Hf.
    apply filter_In in Hf. destruct Hf as [Hin Hu]. rewrite Forall_forall in H.
    destruct (H f Hin (or_introl Hu)) as (name & Hn & Hi & _).
    unfold import_intent. rewrite Hn, (Hi Hu). reflexivity.
Qed.

Lemma companion_files_alone_witness :
  toJovoModel [city_entries_file; file "intents" "Order_usersays_en.json" VNull;
               file "agent" "agent.json" VNull] (str "en")
  = Ok empty_model.
Proof.
  apply companion_files_alone.
  apply Forall_cons; [|apply Forall_cons; [|apply Forall_cons; [|apply Forall_nil]]].
  - intros _. exists (str "city_entries_en.json").
    split; [reflexivity|]. split; [discriminate|reflexivity].
  - intros _. exists (str "Order_usersays_en.json").
    split; [reflexivity|]. split; [reflexivity|discriminate].
  - intros [H|H]; discriminate H.
Defined.

(** ** Entries of enumerated entities *)

Lemma member_defined_ok v k : defined v -> member v k = Ok (own v k).
Proof. intros (A & B & C). destruct v; try reflexivity; congruence. Qed.

Lemma defined_dense l : Forall defined l -> List.map settle l = l.
Proof.
  intros H. apply map_settle_dense. revert H. apply Forall_impl.
  intros v (_ & _ & H). exact H.
Qed.

(** X12: for an entity record whose [isEnum] or [isRegexp] is truthy, the
    loop over the entries never reads their synonyms: every entry that is
    not [null] or [undefined] is imported, in order, as a value in object
    form without synonyms. *)
Theorem enumerated_entries_imported dialogFlowEntity entries imported :
  defined dialogFlowEntity ->
  truthy (own dialogFlowEntity (str "isEnum")) = true
  \/ truthy (own dialogFlowEntity (str "isRegexp")) = true ->
  Forall defined entries ->
  foldM (import_entry dialogFlowEntity) entries imported
  = Ok (imported
          ++ List.map
               (fun entry =>
                  ValueObject {| value_of := own entry (str "value"); synonyms := None |})
               entries).
Proof.
  intros Hd He Hf. revert imported.
  induction Hf as [|entry entries Hx Hl IH]; intros imported; cbn [foldM List.map].
  - rewrite app_nil_r. reflexivity.
  - unfold import_entry at 1.
    rewrite (member_defined_ok (str "value") Hx), !(member_defined_ok _ Hd). cbn [bind].
    assert (C : negb (truthy (own dialogFlowEntity (str "isEnum")))
                && negb (truthy (own dialogFlowEntity (str "isRegexp"))) = false).
    { destruct He as [-> | ->]; [reflexivity|apply andb_false_r]. }
    rewrite C. cbn [bind]. rewrite IH, <- app_assoc. reflexivity.
Qed.

Lemma enumerated_entries_imported_witness :
  foldM (import_entry (VObj [(str "name", VStr (str "size")); (str "isEnum", VBool true)]))
    [VObj [(str "value", VStr (str "small"))]; VObj [(str "value", VStr (str "large"))]] []
  = Ok [ValueObject {| value_of := VStr (str "small"); synonyms := None |};
        ValueObject {| value_of := VStr (str "large"); synonyms := None |}].
Proof.
  apply (@enumerated_entries_imported
           (VObj [(str "name", VStr (str "size")); (str "isEnum", VBool true)])
           [VObj [(str "value", VStr (str "small"))]; VObj [(str "value", VStr (str "large"))]]
           []).
  - repeat split; discriminate.
  - left. reflexivity.
  - repeat constructor; discriminate.
Defined.

(** ** Phrases of sample records *)

Lemma import_segment_text phrase J data :
  defined data ->
  exists J',
    import_segment (phrase, J) data = Ok (phrase ++ segment_text data, J')
    /\ phrases J' = phrases J
    /\ intent_dialogflow J' = intent_dialogflow J
    /\ List.map fst (entities_of J') = List.map fst (entities_of J).
Proof.
  intros Hd. unfold import_segment, segment_text.
  rewrite !(member_defined_ok _ Hd). cbn [bind].
  destruct (negb (strict_eq (own data (str "text")) (own data (str "alias")))).
  2:{ exists J. repeat split. }
  unfold entities_of. destruct (entities J) as [declared|] eqn:D.
  2:{ exists J. rewrite D. repeat split. }
  eexists. split; [reflexivity|]. split; [reflexivity|]. split; [reflexivity|].
  cbn [entities with_entities]. rewrite map_map. apply map_ext.
  intros [k e]. destruct (strict_eq (VStr k) (own data (str "alias"))); reflexivity.
Qed.

Lemma import_segments_text segments : forall phrase J,
  Forall defined segments ->
  exists J',
    foldM import_segment segments (phrase, J)
    = Ok (phrase ++ List.concat (List.map segment_text segments), J')
    /\ phrases J' = phrases J
    /\ intent_dialogflow J' = intent_dialogflow J
    /\ List.map fst (entities_of J') = List.map fst (entities_of J).
Proof.
  induction segments as [|d ds IH]; intros phrase J H.
  - exists J. simpl. rewrite app_nil_r. repeat split.
  - inversion H as [|x l Hx Hl]; subst.
    destruct (@import_segment_text phrase J d Hx) as (J1 & E1 & P1 & D1 & K1).
    destruct (IH (phrase ++ segment_text d) J1 Hl) as (J2 & E2 & P2 & D2 & K2).
    exists J2. cbn [foldM]. rewrite E1. cbn [bind].
    split; [|repeat split; congruence].
    unfold jsstring in *. rewrite E2. simpl. rewrite <- app_assoc. reflexivity.
Qed.

(** X13: a sample record whose [data] is an array of segments, none
    [null], [undefined] or missing, adds one phrase to the intent: the
    concatenation, in order, of the alias in braces for a segment with a
    truthy alias and of the text for any other.  The vendor sub-tree and
    the names of the entities of the intent stay as they were. *)
Theorem sample_phrase_assembled jovoIntent us data l :
  own us (str "data") = VArr data ->
  Forall defined data ->
  phrases jovoIntent = Some l ->
  exists imported,
    import_sample jovoIntent us = Ok imported
    /\ phrases imported = Some (l ++ [List.concat (List.map segment_text data)])
    /\ intent_dialogflow imported = intent_dialogflow jovoIntent
    /\ List.map fst (entities_of imported) = List.map fst (entities_of jovoIntent).
Proof.
  intros Hu Hd Hp. unfold import_sample.
  rewrite (@member_defined us (str "data") (VArr data) Hu) by discriminate.
  cbn [bind iterate]. rewrite (defined_dense Hd).
  destruct (@import_segments_text data [] jovoIntent Hd) as (J & E & P & D & K).
  unfold jsstring in *. rewrite E. cbn [bind app]. rewrite P, Hp.
  eexists. split; [reflexivity|]. repeat split; assumption.
Qed.

Lemma sample_phrase_assembled_witness :
  exists imported,
    import_sample (plain_intent [] None)
      (VObj [(str "data",
              VArr [VObj [(str "text", VStr (str "fly to "))];
                    VObj [(str "text", VStr (str "Rome")); (str "alias", VStr (str "city"))]])])
    = Ok imported
    /\ phrases imported = Some [str "fly to {city}"].
Proof.
  destruct (@sample_phrase_assembled (plain_intent [] None)
              (VObj [(str "data",
                      VArr [VObj [(str "text", VStr (str "fly to "))];
                            VObj [(str "text", VStr (str "Rome"));
                                  (str "alias", VStr (str "city"))]])])
              [VObj [(str "text", VStr (str "fly to "))];
               VObj [(str "text", VStr (str "Rome")); (str "alias", VStr (str "city"))]]
              [] eq_refl)
    as (imported & E & P & _).
  - repeat constructor; discriminate.
  - reflexivity.
  - exists imported. split; [exact E|exact P].
Defined.

(** ** The files an export returns *)

Lemma for_each_result {A S} (P : S -> Prop) (body : S -> A -> Export S) :
  (forall st a s st' s', P st -> body st a s = (Ok st', s') -> P st') ->
  forall l st s r s', P st -> for_each body l st s = (Ok r, s') -> P r.
Proof.
  intros Hb. induction l as [|a l IH]; intros st s r s' Hs; cbn [for_each].
  - intros [= <- _]. exact Hs.
  - intros H. apply and_then_ok in H. destruct H as (st1 & s1 & B & H).
    apply (IH st1 s1 r s'); [|exact H]. eapply Hb; eassumption.
Qed.

Lemma export_entity_type_located uuidv4 locale name t s files s' :
  export_entity_type uuidv4 locale name t s = (Ok files, s') -> Forall located files.
Proof.
  unfold export_entity_type. intros H.
  apply and_then_ok in H. destruct H as (id & s1 & _ & H).
  assert (D : forall content, located {| path := [str "entities"; name ++ str ".json"];
                                          content := content |}).
  { intros c. eexists. eexists. split; [reflexivity|right; reflexivity]. }
  destruct (values t) as [[|v vs]|].
  - injection H as <- _. constructor; [apply D|constructor].
  - destruct (export_values _ (v :: vs)) as [mutated outcome].
    apply and_then_ok in H. destruct H as (m & s2 & _ & H).
    apply and_then_ok in H. destruct H as (u & s3 & _ & H).
    apply and_then_ok in H. destruct H as (entityValues & s4 & _ & H).
    injection H as <- _. constructor; [apply D|]. constructor; [|constructor].
    eexists. eexists. split; [reflexivity|right; reflexivity].
  - injection H as <- _. constructor; [apply D|constructor].
Qed.

Lemma export_entity_located uuidv4 locale intentKey st entry s st' s' :
  Forall located (snd st) ->
  export_entity uuidv4 locale intentKey st entry s = (Ok st', s') ->
  Forall located (snd st').
Proof.
  destruct st as [parameters returnFiles], entry as [entityKey entityData].
  cbn [snd]. intros Hf. unfold export_entity. intros H.
  apply and_then_ok in H. destruct H as (dataType & s1 & _ & H).
  apply and_then_ok in H. destruct H as (typed & s2 & T & H).
  injection H as <- _. cbn [snd]. apply Forall_app. split; [exact Hf|].
  destruct (negb (startsWith dataType BUILTIN_PREFIX)).
  2:{ injection T as <- _. constructor. }
  apply and_then_ok in T. destruct T as (m & s3 & _ & T).
  destruct (negb (JovoModelHelper.hasEntityTypes m)); [discriminate T|].
  destruct (JovoModelHelper.getEntityTypeByName m dataType) as [t|].
  - apply and_then_ok in T. destruct T as (files & s4 & T & R).
    injection R as <- _. cbn [snd]. apply (export_entity_type_located _ _ _ _ _ T).
  - destruct (JovoModelHelper.isJovoModelV3 m); discriminate T.
Qed.

Lemma export_intent_located uuidv4 locale returnFiles entry s files s' :
  Forall located returnFiles ->
  export_intent uuidv4 locale returnFiles entry s = (Ok files, s') ->
  Forall located files.
Proof.
  destruct entry as [intentKey intentData]. intros Hf. unfold export_intent. intros H.
  apply and_then_ok in H. destruct H as (id & s1 & _ & H).
  apply and_then_ok in H. destruct H as (m & s2 & _ & H).
  apply and_then_ok in H. destruct H as (built & s3 & B & H).
  apply and_then_ok in H. destruct H as (samples & s4 & _ & H).
  assert (L : Forall located (snd built)).
  { destruct (JovoModelHelper.hasEntities m intentKey).
    - apply and_then_ok in B. destruct B as (filled & s5 & B & R).
      injection R as <- _. cbn [snd].
      apply (@for_each_result _ _ (fun st => Forall located (snd st))
               (export_entity uuidv4 locale intentKey)
               (fun st a s0 st' s0' => @export_entity_located uuidv4 locale intentKey
                                         st a s0 st' s0')
               _ ([], returnFiles) _ _ _ Hf B).
    - injection B as <- _. exact Hf. }
  assert (I : Forall located
                (snd built ++ [ {| path := [str "intents"; intentKey ++ str ".json"];
                                   content :=
                                     if truthy (intent_dialogflow intentData)
                                     then merge (fst built) (intent_dialogflow intentData)
                                     else fst built |} ])).
  { apply Forall_app. split; [exact L|]. constructor; [|constructor].
    eexists. eexists. split; [reflexivity|left; reflexivity]. }
  destruct (0 <? List.length samples)%nat; injection H as <- _; [|exact I].
  apply Forall_app. split; [exact I|]. constructor; [|constructor].
  eexists. eexists. split; [reflexivity|left; reflexivity].
Qed.

Lemma export_records_located dir field suffix locale records :
  dir = str "intents" \/ dir = str "entities" ->
  forall files,
    snd (export_records dir field suffix locale records) = Ok files ->
    Forall located files.
Proof.
  intros Hd. induction records as [|record rest IH]; intros files; cbn [export_records].
  - intros [= <-]. constructor.
  - destruct (member record field) as [extracted|e]; [|discriminate].
    destruct (export_records dir field suffix locale rest) as [rest' [fs|e]];
      cbn [snd bind] in *; [|discriminate].
    intros [= <-]. apply Forall_app. split.
    + destruct (truthy extracted); constructor; [|constructor].
      exists dir. eexists. split; [reflexivity|exact Hd].
    + constructor; [|apply IH; reflexivity].
      exists dir. eexists. split; [reflexivity|exact Hd].
Qed.

Lemma export_vendor_list_located key dir field suffix locale s files s' :
  dir = str "intents" \/ dir = str "entities" ->
  export_vendor_list key dir field suffix locale s = (Ok files, s') ->
  Forall located files.
Proof.
  intros Hd. unfold export_vendor_list. intros H.
  apply and_then_ok in H. destruct H as (m & s1 & _ & H).
  destruct (truthy (lodash_get (dialogflow m) [key])); [|injection H as <- _; constructor].
  destruct (lodash_get (dialogflow m) [key]) as [| | | | |records|o|].
  1-5,7,8: apply and_then_ok in H; destruct H as (records & s2 & _ & H);
    unfold lift in H; injection H as H _;
    apply (@export_records_located dir field suffix locale records Hd files H).
  pose proof (@export_records_located dir field suffix locale records Hd) as R.
  destruct (export_records dir field suffix locale records) as [records' outcome].
  apply and_then_ok in H. destruct H as (u & s2 & _ & H).
  unfold lift in H. injection H as H _. apply R. exact H.
Qed.

(** X14: every file an export returns has a path of two segments, the
    first being [intents] or [entities]: the importer reads all of them. *)
Theorem exported_files_located uuidv4 model locale files :
  fst (fromJovoModel uuidv4 model locale) = Ok files -> Forall located files.
Proof.
  unfold fromJovoModel.
  destruct (export_all uuidv4 locale {| held := model; drawn := 0 |}) as [outcome final] eqn:X.
  cbn [fst]. intros ->.
  unfold export_all in X. apply and_then_ok in X. destruct X as (m & s1 & _ & X).
  apply and_then_ok in X. destruct X as (returnFiles & s2 & F & X).
  apply and_then_ok in X. destruct X as (intentFiles & s3 & I & X).
  apply and_then_ok in X. destruct X as (entityFiles & s4 & E & X).
  injection X as <- _.
  apply Forall_app. split; [|apply Forall_app; split].
  - apply (@for_each_result _ _ (Forall located) (export_intent uuidv4 locale)
             (fun st a s0 st' s0' => @export_intent_located uuidv4 locale st a s0 st' s0')
             _ _ _ _ _ (Forall_nil _) F).
  - apply (@export_vendor_list_located _ _ _ _ _ _ _ _ (or_introl eq_refl) I).
  - apply (@export_vendor_list_located _ _ _ _ _ _ _ _ (or_intror eq_refl) E).
Qed.

Lemma exported_files_located_witness :
  exists files,
    fst (fromJovoModel sample_ids booking_model (str "en")) = Ok files
    /\ Forall located files.
Proof.
  assert (E : exists files, fst (fromJovoModel sample_ids booking_model (str "en")) = Ok files)
    by (eexists; vm_compute; reflexivity).
  destruct E as [files E]. exists files. split; [exact E|].
  exact (@exported_files_located sample_ids booking_model (str "en") files E).
Defined.

(** ** Exporting again *)

Lemma sanitize_synonyms_settled declared :
  sanitize_synonyms (fst (sanitize_synonyms declared)) = sanitize_synonyms declared.
Proof.
  induction declared as [|x l IH]; [reflexivity|].
  destruct x; try reflexivity. cbn [sanitize_synonyms].
  destruct (sanitize_synonyms l) as [mutated outcome]. cbn [fst] in *.
  cbn [sanitize_synonyms]. rewrite IH, sanitize_idempotent. reflexivity.
Qed.

Lemma export_value_settled dfEntityObj v :
  export_value dfEntityObj (fst (export_value dfEntityObj v)) = export_value dfEntityObj v.
Proof.
  destruct v as [s|r]; [reflexivity|].
  destruct (export_value dfEntityObj (ValueObject r)) as [v' out] eqn:X. cbn [fst].
  unfold export_value in X.
  destruct (negb (truthy (own dfEntityObj (str "isEnum")))
            && negb (truthy (own dfEntityObj (str "isRegexp")))) eqn:C.
  2:{ injection X as <- <-. unfold export_value. rewrite C. reflexivity. }
  destruct (value_of r) as [| | | |s| | |] eqn:V;
    try (injection X as <- <-; unfold export_value; rewrite C, V; reflexivity).
  destruct (synonyms r) as [declared|] eqn:D.
  2:{ injection X as <- <-. unfold export_value. rewrite C, V, D. reflexivity. }
  pose proof (sanitize_synonyms_settled declared) as S.
  destruct (sanitize_synonyms declared) as [mutated outcome]. cbn [fst] in S.
  injection X as <- <-.
  unfold export_value. rewrite C. cbn [value_of synonyms]. rewrite S. reflexivity.
Qed.

(** X15: exporting the values that an export left in the model gives the
    same entries, or the same exception, and changes the values no
    further: the rewriting of the declared synonyms is idempotent. *)
Theorem export_values_settled dfEntityObj vs :
  export_values dfEntityObj (fst (export_values dfEntityObj vs))
  = export_values dfEntityObj vs.
Proof.
  induction vs as [|v vs IH]; [reflexivity|]. cbn [export_values].
  pose proof (export_value_settled dfEntityObj v) as S.
  destruct (export_value dfEntityObj v) as [v' [entry|e]]; cbn [fst] in S.
  - destruct (export_values dfEntityObj vs) as [rest' outcome]. cbn [fst] in *.
    cbn [export_values]. rewrite S, IH. reflexivity.
  - cbn [fst export_values]. rewrite S. reflexivity.
Qed.

Lemma lookup_obj_delete {A} k (o : list (jsstring * A)) :
  NoDup (List.map fst o) -> lookup k (obj_delete k o) = None.
Proof.
  induction o as [|[k0 v0] o IH]; intros N; [reflexivity|].
  inversion N as [|x l Hx Hn]; subst. cbn [obj_delete].
  destruct (str_eqb k k0) eqn:E.
  - apply str_eqb_eq in E. subst k0. apply lookup_notin. exact Hx.
  - cbn [lookup]. rewrite E. apply IH. exact Hn.
Qed.

(** X16: after the loop over a vendor list has extracted [userSays] (or
    [entries]) from its records, a second run over the records it left
    extracts nothing: it leaves them as they are and, where the first run
    returned files, returns one file per record and no companion file;
    where the first run raised, it raises the same exception. *)
Theorem export_records_settled dir field suffix locale records :
  field = str "userSays" \/ field = str "entries" ->
  Forall keyed records ->
  export_records dir field suffix locale
    (fst (export_records dir field suffix locale records))
  = (fst (export_records dir field suffix locale records),
     match snd (export_records dir field suffix locale records) with
     | Ok _ =>
         Ok (List.map (record_file dir) (fst (export_records dir field suffix locale records)))
     | Raise e => Raise e
     end).
Proof.
  intros Hf Hk. induction Hk as [|record rest Hr Hl IH]; [reflexivity|].
  cbn [export_records].
  destruct (member record field) as [extracted|e] eqn:M.
  2:{ cbn [fst snd export_records]. rewrite M. reflexivity. }
  destruct (export_records dir field suffix locale rest) as [rest' outcome].
  cbn [fst snd] in *.
  set (stripped := match record with
                   | VObj o => if truthy extracted then VObj (obj_delete field o) else record
                   | _ => record
                   end).
  assert (S : member stripped field = Ok (own stripped field)
              /\ truthy (own stripped field) = false).
  { subst stripped.
    destruct record as [| | | | |l|o|]; try discriminate M;
      unfold member in M; injection M as <-.
    - split; [reflexivity|]. destruct Hf as [-> | ->]; reflexivity.
    - split; [reflexivity|]. destruct Hf as [-> | ->]; reflexivity.
    - split; [reflexivity|]. destruct Hf as [-> | ->]; reflexivity.
    - split; [reflexivity|]. destruct Hf as [-> | ->]; reflexivity.
    - match goal with
      | |- context [if ?c then _ else _] => destruct c eqn:T
      end; [|split; [reflexivity|exact T]].
      split; [reflexivity|]. cbn [own]. rewrite (@lookup_obj_delete _ field o Hr). reflexivity. }
  destruct S as [S1 S2].
  cbn [export_records]. rewrite S1, S2, IH.
  assert (Q : match stripped with
              | VObj _ => stripped
              | _ => stripped
              end = stripped) by (destruct stripped; reflexivity).
  rewrite Q. destruct outcome as [files|e]; reflexivity.
Qed.

Lemma export_records_settled_witness :
  exists records files,
    export_records (str "intents") (str "userSays") (str "_usersays_") (str "en")
      [VObj [(str "name", VStr (str "Hi")); (str "userSays", VArr [VStr (str "hello")])]]
    = (records, Ok files)
    /\ List.length files = 2%nat
    /\ export_records (str "intents") (str "userSays") (str "_usersays_") (str "en") records
       = (records, Ok (List.map (record_file (str "intents")) records)).
Proof.
  pose proof (@export_records_settled (str "intents") (str "userSays") (str "_usersays_")
                (str "en")
                [VObj [(str "name", VStr (str "Hi"));
                       (str "userSays", VArr [VStr (str "hello")])]]
                (or_introl eq_refl)) as S.
  destruct (export_records (str "intents") (str "userSays") (str "_usersays_") (str "en")
              [VObj [(str "name", VStr (str "Hi"));
                     (str "userSays", VArr [VStr (str "hello")])]])
    as [records outcome] eqn:E.
  assert (O : exists files, outcome = Ok files /\ List.length files = 2%nat).
  { revert E. vm_compute. intros [= _ <-]. eexists. split; reflexivity. }
  destruct O as (files & -> & L). exists records, files.
  split; [reflexivity|]. split; [exact L|].
  cbn [fst snd] in S. apply S.
  constructor; [|constructor]. simpl.
  repeat constructor; simpl; intuition discriminate.
Defined.

(** ** The files of an intent *)

Lemma merge_step_fields k srcValue (recur : value -> value) o :
  exists o',
    match srcValue with
    | VArr _ | VObj _ =>
        assignMergeValue (VObj o) k (recur (merge_target (own (VObj o) k) srcValue))
    | _ => assignMergeValue (VObj o) k srcValue
    end = VObj o'
    /\ (forall key, str_eqb key k = false -> lookup key o' = lookup key o)
    /\ (primitive srcValue -> lookup k o' = Some srcValue).
Proof.
  assert (A : forall v, exists o',
               assignMergeValue (VObj o) k v = VObj o'
               /\ (forall key, str_eqb key k = false -> lookup key o' = lookup key o)
               /\ (primitive v -> lookup k o' = Some v)).
  { intros v. unfold assignMergeValue, assign.
    destruct v;
      try (eexists; split; [reflexivity|]; split;
           [intros key Hk; rewrite lookup_obj_set, Hk; reflexivity
           |intros _; rewrite lookup_obj_set, str_eqb_refl; reflexivity]).
    destruct (has_key (VObj o) k).
    - exists o. split; [reflexivity|]. split; [reflexivity|intros []].
    - eexists. split; [reflexivity|]. split; [|intros []].
      intros key Hk. rewrite lookup_obj_set, Hk. reflexivity. }
  destruct srcValue; try apply A.
  - destruct (A (recur (merge_target (own (VObj o) k) (VArr items)))) as (o' & E & F & _).
    exists o'. split; [exact E|]. split; [exact F|intros []].
  - destruct (A (recur (merge_target (own (VObj o) k) (VObj props)))) as (o' & E & F & _).
    exists o'. split; [exact E|]. split; [exact F|intros []].
Qed.

Lemma merge_fields props : forall o,
  exists o',
    merge (VObj o) (VObj props) = VObj o'
    /\ (forall key, ~ In key (List.map fst props) -> lookup key o' = lookup key o)
    /\ (NoDup (List.map fst props) ->
        forall key v, In (key, v) props -> primitive v -> lookup key o' = Some v).
Proof.
  cbn [merge]. induction props as [|[k srcValue] props IH]; intros o.
  - exists o. split; [reflexivity|]. split; [reflexivity|intros _ key v []].
  - destruct (@merge_step_fields k srcValue (fun t => merge t srcValue) o)
      as (o1 & E1 & F1 & P1).
    rewrite E1. destruct (IH o1) as (o' & E & F & P).
    exists o'. split; [exact E|]. split.
    + intros key Hk. cbn [List.map fst In] in Hk.
      rewrite F by tauto. apply F1. apply str_eqb_neq. intros ->. tauto.
    + intros N key v Hin Hv. inversion N as [|x l Hx Hn]; subst.
      destruct Hin as [[= -> ->]|Hin].
      * rewrite F by exact Hx. apply P1. exact Hv.
      * apply (P Hn key v Hin Hv).
Qed.

Lemma export_phrases_length uuidv4 locale intentKey dfIntentObj phrases :
  forall samples s r s',
    for_each (export_phrase uuidv4 locale intentKey dfIntentObj) phrases samples s
    = (Ok r, s') ->
    List.length r = (List.length samples + List.length phrases)%nat.
Proof.
  induction phrases as [|p ps IH]; intros samples s r s'; cbn [for_each].
  - intros [= <- _]. simpl. lia.
  - intros H. apply and_then_ok in H. destruct H as (st & s1 & P & H).
    apply IH in H. rewrite H. unfold export_phrase in P.
    apply and_then_ok in P. destruct P as (m & s2 & _ & P).
    apply and_then_ok in P. destruct P as (data & s3 & _ & P).
    apply and_then_ok in P. destruct P as (id & s4 & _ & P).
    injection P as <- _. rewrite length_app. simpl. lia.
Qed.

Lemma export_intent_files uuidv4 locale returnFiles intentKey intentData s files s' :
  export_intent uuidv4 locale returnFiles (intentKey, intentData) s = (Ok files, s') ->
  exists companions id responses samples,
    files
    = returnFiles ++ companions
        ++ {| path := [str "intents"; intentKey ++ str ".json"];
              content :=
                if truthy (intent_dialogflow intentData)
                then merge (VObj ([ (str "id", VStr id);
                                    (str "name", VStr intentKey);
                                    (str "auto", VBool true);
                                    (str "webhookUsed", VBool true) ] ++ responses))
                       (intent_dialogflow intentData)
                else VObj ([ (str "id", VStr id);
                             (str "name", VStr intentKey);
                             (str "auto", VBool true);
                             (str "webhookUsed", VBool true) ] ++ responses) |}
        :: match samples with
           | [] => []
           | _ => [ {| path := [str "intents";
                                intentKey ++ str "_usersays_" ++ locale ++ str ".json"];
                       content := VArr samples |} ]
           end
    /\ List.length samples = List.length (phrases_of intentData)
    /\ (responses = []
        \/ exists parameters,
             responses = [(str "responses", VArr [VObj [(str "parameters", VArr parameters)]])]).
Proof.
  unfold export_intent. intros H.
  apply and_then_ok in H. destruct H as (id & s1 & _ & H).
  apply and_then_ok in H. destruct H as (m & s2 & _ & H).
  apply and_then_ok in H. destruct H as (built & s3 & B & H).
  apply and_then_ok in H. destruct H as (samples & s4 & P & H).
  apply export_phrases_length in P. cbn [List.length Nat.add] in P.
  assert (G : exists companions responses,
             built = (VObj ([ (str "id", VStr id); (str "name", VStr intentKey);
                              (str "auto", VBool true); (str "webhookUsed", VBool true) ]
                            ++ responses),
                      returnFiles ++ companions)
             /\ (responses = []
                 \/ exists parameters,
                      responses
                      = [(str "responses",
                           VArr [VObj [(str "parameters", VArr parameters)]])])).
  { destruct (JovoModelHelper.hasEntities m intentKey).
    - apply and_then_ok in B. destruct B as (filled & s5 & B & R).
      injection R as <- _.
      assert (E : exists added, snd filled = returnFiles ++ added).
      { assert (Step : forall st a s0 st' s0',
                         (exists added, snd st = returnFiles ++ added) ->
                         export_entity uuidv4 locale intentKey st a s0 = (Ok st', s0') ->
                         exists added, snd st' = returnFiles ++ added).
        { intros [p0 f0] [ek e] s0 st' s0' [added Ha] X. cbn [snd] in Ha. subst f0.
          unfold export_entity in X.
          apply and_then_ok in X. destruct X as (dataType & s6 & _ & X).
          apply and_then_ok in X. destruct X as (typed & s7 & _ & X).
          injection X as <- _. cbn [snd]. exists (added ++ snd typed).
          rewrite app_assoc. reflexivity. }
        apply (@for_each_result _ _ (fun st => exists added, snd st = returnFiles ++ added)
                 (export_entity uuidv4 locale intentKey) Step
                 _ ([], returnFiles) _ _ _
                 (ex_intro _ [] (eq_sym (app_nil_r returnFiles))) B). }
      destruct E as [added E]. exists added. eexists. split.
      + rewrite <- E. reflexivity.
      + right. eexists. reflexivity.
    - injection B as <- _. exists [], []. rewrite !app_nil_r. split; [reflexivity|].
      left. reflexivity. }
  destruct G as (companions & responses & -> & R). cbn [fst snd] in H.
  exists companions, id, responses, samples.
  split; [|split; [exact P|exact R]].
  destruct samples as [|x l]; cbn [List.length Nat.ltb Nat.leb] in H;
    injection H as <- _; rewrite <- ?app_assoc; reflexivity.
Qed.

Lemma export_intents_files uuidv4 locale l : forall returnFiles s r s',
  for_each (export_intent uuidv4 locale) l returnFiles s = (Ok r, s') ->
  (forall f, In f returnFiles -> In f r)
  /\ forall entry, In entry l ->
       exists rf0 s0 files0 s1,
         export_intent uuidv4 locale rf0 entry s0 = (Ok files0, s1)
         /\ forall f, In f files0 -> In f r.
Proof.
  induction l as [|[k i] l IH]; intros returnFiles s r s'; cbn [for_each].
  - intros [= <- _]. split; [auto|intros entry []].
  - intros H. apply and_then_ok in H. destruct H as (files1 & s1 & E & H).
    destruct (IH _ _ _ _ H) as [M A].
    destruct (@export_intent_files uuidv4 locale returnFiles k i s files1 s1 E)
      as (c & id & rs & ss & Q & _).
    split.
    + intros f Hf. apply M. rewrite Q. apply in_or_app. left. exact Hf.
    + intros entry [<-|Hin]; [|apply A; exact Hin].
      exists returnFiles, s. eexists. exists s1. split; [exact E|exact M].
Qed.

Lemma exported_intent_step uuidv4 model locale files intentKey intentData :
  fst (fromJovoModel uuidv4 model locale) = Ok files ->
  In (intentKey, intentData) (JovoModelHelper.getIntents model) ->
  exists rf0 s0 files0 s1,
    export_intent uuidv4 locale rf0 (intentKey, intentData) s0 = (Ok files0, s1)
    /\ forall f, In f files0 -> In f files.
Proof.
  unfold fromJovoModel.
  destruct (export_all uuidv4 locale {| held := model; drawn := 0 |}) as [outcome final] eqn:X.
  cbn [fst]. intros -> Hin.
  unfold export_all in X. apply and_then_ok in X. destruct X as (m & s1 & G & X).
  injection G as <- <-.
  apply and_then_ok in X. destruct X as (returnFiles & s2 & F & X).
  apply and_then_ok in X. destruct X as (intentFiles & s3 & _ & X).
  apply and_then_ok in X. destruct X as (entityFiles & s4 & _ & X).
  injection X as <- _. cbn [held] in F.
  destruct (@export_intents_files uuidv4 locale _ _ _ _ _ F) as [_ A].
  destruct (A _ Hin) as (rf0 & s0 & files0 & s5 & E & M).
  exists rf0, s0, files0, s5. split; [exact E|].
  intros f Hf. apply in_or_app. left. apply M. exact Hf.
Qed.

(** X17: an export that returns files returns, for every intent of the
    model, a file [intents/<name>.json].  When the intent has no truthy
    vendor sub-tree the record of the file has the name of the intent, an
    identifier string, [auto: true] and [webhookUsed: true].  When the
    intent has phrases, the export also returns the file
    [intents/<name>_usersays_<locale>.json] with one sample record per
    phrase. *)
Theorem every_intent_exported uuidv4 model locale files intentKey intentData :
  fst (fromJovoModel uuidv4 model locale) = Ok files ->
  In (intentKey, intentData) (JovoModelHelper.getIntents model) ->
  (exists f,
      In f files
      /\ path f = [str "intents"; intentKey ++ str ".json"]
      /\ (truthy (intent_dialogflow intentData) = false ->
          own (content f) (str "name") = VStr intentKey
          /\ own (content f) (str "auto") = VBool true
          /\ own (content f) (str "webhookUsed") = VBool true
          /\ exists id, own (content f) (str "id") = VStr id))
  /\ (phrases_of intentData <> [] ->
      exists g samples,
        In g files
        /\ path g = [str "intents"; intentKey ++ str "_usersays_" ++ locale ++ str ".json"]
        /\ content g = VArr samples
        /\ List.length samples = List.length (phrases_of intentData)).
Proof.
  intros H Hin.
  destruct (@exported_intent_step uuidv4 model locale files intentKey intentData H Hin)
    as (rf0 & s0 & files0 & s1 & E & M).
  destruct (@export_intent_files uuidv4 locale rf0 intentKey intentData s0 files0 s1 E)
    as (companions & id & responses & samples & -> & L & _).
  split.
  - eexists. split; [|split].
    + apply M. apply in_or_app. right. apply in_or_app. right. left. reflexivity.
    + reflexivity.
    + intros T. cbn [content]. rewrite T. repeat split. exists id. reflexivity.
  - intros P. destruct samples as [|x l].
    { destruct (phrases_of intentData); [congruence|discriminate L]. }
    exists {| path := [str "intents";
                       intentKey ++ str "_usersays_" ++ locale ++ str ".json"];
              content := VArr (x :: l) |}, (x :: l).
    split; [|split; [reflexivity|split; [reflexivity|exact L]]].
    apply M. apply in_or_app. right. apply in_or_app. right. right. left. reflexivity.
Qed.

Lemma every_intent_exported_witness :
  exists files f,
    fst (fromJovoModel sample_ids greeting_model (str "en")) = Ok files
    /\ In f files
    /\ path f = [str "intents"; str "Hello.json"]
    /\ own (content f) (str "webhookUsed") = VBool true.
Proof.
  assert (E : exists files, fst (fromJovoModel sample_ids greeting_model (str "en")) = Ok files)
    by (eexists; vm_compute; reflexivity).
  destruct E as [files E].
  destruct (@every_intent_exported sample_ids greeting_model (str "en") files
              (str "Hello") (plain_intent [str "hi"] None) E (or_introl eq_refl))
    as [(f & Hf & Hp & Hc) _].
  destruct (Hc eq_refl) as (_ & _ & W & _).
  exists files, f. repeat split; assumption.
Defined.

(** X18: when an intent has an object as vendor sub-tree, with distinct
    property names, the record of its file [intents/<name>.json] holds
    every property of the sub-tree whose value is [null], a boolean, a
    number or a string, with that value: such vendor properties override
    the generated ones, [id], [name], [auto] and [webhookUsed]
    included. *)
Theorem vendor_fields_override uuidv4 model locale files intentKey intentData o :
  fst (fromJovoModel uuidv4 model locale) = Ok files ->
  In (intentKey, intentData) (JovoModelHelper.getIntents model) ->
  intent_dialogflow intentData = VObj o ->
  NoDup (List.map fst o) ->
  exists f,
    In f files
    /\ path f = [str "intents"; intentKey ++ str ".json"]
    /\ forall key v, In (key, v) o -> primitive v -> own (content f) key = v.
Proof.
  intros H Hin Hd N.
  destruct (@exported_intent_step uuidv4 model locale files intentKey intentData H Hin)
    as (rf0 & s0 & files0 & s1 & E & M).
  destruct (@export_intent_files uuidv4 locale rf0 intentKey intentData s0 files0 s1 E)
    as (companions & id & responses & samples & -> & _ & _).
  eexists. split; [|split].
  - apply M. apply in_or_app. right. apply in_or_app. right. left. reflexivity.
  - reflexivity.
  - intros key v Hk Hv. cbn [content]. rewrite Hd. cbn [truthy].
    destruct (merge_fields o
                ([ (str "id", VStr id); (str "name", VStr intentKey);
                   (str "auto", VBool true); (str "webhookUsed", VBool true) ]
                 ++ responses)) as (o' & Em & _ & P).
    rewrite Em. cbn [own]. rewrite (P N key v Hk Hv). reflexivity.
Qed.

Lemma vendor_fields_override_witness :
  exists files f,
    fst (fromJovoModel sample_ids quiet_model (str "en")) = Ok files
    /\ In f files
    /\ path f = [str "intents"; str "Hello.json"]
    /\ own (content f) (str "webhookUsed") = VBool false.
Proof.
  assert (E : exists files, fst (fromJovoModel sample_ids quiet_model (str "en")) = Ok files)
    by (eexists; vm_compute; reflexivity).
  destruct E as [files E].
  destruct (@vendor_fields_override sample_ids quiet_model (str "en") files (str "Hello")
              {| phrases := Some [str "hi"; str "hello"];
                 entities := None;
                 intent_dialogflow := VObj [(str "webhookUsed", VBool false)] |}
              [(str "webhookUsed", VBool false)] E (or_introl eq_refl) eq_refl)
    as (f & Hf & Hp & Hc).
  - repeat constructor. simpl. tauto.
  - exists files, f. split; [exact E|]. split; [exact Hf|]. split; [exact Hp|].
    apply Hc; [left; reflexivity|exact I].
Defined.

(** ** The files of a custom entity type *)

Lemma for_each_steps {A S} (I : JovoModelData -> Prop) (body : S -> A -> Export S)
  (grow : S -> S -> Prop) :
  (forall st, grow st st) ->
  (forall a b c, grow a b -> grow b c -> grow a c) ->
  (forall st a, preserves I (body st a)) ->
  (forall st a s st' s', body st a s = (Ok st', s') -> grow st st') ->
  forall l st s r s',
    I (held s) ->
    for_each body l st s = (Ok r, s') ->
    grow st r
    /\ Forall (fun a => exists st0 s0 st1 s1,
                   I (held s0) /\ body st0 a s0 = (Ok st1, s1) /\ grow st1 r) l.
Proof.
  intros Gr Gt Hp Hg. induction l as [|a l IH]; intros st s r s' Hs; cbn [for_each].
  - intros [= <- _]. split; [apply Gr|constructor].
  - intros H. apply and_then_ok in H. destruct H as (st1 & s1 & B & H).
    assert (I1 : I (held s1)).
    { pose proof (Hp st a s Hs) as P. rewrite B in P. exact P. }
    destruct (IH st1 s1 r s' I1 H) as [G F].
    split; [eapply Gt; [eapply Hg; exact B|exact G]|].
    constructor; [|exact F].
    exists st, s, st1, s1. split; [exact Hs|]. split; [exact B|exact G].
Qed.

Lemma export_values_length dfEntityObj vs : forall entries,
  snd (export_values dfEntityObj vs) = Ok entries ->
  List.length entries = List.length vs.
Proof.
  induction vs as [|v vs IH]; intros entries; cbn [export_values].
  - intros [= <-]. reflexivity.
  - destruct (export_value dfEntityObj v) as [v' [entry|e]]; [|discriminate].
    destruct (export_values dfEntityObj vs) as [rest' [es|e]]; cbn [snd bind] in *;
      [|discriminate].
    intros [= <-]. simpl. rewrite (IH es eq_refl). reflexivity.
Qed.

Lemma export_entity_type_files uuidv4 locale name t s files s' :
  export_entity_type uuidv4 locale name t s = (Ok files, s') ->
  exists definition,
    path definition = [str "entities"; name ++ str ".json"]
    /\ In definition files
    /\ (values_of t <> [] ->
        exists g entries,
          In g files
          /\ path g = [str "entities"; name ++ str "_entries_" ++ locale ++ str ".json"]
          /\ content g = VArr entries
          /\ List.length entries = List.length (values_of t)).
Proof.
  unfold export_entity_type, values_of. intros H.
  apply and_then_ok in H. destruct H as (id & s1 & _ & H).
  destruct (values t) as [[|v vs]|].
  - injection H as <- _. exists {| path := [str "entities"; name ++ str ".json"];
              content := entity_record id name t |}.
    split; [reflexivity|]. split; [left; reflexivity|].
    congruence.
  - pose proof (@export_values_length
                  (entity_record id name t) (v :: vs)) as L.
    destruct (export_values (entity_record id name t) (v :: vs)) as [mutated outcome].
    apply and_then_ok in H. destruct H as (m & s2 & _ & H).
    apply and_then_ok in H. destruct H as (u & s3 & _ & H).
    apply and_then_ok in H. destruct H as (entityValues & s4 & O & H).
    unfold lift in O. injection O as -> _.
    injection H as <- _. exists {| path := [str "entities"; name ++ str ".json"];
              content := entity_record id name t |}.
    split; [reflexivity|]. split; [left; reflexivity|].
    intros _.
    exists {| path := [str "entities"; name ++ str "_entries_" ++ locale ++ str ".json"];
              content := VArr entityValues |}, entityValues.
    split; [right; left; reflexivity|]. split; [reflexivity|]. split; [reflexivity|].
    apply L. reflexivity.
  - injection H as <- _. exists {| path := [str "entities"; name ++ str ".json"];
              content := entity_record id name t |}.
    split; [reflexivity|]. split; [left; reflexivity|].
    congruence.
Qed.

Lemma export_entity_files uuidv4 locale intentKey st entityKey entityData s st' s' dataType :
  export_entity uuidv4 locale intentKey st (entityKey, entityData) s = (Ok st', s') ->
  native_name entityData = Some dataType ->
  startsWith dataType BUILTIN_PREFIX = false ->
  exists t added,
    JovoModelHelper.getEntityTypeByName (held s) dataType = Some t
    /\ snd st' = snd st ++ added
    /\ exists definition,
         path definition = [str "entities"; dataType ++ str ".json"]
         /\ In definition added
         /\ (values_of t <> [] ->
             exists g entries,
               In g added
               /\ path g
                  = [str "entities"; dataType ++ str "_entries_" ++ locale ++ str ".json"]
               /\ content g = VArr entries
               /\ List.length entries = List.length (values_of t)).
Proof.
  destruct st as [parameters returnFiles]. unfold export_entity. intros H Hn Hb.
  apply and_then_ok in H. destruct H as (dt & s1 & H1 & H).
  apply and_then_ok in H. destruct H as (typed & s2 & H2 & H).
  assert (N : dt = dataType /\ s1 = s).
  { unfold native_name in Hn.
    destruct (entity_type entityData) as [[[|c n]|vendors]|]; try discriminate H1.
    - injection H1 as <- <-. injection Hn as <-. split; reflexivity.
    - destruct (lookup (str "dialogflow") vendors) as [[|c n]|]; try discriminate H1.
      injection H1 as <- <-. injection Hn as <-. split; reflexivity. }
  destruct N as [-> ->]. rewrite Hb in H2. cbn [negb] in H2.
  apply and_then_ok in H2. destruct H2 as (m & s3 & G & H2).
  injection G as <- <-.
  destruct (negb (JovoModelHelper.hasEntityTypes (held s))); [discriminate H2|].
  destruct (JovoModelHelper.getEntityTypeByName (held s) dataType) as [t|].
  2:{ destruct (JovoModelHelper.isJovoModelV3 (held s)); discriminate H2. }
  apply and_then_ok in H2. destruct H2 as (files & s4 & T & R).
  injection R as <- _. injection H as <- _. cbn [snd].
  exists t, files. split; [reflexivity|]. split; [reflexivity|].
  apply (@export_entity_type_files uuidv4 locale dataType t s files s4 T).
Qed.

Lemma lookup_type_values k : forall l0 l (x : EntityType),
  Forall2 type_frame l0 l ->
  lookup k l = Some x ->
  exists x0, lookup k l0 = Some x0 /\ List.length (values_of x0) = List.length (values_of x).
Proof.
  intros l0 l x F. revert x.
  induction F as [|[k0 t0] [k1 t1] l0 l (E & _ & V) F IH]; intros x; simpl; [discriminate|].
  simpl in E, V. subst k1. destruct (str_eqb k k0); [|apply IH].
  intros [= <-]. exists t0. split; [reflexivity|]. unfold values_of.
  destruct (values t0), (values t1); try contradiction; [|reflexivity].
  apply (Forall2_length V).
Qed.

Lemma export_intent_entities uuidv4 locale returnFiles intentKey intentData s files s' :
  export_intent uuidv4 locale returnFiles (intentKey, intentData) s = (Ok files, s') ->
  JovoModelHelper.hasEntities (held s) intentKey = true ->
  exists filled s1,
    for_each (export_entity uuidv4 locale intentKey)
      (JovoModelHelper.getEntities (held s) intentKey) ([], returnFiles)
      {| held := held s; drawn := S (drawn s) |} = (Ok filled, s1)
    /\ forall f, In f (snd filled) -> In f files.
Proof.
  unfold export_intent. intros H Hh.
  apply and_then_ok in H. destruct H as (id & s1 & U & H).
  injection U as _ <-.
  apply and_then_ok in H. destruct H as (m & s2 & G & H).
  injection G as <- <-. cbn [held] in H.
  apply and_then_ok in H. destruct H as (built & s3 & B & H).
  apply and_then_ok in H. destruct H as (samples & s4 & _ & H).
  rewrite Hh in B. apply and_then_ok in B. destruct B as (filled & s5 & B & R).
  injection R as <- _. exists filled, s5. split; [exact B|].
  intros f Hf. cbn [snd] in H.
  destruct (0 <? List.length samples)%nat; injection H as <- _;
    repeat (apply in_or_app; left); exact Hf.
Qed.

(** X19: an export that returns files returns, for every entity of an
    intent whose native type does not start with [@sys.], the file
    [entities/<type>.json] of the entity type of that name and, when the
    type has values, the file [entities/<type>_entries_<locale>.json] with
    one entry per value. *)
Theorem custom_types_exported uuidv4 model locale files
  intentKey intentData entityKey entityData dataType :
  fst (fromJovoModel uuidv4 model locale) = Ok files ->
  In (intentKey, intentData) (JovoModelHelper.getIntents model) ->
  JovoModelHelper.hasEntities model intentKey = true ->
  In (entityKey, entityData) (JovoModelHelper.getEntities model intentKey) ->
  native_name entityData = Some dataType ->
  startsWith dataType BUILTIN_PREFIX = false ->
  exists t definition,
    JovoModelHelper.getEntityTypeByName model dataType = Some t
    /\ In definition files
    /\ path definition = [str "entities"; dataType ++ str ".json"]
    /\ (values_of t <> [] ->
        exists g entries,
          In g files
          /\ path g = [str "entities"; dataType ++ str "_entries_" ++ locale ++ str ".json"]
          /\ content g = VArr entries
          /\ List.length entries = List.length (values_of t)).
Proof.
  intros H Hi Hh He Hn Hb. unfold fromJovoModel in H.
  destruct (export_all uuidv4 locale {| held := model; drawn := 0 |}) as [outcome final] eqn:X.
  cbn [fst] in H. subst outcome.
  unfold export_all in X. apply and_then_ok in X. destruct X as (m & s1 & G & X).
  injection G as <- <-.
  apply and_then_ok in X. destruct X as (returnFiles & s2 & F & X).
  apply and_then_ok in X. destruct X as (intentFiles & s3 & _ & X).
  apply and_then_ok in X. destruct X as (entityFiles & s4 & _ & X).
  injection X as <- _. cbn [held] in F.
  assert (I0 : synonyms_frame model (held {| held := model; drawn := 0 |})).
  { repeat split. apply types_frame_refl. }
  destruct (@for_each_steps _ _ (synonyms_frame model) (export_intent uuidv4 locale)
              (fun a b : list NativeFileInformation => forall f, In f a -> In f b)
              (fun st f Hf => Hf)
              (fun a b c Hab Hbc f Hf => Hbc f (Hab f Hf))
              (fun st e => @export_intent_frame model uuidv4 locale st e)) with
    (l := JovoModelHelper.getIntents model) (st := @nil NativeFileInformation)
    (s := {| held := model; drawn := 0 |}) (r := returnFiles) (s' := s2) as [_ A].
  { intros st [k i] s0 st' s0' E.
    destruct (@export_intent_files uuidv4 locale st k i s0 st' s0' E)
      as (c & id & rs & ss & -> & _).
    intros f Hf. apply in_or_app. left. exact Hf. }
  { exact I0. }
  { exact F. }
  rewrite Forall_forall in A.
  destruct (A _ Hi) as (rf0 & s0 & files0 & s5 & I1 & E & M).
  assert (Q : intents (held s0) = intents model) by (destruct I1 as (_ & _ & _ & Q & _); exact Q).
  assert (Hh' : JovoModelHelper.hasEntities (held s0) intentKey = true).
  { unfold JovoModelHelper.hasEntities, JovoModelHelper.getIntents in *.
    rewrite Q. exact Hh. }
  assert (He' : JovoModelHelper.getEntities (held s0) intentKey
                = JovoModelHelper.getEntities model intentKey).
  { unfold JovoModelHelper.getEntities, JovoModelHelper.getIntents. rewrite Q. reflexivity. }
  destruct (@export_intent_entities uuidv4 locale rf0 intentKey intentData s0 files0 s5 E Hh')
    as (filled & s6 & B & N).
  rewrite He' in B.
  destruct (@for_each_steps _ _ (synonyms_frame model)
              (export_entity uuidv4 locale intentKey)
              (fun a b : list value * list NativeFileInformation =>
                 forall f, In f (snd a) -> In f (snd b))
              (fun st f Hf => Hf)
              (fun a b c Hab Hbc f Hf => Hbc f (Hab f Hf))
              (fun st e => @export_entity_frame model uuidv4 locale intentKey st e)) with
    (l := JovoModelHelper.getEntities model intentKey)
    (st := (@nil value, rf0))
    (s := {| held := held s0; drawn := S (drawn s0) |}) (r := filled) (s' := s6) as [_ C].
  { intros [p0 f0] [ek e] s7 st' s7' Y.
    unfold export_entity in Y.
    apply and_then_ok in Y. destruct Y as (dt & s8 & _ & Y).
    apply and_then_ok in Y. destruct Y as (typed & s9 & _ & Y).
    injection Y as <- _. cbn [snd]. intros f Hf. apply in_or_app. left. exact Hf. }
  { exact I1. }
  { exact B. }
  rewrite Forall_forall in C.
  destruct (C _ He) as (st1 & s7 & st2 & s8 & I2 & D & K).
  destruct (@export_entity_files uuidv4 locale intentKey st1 entityKey entityData s7 st2 s8
              dataType D Hn Hb)
    as (t' & added & T & Ea & definition & Pd & Id & V).
  destruct I2 as (_ & _ & _ & _ & _ & TF).
  unfold JovoModelHelper.getEntityTypeByName in *. unfold types_frame in TF.
  destruct (entityTypes model) as [l0|], (entityTypes (held s7)) as [l1|];
    try contradiction; try discriminate T.
  destruct (lookup_type_values _ TF T) as (t & Lt & Len).
  assert (Up : forall f, In f added -> In f (returnFiles ++ intentFiles ++ entityFiles)).
  { intros f Hf. apply in_or_app. left. apply M, N, K. rewrite Ea.
    apply in_or_app. right. exact Hf. }
  exists t, definition. split; [exact Lt|]. split; [apply Up; exact Id|].
  split; [exact Pd|]. intros Hv.
  destruct V as (g & entries & Ig & Pg & Cg & Lg).
  { intros Z. apply Hv. destruct (values_of t); [reflexivity|].
    rewrite Z in Len. discriminate Len. }
  exists g, entries. split; [apply Up; exact Ig|]. split; [exact Pg|].
  split; [exact Cg|]. rewrite Lg. symmetry. exact Len.
Qed.

Lemma custom_types_exported_witness :
  exists files t definition g entries,
    fst (fromJovoModel sample_ids travel_model (str "en")) = Ok files
    /\ JovoModelHelper.getEntityTypeByName travel_model (str "city") = Some t
    /\ In definition files
    /\ path definition = [str "entities"; str "city.json"]
    /\ In g files
    /\ path g = [str "entities"; str "city_entries_en.json"]
    /\ content g = VArr entries
    /\ List.length entries = 1%nat.
Proof.
  assert (E : exists files, fst (fromJovoModel sample_ids travel_model (str "en")) = Ok files)
    by (eexists; vm_compute; reflexivity).
  destruct E as [files E].
  destruct (@custom_types_exported sample_ids travel_model (str "en") files
              (str "Travel")
              (plain_intent [str "go to {where}"]
                 (Some [(str "where", plain_entity (TypeName (str "city")))]))
              (str "where") (plain_entity (TypeName (str "city"))) (str "city")
              E (or_introl eq_refl) eq_refl (or_introl eq_refl) eq_refl eq_refl)
    as (t & definition & T & Id & Pd & V).
  assert (Tv : t = {| values :=
                        Some [ValueObject {| value_of := VStr (str "Berlin");
                                             synonyms := Some [VStr (str "Spree-Athen!")] |}];
                      entityType_dialogflow := VUndef |}).
  { revert T. vm_compute. intros [= <-]. reflexivity. }
  destruct V as (g & entries & Ig & Pg & Cg & Lg).
  { rewrite Tv. discriminate. }
  exists files, t, definition, g, entries.
  repeat split; try assumption. rewrite Lg, Tv. reflexivity.
Defined.

(** ** The parameters of an exported intent *)

Lemma export_entity_parameter uuidv4 locale intentKey st entry s st' s' :
  export_entity uuidv4 locale intentKey st entry s = (Ok st', s') ->
  truthy (entity_dialogflow (snd entry)) = false ->
  fst st' = fst st ++ [exported_parameter entry].
Proof.
  destruct st as [parameters returnFiles], entry as [entityKey entityData].
  unfold export_entity. cbn [snd fst]. intros H Hd.
  apply and_then_ok in H. destruct H as (dataType & s1 & H1 & H).
  apply and_then_ok in H. destruct H as (typed & s2 & H2 & H).
  rewrite Hd in H. injection H as <- _. cbn [fst].
  assert (N : native_name entityData = Some dataType /\ s1 = s).
  { unfold native_name.
    destruct (entity_type entityData) as [[[|c n]|vendors]|]; try discriminate H1.
    - injection H1 as <- <-. split; reflexivity.
    - destruct (lookup (str "dialogflow") vendors) as [[|c n]|]; try discriminate H1.
      injection H1 as <- <-. split; reflexivity. }
  destruct N as [N ->]. unfold exported_parameter. cbn [fst snd]. rewrite N.
  destruct (startsWith dataType BUILTIN_PREFIX); cbn [negb] in H2.
  - injection H2 as <- _. reflexivity.
  - apply and_then_ok in H2. destruct H2 as (m & s3 & H3 & H2).
    injection H3 as <- <-.
    destruct (JovoModelHelper.hasEntityTypes (held s)); cbn [negb] in H2; [|discriminate H2].
    destruct (JovoModelHelper.getEntityTypeByName (held s) dataType) as [t|].
    + apply and_then_ok in H2. destruct H2 as (fs & s4 & _ & H2).
      injection H2 as <- _. reflexivity.
    + destruct (JovoModelHelper.isJovoModelV3 (held s)); discriminate H2.
Qed.

Lemma export_entities_parameters uuidv4 locale intentKey : forall l st s r s',
  for_each (export_entity uuidv4 locale intentKey) l st s = (Ok r, s') ->
  Forall (fun entry => truthy (entity_dialogflow (snd entry)) = false) l ->
  fst r = fst st ++ List.map exported_parameter l.
Proof.
  induction l as [|entry l IH]; intros st s r s' H F.
  - injection H as <- _. rewrite app_nil_r. reflexivity.
  - cbn [for_each] in H. apply and_then_ok in H. destruct H as (st1 & s1 & B & H).
    inversion F as [|? ? Fe Fl]; subst.
    rewrite (IH _ _ _ _ H Fl), (@export_entity_parameter _ _ _ _ _ _ _ _ B Fe).
    rewrite <- app_assoc. reflexivity.
Qed.

Lemma export_intent_parameters uuidv4 locale returnFiles intentKey intentData s files s' :
  export_intent uuidv4 locale returnFiles (intentKey, intentData) s = (Ok files, s') ->
  JovoModelHelper.hasEntities (held s) intentKey = true ->
  truthy (intent_dialogflow intentData) = false ->
  exists filled s1 id,
    for_each (export_entity uuidv4 locale intentKey)
      (JovoModelHelper.getEntities (held s) intentKey) ([], returnFiles)
      {| held := held s; drawn := S (drawn s) |} = (Ok filled, s1)
    /\ In {| path := [str "intents"; intentKey ++ str ".json"];
             content :=
               VObj [ (str "id", VStr id);
                      (str "name", VStr intentKey);
                      (str "auto", VBool true);
                      (str "webhookUsed", VBool true);
                      (str "responses",
                        VArr [VObj [(str "parameters", VArr (fst filled))]]) ] |}
         files.
Proof.
  unfold export_intent. intros H Hh Hd.
  apply and_then_ok in H. destruct H as (id & s1 & U & H).
  injection U as <- <-.
  apply and_then_ok in H. destruct H as (m & s2 & G & H).
  injection G as <- <-. cbn [held] in H.
  apply and_then_ok in H. destruct H as (built & s3 & B & H).
  apply and_then_ok in H. destruct H as (samples & s4 & _ & H).
  rewrite Hh in B. apply and_then_ok in B. destruct B as (filled & s5 & B & R).
  injection R as <- <-. exists filled, s5, (uuidv4 (drawn s)). split; [exact B|].
  rewrite Hd in H. cbn [snd fst app] in H.
  destruct (0 <? List.length samples)%nat; injection H as <- _.
  - apply in_or_app. left. apply in_or_app. right. left. reflexivity.
  - apply in_or_app. right. left. reflexivity.
Qed.

Lemma exported_intent_state uuidv4 model locale files intentKey intentData :
  fst (fromJovoModel uuidv4 model locale) = Ok files ->
  In (intentKey, intentData) (JovoModelHelper.getIntents model) ->
  exists rf0 s0 files0 s1,
    synonyms_frame model (held s0)
    /\ export_intent uuidv4 locale rf0 (intentKey, intentData) s0 = (Ok files0, s1)
    /\ forall f, In f files0 -> In f files.
Proof.
  intros H Hi. unfold fromJovoModel in H.
  destruct (export_all uuidv4 locale {| held := model; drawn := 0 |}) as [outcome final] eqn:X.
  cbn [fst] in H. subst outcome.
  unfold export_all in X. apply and_then_ok in X. destruct X as (m & s1 & G & X).
  injection G as <- <-.
  apply and_then_ok in X. destruct X as (returnFiles & s2 & F & X).
  apply and_then_ok in X. destruct X as (intentFiles & s3 & _ & X).
  apply and_then_ok in X. destruct X as (entityFiles & s4 & _ & X).
  injection X as <- _. cbn [held] in F.
  assert (I0 : synonyms_frame model (held {| held := model; drawn := 0 |})).
  { repeat split. apply types_frame_refl. }
  destruct (@for_each_steps _ _ (synonyms_frame model) (export_intent uuidv4 locale)
              (fun a b : list NativeFileInformation => forall f, In f a -> In f b)
              (fun st f Hf => Hf)
              (fun a b c Hab Hbc f Hf => Hbc f (Hab f Hf))
              (fun st e => @export_intent_frame model uuidv4 locale st e)) with
    (l := JovoModelHelper.getIntents model) (st := @nil NativeFileInformation)
    (s := {| held := model; drawn := 0 |}) (r := returnFiles) (s' := s2) as [_ A].
  { intros st [k i] s0 st' s0' E.
    destruct (@export_intent_files uuidv4 locale st k i s0 st' s0' E)
      as (c & id & rs & ss & -> & _).
    intros f Hf. apply in_or_app. left. exact Hf. }
  { exact I0. }
  { exact F. }
  rewrite Forall_forall in A.
  destruct (A _ Hi) as (rf0 & s0 & files0 & s5 & I1 & E & M).
  exists rf0, s0, files0, s5. split; [exact I1|]. split; [exact E|].
  intros f Hf. apply in_or_app. left. apply M. exact Hf.
Qed.

(** X20: an export that returns files returns, for an intent with
    entities and without truthy vendor sub-tree, none of whose entities has
    a truthy vendor sub-tree, the file [intents/<name>.json] whose record
    has one response with one parameter per entity, in the order of the
    entities: [isList: false], the name of the entity, [$] and the name as
    value, and as type the native type of the entity, as it is when it
    starts with [@sys.] and behind [@] otherwise. *)
Theorem parameters_exported uuidv4 model locale files intentKey intentData :
  fst (fromJovoModel uuidv4 model locale) = Ok files ->
  In (intentKey, intentData) (JovoModelHelper.getIntents model) ->
  JovoModelHelper.hasEntities model intentKey = true ->
  truthy (intent_dialogflow intentData) = false ->
  Forall (fun entry => truthy (entity_dialogflow (snd entry)) = false)
    (JovoModelHelper.getEntities model intentKey) ->
  exists f,
    In f files
    /\ path f = [str "intents"; intentKey ++ str ".json"]
    /\ own (content f) (str "responses")
       = VArr [VObj [(str "parameters",
                       VArr (List.map exported_parameter
                               (JovoModelHelper.getEntities model intentKey)))]].
Proof.
  intros H Hi Hh Hd Fe.
  destruct (@exported_intent_state uuidv4 model locale files intentKey intentData H Hi)
    as (rf0 & s0 & files0 & s1 & I1 & E & M).
  assert (Q : intents (held s0) = intents model) by (destruct I1 as (_ & _ & _ & Q & _); exact Q).
  assert (Hh' : JovoModelHelper.hasEntities (held s0) intentKey = true).
  { unfold JovoModelHelper.hasEntities, JovoModelHelper.getIntents in *.
    rewrite Q. exact Hh. }
  assert (He' : JovoModelHelper.getEntities (held s0) intentKey
                = JovoModelHelper.getEntities model intentKey).
  { unfold JovoModelHelper.getEntities, JovoModelHelper.getIntents. rewrite Q. reflexivity. }
  destruct (@export_intent_parameters uuidv4 locale rf0 intentKey intentData s0 files0 s1
              E Hh' Hd) as (filled & s2 & id & B & Hf).
  rewrite He' in B.
  pose proof (@export_entities_parameters uuidv4 locale intentKey _ _ _ _ _ B Fe) as P.
  cbn [fst app] in P. rewrite P in Hf.
  eexists. split; [apply M; exact Hf|]. split; reflexivity.
Qed.

Lemma parameters_exported_witness :
  exists files f,
    fst (fromJovoModel sample_ids travel_model (str "en")) = Ok files
    /\ In f files
    /\ path f = [str "intents"; str "Travel.json"]
    /\ own (content f) (str "responses")
       = VArr [VObj [(str "parameters",
                       VArr [VObj [ (str "isList", VBool false);
                                    (str "name", VStr (str "where"));
                                    (str "value", VStr (str "$where"));
                                    (str "dataType", VStr (str "@city")) ]])]].
Proof.
  assert (E : exists files, fst (fromJovoModel sample_ids travel_model (str "en")) = Ok files)
    by (eexists; vm_compute; reflexivity).
  destruct E as [files E].
  destruct (@parameters_exported sample_ids travel_model (str "en") files
              (str "Travel")
              (plain_intent [str "go to {where}"]
                 (Some [(str "where", plain_entity (TypeName (str "city")))]))
              E (or_introl eq_refl) eq_refl eq_refl)
    as (f & If & Pf & Cf).
  { repeat constructor. }
  exists files, f. repeat split; assumption.
Defined.

(** ** What an export changes in the model *)

(** X21: whether it returns files or raises, an export leaves the
    schema, the version, the invocation and the intents of the model as
    they were; entity types keep their names, order, vendor sub-trees and
    values, while a declared synonym may be replaced by its sanitized
    form; in the vendor sub-tree only the records of the lists [intents]
    and [entities] may change, by losing [userSays] and [entries]. *)
Theorem export_changes_only_synonyms_and_vendor_records uuidv4 model locale :
  export_frame model (snd (fromJovoModel uuidv4 model locale)).
Proof.
  unfold fromJovoModel, export_all, and_then, get_model. simpl.
  pose proof (@preserves_for_each _ _ (synonyms_frame model)
                (export_intent uuidv4 locale)
                (fun st e => @export_intent_frame model uuidv4 locale st e)
                (JovoModelHelper.getIntents model) []
                {| held := model; drawn := 0 |}) as F.
  simpl in F.
  assert (F0 : synonyms_frame model model).
  { repeat split. apply types_frame_refl. }
  specialize (F F0). clear F0.
  destruct (for_each _ _ _ _) as [[returnFiles|e] s1]; simpl in *.
  2:{ destruct F as (H1 & H2 & H3 & H4 & H5 & H6). repeat split; try assumption.
      exists (dialogflow model). split; [left; reflexivity|left; exact H5]. }
  destruct (export_vendor_list_frame (str "intents") (str "intents") (str "userSays")
              (str "_usersays_") locale s1) as (d1 & E1 & V1).
  destruct (export_vendor_list (str "intents") _ _ _ locale s1) as [[intentFiles|e] s2];
    simpl in *.
  2:{ destruct F as (H1 & H2 & H3 & H4 & H5 & H6). rewrite E1.
      repeat split; simpl; try assumption.
      exists d1. split; [rewrite <- H5; exact V1|left; reflexivity]. }
  destruct (export_vendor_list_frame (str "entities") (str "entities") (str "entries")
              (str "_entries_") locale s2) as (d2 & E2 & V2).
  assert (G : held (snd (export_vendor_list (str "entities") (str "entities")
                           (str "entries") (str "_entries_") locale s2))
              = with_dialogflow d2 (with_dialogflow d1 (held s1))).
  { rewrite E2, E1. reflexivity. }
  rewrite E1 in V2. simpl in V2.
  destruct F as (H1 & H2 & H3 & H4 & H5 & H6).
  assert (R : export_frame model (with_dialogflow d2 (with_dialogflow d1 (held s1)))).
  { repeat split; simpl; try assumption.
    exists d1. split; [rewrite <- H5; exact V1|exact V2]. }
  destruct (export_vendor_list (str "entities") _ _ _ locale s2) as [[entityFiles|e] s3];
    simpl in *; rewrite G; exact R.
Qed.
